(** * Discrete-time Markov microsimulation with economic evaluation

    A shallow embedding of the two engine variants of the repository,
    [MarkovModelClasses.py] and [EconEvalMarkovModelClasses.py]: the patient
    state monitor, the cost/utility accumulator, the patient simulation loop
    and the cohort driver, followed by the properties proved about them.

    Conventions.
    - Python [int] is [Z]; the real-valued quantities (times, costs,
      utilities, rates) are exact rationals [Q], so [time_step + 0.5] is
      [inject_Z time_step + 1#2].
    - [None]-able attributes are [option].
    - A method is a function from the object's state to a [completion]: it
      either returns, leaving the object in a new state, or raises, leaving
      the object in the state reached when the exception left the method.
    - Lists indexed by an enumeration value use stdpp's lookup [l !! i];
      [None] is Python's [IndexError].
    - A call of a library constructor is a function to [exn + T]: it raises
      an exception of the library's choosing or returns an object. *)

From Stdlib Require Import ZArith QArith Qpower Lia Lqa.
From stdpp Require Import base decidable option list strings.

(** ** Exceptions *)

(** [IndexError] and [ValueError] are raised by the engines' own statements
    (a list index out of range, [HealthStates(i)] for an [i] that no member
    has); a library may raise these or an exception of any other class, which
    is [LibraryError] with the name of the class. *)
Inductive exn : Set :=
| IndexError
| ValueError
| LibraryError (class_name : string).

(** ** External collaborators *)

(** Modelled from the spec: the enumeration [HealthStates] lives in
    [ParameterClasses] / [EconEvalInputData], which are not among the sources.
    The engine uses four things of it: equality of members, the attribute
    [.value] (the row index of a state), the constructor call
    [HealthStates(i)] (a [ValueError] when no member has value [i]) and the two
    distinguished members [AIDS] and [HIV_DEATH]. *)
Class HealthStateEnum : Type := {
  HealthStates : Type;
  HealthStates_eq_dec :: EqDecision HealthStates;
  value : HealthStates -> nat;
  HealthStates_of : nat -> option HealthStates;
  AIDS : HealthStates;
  HIV_DEATH : HealthStates;
}.

(** Modelled from the spec: the random stream and the categorical sampler
    ([RVGs.RNG] with [RVGs.Empirical.sample], respectively
    [numpy.random.RandomState] with [MarkovJumpProcess.get_next_state]) are
    library code.  A generator is a value of the type [RNG]; seeding is a
    total function of the seed; drawing from a row of probabilities returns an
    index together with the advanced generator, and nothing else decides the
    index.  The type of generators is a class
    of its own, so that the types of the model depend on it alone and not on
    the sampling function. *)
Class RandomCarrier : Type := {
  RNG : Type;
}.

Class RandomSource `{RandomCarrier} : Type := {
  RNG_seed : Z -> RNG;
  Empirical_sample : list Q -> RNG -> nat * RNG;
}.

(** The library classes that the engines construct and whose code is not
    among the sources: the summary statistics and the sample path of SimPy
    ([Stat.SummaryStat], [Path.PrevalencePathBatchUpdate], used by
    [MarkovModelClasses.py]) and of deampy ([stat.SummaryStat],
    [PrevalencePathBatchUpdate], used by [EconEvalMarkovModelClasses.py]),
    and deampy's [MarkovJumpProcess].  The engines read nothing from the
    objects, whose types are left open.  Every constructor is taken as a
    parameter: given its arguments it raises an exception, which the library
    chooses, or returns an object.  Of [MarkovJumpProcess] the constructor
    either raises or builds the process on the matrix it is given;
    [get_next_state] on a state that has a row samples from that row (see
    [Patient.get_next_state] below) and on a state without a row raises an
    exception that again the library chooses. *)
Class LibraryCarrier : Type := {
  StatObject : Type;
  PathObject : Type;
}.

Class Library `{LibraryCarrier} : Type := {
  SimPy_SummaryStat : string -> list (option Q) -> exn + StatObject;
  SimPy_PrevalencePathBatchUpdate : string -> Z -> list Q -> list Z -> exn + PathObject;
  deampy_SummaryStat : string -> list Q -> exn + StatObject;
  deampy_PrevalencePathBatchUpdate : string -> Z -> list Q -> list Z -> exn + PathObject;
  deampy_MarkovJumpProcess : list (list Q) -> option exn;
  deampy_get_next_state_error : list (list Q) -> nat -> exn;
}.

(** Modelled from the spec: [econ.pv_single_payment] is library code; the
    spec gives [PV = payment / (1 + rate) ^ period]. *)
Definition pv_single_payment (payment discount_rate : Q) (discount_period : Z) : Q :=
  (payment / (1 + discount_rate) ^ discount_period)%Q.

(** Modelled from the spec: the parameter object (built by the absent
    [ParameterClasses] module); the fields are the attributes the engine
    reads. *)
Record Parameters `{HealthStateEnum} : Type := {
  initialHealthState : HealthStates;
  probMatrix : list (list Q);
  annualStateCosts : list Q;
  annualStateUtilities : list Q;
  annualTreatmentCost : Q;
  discountRate : Q;
}.

(** ** Outcomes of a method call *)

(** [OutOfFuel] is the only outcome that is not Python's: the [while] loop of
    [Patient.simulate] is run on a step budget, and a budget that is too small
    is reported instead of being passed off as a result. *)
Inductive completion (S : Type) : Type :=
| Returns (s : S)
| Raises (e : exn) (s : S)
| OutOfFuel.
Arguments Returns {S} s.
Arguments Raises {S} e s.
Arguments OutOfFuel {S}.

Definition state_after {S : Type} (c : completion S) : option S :=
  match c with
  | Returns s | Raises _ s => Some s
  | OutOfFuel => None
  end.

(** The loop of [Patient.simulate], shared by the two engines:

      k = 0
      while <alive> and k < n_time_steps:
          <body at step k>
          k += 1

    over a loop state [St] (the objects and locals the body mutates).  The
    result carries the local [k] as it stands when the loop is left; an
    exception leaves [k] at the step whose body raised. *)
Section while_loop.
Context {St : Type} (alive : St -> bool) (body : St -> Z -> completion St).

Fixpoint while_loop (fuel : nat) (n_time_steps : Z) (st : St) (k : Z)
  : completion (St * Z) :=
  if alive st && (k <? n_time_steps)%Z
  then
    match fuel with
    | O => OutOfFuel
    | S fuel' =>
        match body st k with
        | Returns st' => while_loop fuel' n_time_steps st' (k + 1)%Z
        | Raises e st' => Raises e (st', k)
        | OutOfFuel => OutOfFuel
        end
    end
  else Returns (st, k).

(** The loop on the budget that [Patient.simulate] gives it: the number of
    steps between [k] and the cap. *)
Definition loop (n_time_steps : Z) (st : St) (k : Z) : completion (St * Z) :=
  while_loop (Z.to_nat (n_time_steps - k)) n_time_steps st k.

(** A value [mark] read off the loop state, after the loop has run from
    [st0] to the cap [n]. *)
Definition mark_after (mark : St -> option Q) (st0 : St) (n : Z) : option (option Q) :=
  (fun x => mark x.1) <$> state_after (loop n st0 0%Z).

(** The passes through the body that a run is made of: [passes k st k' st']
    when the body was executed at the steps [k], [k + 1], ..., [k' - 1], one
    after the other, each time on a state that the loop condition accepts,
    returned each time, and took [st] to [st'].  The steps executed are
    [k' - k] in number. *)
Inductive passes : Z -> St -> Z -> St -> Prop :=
| passes_none (k : Z) (st : St) : passes k st k st
| passes_step (k : Z) (st st1 : St) (k' : Z) (st' : St) :
    alive st = true -> body st k = Returns st1 ->
    passes (k + 1)%Z st1 k' st' ->
    passes k st k' st'.
End while_loop.

(** [time_step + 0.5], the half-cycle correction. *)
Definition half_cycle (time_step : Z) : Q := (inject_Z time_step + (1 # 2))%Q.

(** ** The guarded engine: [MarkovModelClasses.py] *)

Module MarkovModelClasses.

Module PatientCostUtilityMonitor.
Section defs.
Context `{HealthStateEnum}.

Record t : Type := {
  params : Parameters;
  totalDiscountedCost : Q;
  totalDiscountedUtility : Q;
}.

Definition init (parameters : Parameters) : t :=
  {| params := parameters;
     totalDiscountedCost := 0;
     totalDiscountedUtility := 0 |}.

(** The body of [update] in this file consists of its docstring and
    comments only: the call returns without touching the totals. *)
Definition update (self : t) (k : Z) (current_state next_state : HealthStates)
  : completion t :=
  Returns self.
End defs.
End PatientCostUtilityMonitor.

Module PatientStateMonitor.
Section defs.
Context `{HealthStateEnum}.

Record t : Type := {
  currentState : HealthStates;
  survivalTime : option Q;
  timeToAIDS : option Q;
  ifDevelopedAIDS : bool;
  costUtilityMonitor : PatientCostUtilityMonitor.t;
}.

Definition init (parameters : Parameters) : t :=
  {| currentState := initialHealthState parameters;
     survivalTime := None;
     timeToAIDS := None;
     ifDevelopedAIDS := false;
     costUtilityMonitor := PatientCostUtilityMonitor.init parameters |}.

Definition update (self : t) (time_step : Z) (new_state : HealthStates)
  : completion t :=
  (* if the patient has died, do nothing *)
  if decide (currentState self = HIV_DEATH) then Returns self
  else
    (* update survival time *)
    let survivalTime' :=
      if decide (new_state = HIV_DEATH) then Some (half_cycle time_step)
      else survivalTime self in
    (* update time until AIDS *)
    let '(ifDevelopedAIDS', timeToAIDS') :=
      if decide (currentState self <> AIDS /\ new_state = AIDS)
      then (true, Some (half_cycle time_step))
      else (ifDevelopedAIDS self, timeToAIDS self) in
    (* update cost and utility *)
    match PatientCostUtilityMonitor.update
            (costUtilityMonitor self) time_step (currentState self) new_state with
    | Returns cu =>
        (* update current health state *)
        Returns {| currentState := new_state;
                   survivalTime := survivalTime';
                   timeToAIDS := timeToAIDS';
                   ifDevelopedAIDS := ifDevelopedAIDS';
                   costUtilityMonitor := cu |}
    | Raises e cu =>
        Raises e {| currentState := currentState self;
                    survivalTime := survivalTime';
                    timeToAIDS := timeToAIDS';
                    ifDevelopedAIDS := ifDevelopedAIDS';
                    costUtilityMonitor := cu |}
    | OutOfFuel => OutOfFuel
    end.

Definition get_if_alive (self : t) : bool :=
  if decide (currentState self <> HIV_DEATH) then true else false.
End defs.
End PatientStateMonitor.

Module Patient.
Section defs.
Context {H : HealthStateEnum} {RC : RandomCarrier} {H0 : RandomSource}.
Context {LC : LibraryCarrier} {Lib : Library}.

Record t : Type := {
  id : Z;
  rng : RNG;
  params : Parameters;
  stateMonitor : PatientStateMonitor.t;
}.

Definition init (id : Z) (parameters : Parameters) : t :=
  {| id := id;
     rng := RNG_seed id;
     params := parameters;
     stateMonitor := PatientStateMonitor.init parameters |}.

(** One pass through the body of the [while] loop at time step [k];
    the caller increments [k]. *)
Definition simulate_body (self : t) (k : Z) : completion t :=
  (* find the transition probabilities to future states *)
  match probMatrix (params self)
          !! value (PatientStateMonitor.currentState (stateMonitor self)) with
  | None => Raises IndexError self
  | Some trans_probs =>
      (* sample from the empirical distribution to get a new state *)
      let '(new_state_index, rng') := Empirical_sample trans_probs (rng self) in
      let self' := {| id := id self; rng := rng'; params := params self;
                      stateMonitor := stateMonitor self |} in
      match HealthStates_of new_state_index with
      | None => Raises ValueError self'
      | Some new_state =>
          (* update health state *)
          match PatientStateMonitor.update (stateMonitor self) k new_state with
          | Returns m =>
              Returns {| id := id self; rng := rng'; params := params self;
                         stateMonitor := m |}
          | Raises e m =>
              Raises e {| id := id self; rng := rng'; params := params self;
                          stateMonitor := m |}
          | OutOfFuel => OutOfFuel
          end
      end
  end.

(** [k = 0; while self.stateMonitor.get_if_alive() and k < n_time_steps: ...]
    with the step budget [n_time_steps], which the loop never exhausts. *)
Definition simulate_run (self : t) (n_time_steps : Z) : completion (t * Z) :=
  while_loop (fun self => PatientStateMonitor.get_if_alive (stateMonitor self))
    simulate_body (Z.to_nat n_time_steps) n_time_steps self 0%Z.

Definition simulate (self : t) (n_time_steps : Z) : completion t :=
  match simulate_run self n_time_steps with
  | Returns (self', _) => Returns self'
  | Raises e (self', _) => Raises e self'
  | OutOfFuel => OutOfFuel
  end.
End defs.
End Patient.

Module CohortOutcomes.
Section defs.
Context {H : HealthStateEnum} {RC : RandomCarrier} {H0 : RandomSource}.
Context {LC : LibraryCarrier} {Lib : Library}.

(** The four raw outcome vectors, the survival curve and the four
    summary statistics.  [timesToAIDS] receives whatever [timeToAIDS] holds
    when the flag [ifDevelopedAIDS] is set, so its entries are [option]s.
    The curve and the statistics are [None] until [extract_outcomes] has
    built them. *)
Record t : Type := {
  survivalTimes : list Q;
  timesToAIDS : list (option Q);
  costs : list Q;
  utilities : list Q;
  nLivingPatients : option PathObject;
  statSurvivalTime : option StatObject;
  statTimeToAIDS : option StatObject;
  statCost : option StatObject;
  statUtility : option StatObject;
}.

Definition init : t :=
  {| survivalTimes := []; timesToAIDS := []; costs := []; utilities := [];
     nLivingPatients := None;
     statSurvivalTime := None; statTimeToAIDS := None;
     statCost := None; statUtility := None |}.

(** The object after the assignment of the survival curve and of the
    statistics; the vectors are kept. *)
Definition with_objects (self : t) (path : option PathObject)
    (survival aids cost utility : option StatObject) : t :=
  {| survivalTimes := survivalTimes self; timesToAIDS := timesToAIDS self;
     costs := costs self; utilities := utilities self;
     nLivingPatients := path;
     statSurvivalTime := survival; statTimeToAIDS := aids;
     statCost := cost; statUtility := utility |}.

(** One pass through the body of [for patient in simulated_patients]. *)
Definition record_patient (self : t) (patient : Patient.t) : t :=
  let m := Patient.stateMonitor patient in
  let cu := PatientStateMonitor.costUtilityMonitor m in
  {| survivalTimes :=
       match PatientStateMonitor.survivalTime m with
       | Some x => survivalTimes self ++ [x]
       | None => survivalTimes self
       end;
     timesToAIDS :=
       if PatientStateMonitor.ifDevelopedAIDS m
       then timesToAIDS self ++ [PatientStateMonitor.timeToAIDS m]
       else timesToAIDS self;
     costs := costs self ++ [PatientCostUtilityMonitor.totalDiscountedCost cu];
     utilities :=
       utilities self ++ [PatientCostUtilityMonitor.totalDiscountedUtility cu];
     nLivingPatients := nLivingPatients self;
     statSurvivalTime := statSurvivalTime self;
     statTimeToAIDS := statTimeToAIDS self;
     statCost := statCost self;
     statUtility := statUtility self |}.

(** The loop [for patient in simulated_patients] of [extract_outcomes]. *)
Definition record_patients (self : t) (simulated_patients : list Patient.t) : t :=
  foldl record_patient self simulated_patients.

(** The arguments [initial_size], [times_of_changes] and [increments] with
    which [extract_outcomes] builds the survival curve [nLivingPatients],
    after the loop over the patients. *)
Definition nLivingPatients_arguments (self : t) (simulated_patients : list Patient.t)
  : Z * list Q * list Z :=
  let self' := record_patients self simulated_patients in
  (Z.of_nat (length simulated_patients),
   survivalTimes self',
   replicate (length (survivalTimes self')) (-1)%Z).

(** [extract_outcomes]: the loop over the patients, then the four summary
    statistics and the survival curve, each assigned as soon as it is built.
    A constructor that raises leaves the vectors appended and the objects
    built before it assigned. *)
Definition extract_outcomes (self : t) (simulated_patients : list Patient.t)
  : completion t :=
  (* record patient outcomes *)
  let self1 := record_patients self simulated_patients in
  let path0 := nLivingPatients self1 in
  (* summary statistics *)
  match SimPy_SummaryStat "Survival time" (Some <$> survivalTimes self1) with
  | inl e => Raises e self1
  | inr s1 =>
  match SimPy_SummaryStat "Time until AIDS" (timesToAIDS self1) with
  | inl e =>
      Raises e (with_objects self1 path0 (Some s1) (statTimeToAIDS self1)
                  (statCost self1) (statUtility self1))
  | inr s2 =>
  match SimPy_SummaryStat "Discounted cost" (Some <$> costs self1) with
  | inl e =>
      Raises e (with_objects self1 path0 (Some s1) (Some s2)
                  (statCost self1) (statUtility self1))
  | inr s3 =>
  match SimPy_SummaryStat "Discounted utility" (Some <$> utilities self1) with
  | inl e =>
      Raises e (with_objects self1 path0 (Some s1) (Some s2) (Some s3)
                  (statUtility self1))
  | inr s4 =>
  (* survival curve *)
  let '(initial_size, times_of_changes, increments) :=
    nLivingPatients_arguments self simulated_patients in
  match SimPy_PrevalencePathBatchUpdate "# of living patients"
          initial_size times_of_changes increments with
  | inl e =>
      Raises e (with_objects self1 path0 (Some s1) (Some s2) (Some s3) (Some s4))
  | inr path =>
      Returns (with_objects self1 (Some path) (Some s1) (Some s2) (Some s3) (Some s4))
  end end end end end.
End defs.
End CohortOutcomes.

Module Cohort.
Section defs.
Context {H : HealthStateEnum} {RC : RandomCarrier} {H0 : RandomSource}.
Context {LC : LibraryCarrier} {Lib : Library}.

Record t : Type := {
  id : Z;
  initialPopSize : Z;
  patients : list Patient.t;
  cohortOutcomes : CohortOutcomes.t;
}.

(** [for i in range(pop_size)]: [seqZ 0 pop_size] is [0, ..., pop_size-1],
    empty when [pop_size <= 0]. *)
Definition init (id pop_size : Z) (parameters : Parameters) : t :=
  {| id := id;
     initialPopSize := pop_size;
     patients :=
       (fun i => Patient.init (id * pop_size + i) parameters) <$> seqZ 0 pop_size;
     cohortOutcomes := CohortOutcomes.init |}.

(** [for patient in self.patients: patient.simulate(n_time_steps)]; the
    patients are updated in place, and an exception leaves the earlier
    ones simulated and the later ones untouched. *)
Fixpoint simulate_patients (ps : list Patient.t) (n_time_steps : Z)
  : completion (list Patient.t) :=
  match ps with
  | [] => Returns []
  | patient :: ps' =>
      match Patient.simulate patient n_time_steps with
      | Returns patient' =>
          match simulate_patients ps' n_time_steps with
          | Returns ps'' => Returns (patient' :: ps'')
          | Raises e ps'' => Raises e (patient' :: ps'')
          | OutOfFuel => OutOfFuel
          end
      | Raises e patient' => Raises e (patient' :: ps')
      | OutOfFuel => OutOfFuel
      end
  end.

Definition simulate (self : t) (n_time_steps : Z) : completion t :=
  (* simulate all patients *)
  match simulate_patients (patients self) n_time_steps with
  | Returns ps =>
      (* store outputs of this simulation *)
      match CohortOutcomes.extract_outcomes (cohortOutcomes self) ps with
      | Returns outcomes =>
          Returns {| id := id self; initialPopSize := initialPopSize self;
                     patients := ps; cohortOutcomes := outcomes |}
      | Raises e outcomes =>
          Raises e {| id := id self; initialPopSize := initialPopSize self;
                      patients := ps; cohortOutcomes := outcomes |}
      | OutOfFuel => OutOfFuel
      end
  | Raises e ps =>
      Raises e {| id := id self; initialPopSize := initialPopSize self;
                  patients := ps;
                  cohortOutcomes := cohortOutcomes self |}
  | OutOfFuel => OutOfFuel
  end.
End defs.
End Cohort.

End MarkovModelClasses.

(** ** The economic-evaluation engine: [EconEvalMarkovModelClasses.py] *)

Module EconEvalMarkovModelClasses.

Module PatientCostUtilityMonitor.
Section defs.
Context `{HealthStateEnum}.

Record t : Type := {
  params : Parameters;
  totalDiscountedCost : Q;
  totalDiscountedUtility : Q;
}.

Definition init (parameters : Parameters) : t :=
  {| params := parameters;
     totalDiscountedCost := 0;
     totalDiscountedUtility := 0 |}.

(** The locals [cost] and [utility] of [update] as they stand before
    discounting; [None] when one of the four table reads is out of
    range. *)
Definition cost_and_utility (p : Parameters) (current_state next_state : HealthStates)
  : option (Q * Q) :=
  match annualStateCosts p !! value current_state,
        annualStateCosts p !! value next_state with
  | Some c_cur, Some c_next =>
      (* update cost *)
      let cost := ((1 # 2) * (c_cur + c_next))%Q in
      match annualStateUtilities p !! value current_state,
            annualStateUtilities p !! value next_state with
      | Some u_cur, Some u_next =>
          (* update utility *)
          let utility := ((1 # 2) * (u_cur + u_next))%Q in
          (* add the cost of treatment;
             if HIV death will occur, add the cost for half-year of treatment *)
          let cost :=
            if decide (next_state = HIV_DEATH)
            then (cost + (1 # 2) * annualTreatmentCost p)%Q
            else (cost + 1 * annualTreatmentCost p)%Q in
          Some (cost, utility)
      | _, _ => None
      end
  | _, _ => None
  end.

Definition update (self : t) (k : Z) (current_state next_state : HealthStates)
  : completion t :=
  match cost_and_utility (params self) current_state next_state with
  | None => Raises IndexError self
  | Some (cost, utility) =>
      (* update total discounted cost and utility
         (corrected for the half-cycle effect) *)
      Returns
        {| params := params self;
           totalDiscountedCost :=
             (totalDiscountedCost self
              + pv_single_payment cost (discountRate (params self) / 2) (2 * k + 1))%Q;
           totalDiscountedUtility :=
             (totalDiscountedUtility self
              + pv_single_payment utility (discountRate (params self) / 2) (2 * k + 1))%Q |}
  end.
End defs.
End PatientCostUtilityMonitor.

Module PatientStateMonitor.
Section defs.
Context `{HealthStateEnum}.

Record t : Type := {
  currentState : HealthStates;
  survivalTime : option Q;
  timeToAIDS : option Q;
  costUtilityMonitor : PatientCostUtilityMonitor.t;
}.

Definition init (parameters : Parameters) : t :=
  {| currentState := initialHealthState parameters;
     survivalTime := None;
     timeToAIDS := None;
     costUtilityMonitor := PatientCostUtilityMonitor.init parameters |}.

Definition update (self : t) (time_step : Z) (new_state : HealthStates)
  : completion t :=
  (* update survival time *)
  let survivalTime' :=
    if decide (new_state = HIV_DEATH) then Some (half_cycle time_step)
    else survivalTime self in
  (* update time until AIDS *)
  let timeToAIDS' :=
    if decide (currentState self <> AIDS /\ new_state = AIDS)
    then Some (half_cycle time_step)
    else timeToAIDS self in
  (* update cost and utility *)
  match PatientCostUtilityMonitor.update
          (costUtilityMonitor self) time_step (currentState self) new_state with
  | Returns cu =>
      (* update current health state *)
      Returns {| currentState := new_state;
                 survivalTime := survivalTime';
                 timeToAIDS := timeToAIDS';
                 costUtilityMonitor := cu |}
  | Raises e cu =>
      Raises e {| currentState := currentState self;
                  survivalTime := survivalTime';
                  timeToAIDS := timeToAIDS';
                  costUtilityMonitor := cu |}
  | OutOfFuel => OutOfFuel
  end.

Definition get_if_alive (self : t) : bool :=
  if decide (currentState self <> HIV_DEATH) then true else false.
End defs.
End PatientStateMonitor.

Module Patient.
Section defs.
Context {H : HealthStateEnum} {RC : RandomCarrier} {H0 : RandomSource}.
Context {LC : LibraryCarrier} {Lib : Library}.

Record t : Type := {
  id : Z;
  params : Parameters;
  stateMonitor : PatientStateMonitor.t;
}.

Definition init (id : Z) (parameters : Parameters) : t :=
  {| id := id;
     params := parameters;
     stateMonitor := PatientStateMonitor.init parameters |}.

(** Modelled from the spec: [MarkovJumpProcess.get_next_state] is library
    code; the row of the current state is looked up in the matrix and
    sampled, and on a state without a row the library raises an exception
    of its choosing. *)
Definition get_next_state (transition_prob_matrix : list (list Q))
    (current_state_index : nat) (rng : RNG) : exn + (nat * RNG) :=
  match transition_prob_matrix !! current_state_index with
  | None => inl (deampy_get_next_state_error transition_prob_matrix current_state_index)
  | Some probs => inr (Empirical_sample probs rng)
  end.

(** One pass through the body of the [while] loop at time step [k]; the
    loop state is the patient together with the local generator [rng];
    the caller increments [k]. *)
Definition simulate_body (st : t * RNG) (k : Z) : completion (t * RNG) :=
  let '(self, rng) := st in
  (* sample from the Markov jump process to get a new state *)
  match get_next_state (probMatrix (params self))
          (value (PatientStateMonitor.currentState (stateMonitor self))) rng with
  | inl e => Raises e (self, rng)
  | inr (new_state_index, rng') =>
      match HealthStates_of new_state_index with
      | None => Raises ValueError (self, rng')
      | Some new_state =>
          (* update health state *)
          match PatientStateMonitor.update (stateMonitor self) k new_state with
          | Returns m =>
              Returns ({| id := id self; params := params self;
                          stateMonitor := m |}, rng')
          | Raises e m =>
              Raises e ({| id := id self; params := params self;
                           stateMonitor := m |}, rng')
          | OutOfFuel => OutOfFuel
          end
      end
  end.

(** [rng = np.random.RandomState(seed=self.id);
     markov_jump = MarkovJumpProcess(transition_prob_matrix=self.params.probMatrix);
     k = 0;
     while self.stateMonitor.get_if_alive() and k < n_time_steps: ...]
    with the step budget [n_time_steps], which the loop never exhausts.  When
    the constructor of the process raises, no step is made: the patient is
    untouched and the counter, which is not assigned yet, is reported as 0. *)
Definition simulate_run (self : t) (n_time_steps : Z) : completion (t * RNG * Z) :=
  (* random number generator *)
  let rng := RNG_seed (id self) in
  (* Markov jump process *)
  match deampy_MarkovJumpProcess (probMatrix (params self)) with
  | Some e => Raises e (self, rng, 0%Z)
  | None =>
      while_loop (fun st => PatientStateMonitor.get_if_alive (stateMonitor st.1))
        simulate_body (Z.to_nat n_time_steps) n_time_steps (self, rng) 0%Z
  end.

Definition simulate (self : t) (n_time_steps : Z) : completion t :=
  match simulate_run self n_time_steps with
  | Returns (self', _, _) => Returns self'
  | Raises e (self', _, _) => Raises e self'
  | OutOfFuel => OutOfFuel
  end.
End defs.
End Patient.

Module CohortOutcomes.
Section defs.
Context {H : HealthStateEnum} {RC : RandomCarrier} {H0 : RandomSource}.
Context {LC : LibraryCarrier} {Lib : Library}.

(** The four raw outcome vectors, the survival curve and the four
    summary statistics; the curve and the statistics are [None] until
    [extract_outcomes] has built them. *)
Record t : Type := {
  survivalTimes : list Q;
  timesToAIDS : list Q;
  costs : list Q;
  utilities : list Q;
  nLivingPatients : option PathObject;
  statSurvivalTime : option StatObject;
  statTimeToAIDS : option StatObject;
  statCost : option StatObject;
  statUtility : option StatObject;
}.

Definition init : t :=
  {| survivalTimes := []; timesToAIDS := []; costs := []; utilities := [];
     nLivingPatients := None;
     statSurvivalTime := None; statTimeToAIDS := None;
     statCost := None; statUtility := None |}.

(** The object after the assignment of the survival curve and of the
    statistics; the vectors are kept. *)
Definition with_objects (self : t) (path : option PathObject)
    (survival aids cost utility : option StatObject) : t :=
  {| survivalTimes := survivalTimes self; timesToAIDS := timesToAIDS self;
     costs := costs self; utilities := utilities self;
     nLivingPatients := path;
     statSurvivalTime := survival; statTimeToAIDS := aids;
     statCost := cost; statUtility := utility |}.

Definition record_patient (self : t) (patient : Patient.t) : t :=
  let m := Patient.stateMonitor patient in
  let cu := PatientStateMonitor.costUtilityMonitor m in
  {| survivalTimes :=
       match PatientStateMonitor.survivalTime m with
       | Some x => survivalTimes self ++ [x]
       | None => survivalTimes self
       end;
     timesToAIDS :=
       match PatientStateMonitor.timeToAIDS m with
       | Some x => timesToAIDS self ++ [x]
       | None => timesToAIDS self
       end;
     costs := costs self ++ [PatientCostUtilityMonitor.totalDiscountedCost cu];
     utilities :=
       utilities self ++ [PatientCostUtilityMonitor.totalDiscountedUtility cu];
     nLivingPatients := nLivingPatients self;
     statSurvivalTime := statSurvivalTime self;
     statTimeToAIDS := statTimeToAIDS self;
     statCost := statCost self;
     statUtility := statUtility self |}.

(** The loop [for patient in simulated_patients] of [extract_outcomes]. *)
Definition record_patients (self : t) (simulated_patients : list Patient.t) : t :=
  foldl record_patient self simulated_patients.

(** The arguments [initial_size], [times_of_changes] and [increments] with
    which [extract_outcomes] builds the survival curve [nLivingPatients],
    after the loop over the patients. *)
Definition nLivingPatients_arguments (self : t) (simulated_patients : list Patient.t)
  : Z * list Q * list Z :=
  let self' := record_patients self simulated_patients in
  (Z.of_nat (length simulated_patients),
   survivalTimes self',
   replicate (length (survivalTimes self')) (-1)%Z).

(** [extract_outcomes]: the loop over the patients, then the four summary
    statistics and the survival curve, each assigned as soon as it is built.
    A constructor that raises leaves the vectors appended and the objects
    built before it assigned. *)
Definition extract_outcomes (self : t) (simulated_patients : list Patient.t)
  : completion t :=
  (* record patient outcomes *)
  let self1 := record_patients self simulated_patients in
  let path0 := nLivingPatients self1 in
  (* summary statistics *)
  match deampy_SummaryStat "Survival time" (survivalTimes self1) with
  | inl e => Raises e self1
  | inr s1 =>
  match deampy_SummaryStat "Time until AIDS" (timesToAIDS self1) with
  | inl e =>
      Raises e (with_objects self1 path0 (Some s1) (statTimeToAIDS self1)
                  (statCost self1) (statUtility self1))
  | inr s2 =>
  match deampy_SummaryStat "Discounted cost" (costs self1) with
  | inl e =>
      Raises e (with_objects self1 path0 (Some s1) (Some s2)
                  (statCost self1) (statUtility self1))
  | inr s3 =>
  match deampy_SummaryStat "Discounted utility" (utilities self1) with
  | inl e =>
      Raises e (with_objects self1 path0 (Some s1) (Some s2) (Some s3)
                  (statUtility self1))
  | inr s4 =>
  (* survival curve *)
  let '(initial_size, times_of_changes, increments) :=
    nLivingPatients_arguments self simulated_patients in
  match deampy_PrevalencePathBatchUpdate "# of living patients"
          initial_size times_of_changes increments with
  | inl e =>
      Raises e (with_objects self1 path0 (Some s1) (Some s2) (Some s3) (Some s4))
  | inr path =>
      Returns (with_objects self1 (Some path) (Some s1) (Some s2) (Some s3) (Some s4))
  end end end end end.
End defs.
End CohortOutcomes.

Module Cohort.
Section defs.
Context {H : HealthStateEnum} {RC : RandomCarrier} {H0 : RandomSource}.
Context {LC : LibraryCarrier} {Lib : Library}.

Record t : Type := {
  id : Z;
  popSize : Z;
  params : Parameters;
  cohortOutcomes : CohortOutcomes.t;
}.

Definition init (id pop_size : Z) (parameters : Parameters) : t :=
  {| id := id; popSize := pop_size; params := parameters;
     cohortOutcomes := CohortOutcomes.init |}.

(** The local list [patients] after [for i in range(self.popSize)]. *)
Definition populate (self : t) : list Patient.t :=
  (fun i => Patient.init (id self * popSize self + i) (params self))
    <$> seqZ 0 (popSize self).

Fixpoint simulate_patients (ps : list Patient.t) (n_time_steps : Z)
  : completion (list Patient.t) :=
  match ps with
  | [] => Returns []
  | patient :: ps' =>
      match Patient.simulate patient n_time_steps with
      | Returns patient' =>
          match simulate_patients ps' n_time_steps with
          | Returns ps'' => Returns (patient' :: ps'')
          | Raises e ps'' => Raises e (patient' :: ps'')
          | OutOfFuel => OutOfFuel
          end
      | Raises e patient' => Raises e (patient' :: ps')
      | OutOfFuel => OutOfFuel
      end
  end.

Definition simulate (self : t) (n_time_steps : Z) : completion t :=
  (* populate the cohort, simulate all patients *)
  match simulate_patients (populate self) n_time_steps with
  | Returns ps =>
      (* store outputs of this simulation *)
      match CohortOutcomes.extract_outcomes (cohortOutcomes self) ps with
      | Returns outcomes =>
          Returns {| id := id self; popSize := popSize self; params := params self;
                     cohortOutcomes := outcomes |}
      | Raises e outcomes =>
          Raises e {| id := id self; popSize := popSize self; params := params self;
                      cohortOutcomes := outcomes |}
      | OutOfFuel => OutOfFuel
      end
  | Raises e _ => Raises e self
  | OutOfFuel => OutOfFuel
  end.
End defs.
End Cohort.

End EconEvalMarkovModelClasses.

(** ** What the spec asks of a configuration *)

Section configuration.
Context {H : HealthStateEnum} {RC : RandomCarrier} {H0 : RandomSource}.
Context {LC : LibraryCarrier} {Lib : Library}.

(** Python's [Enum]: looking a member up by its own value gives the member
    back, and a member found by value has that value. *)
Class HealthStateEnumLaws : Prop := {
  HealthStates_of_value : forall s, HealthStates_of (value s) = Some s;
  value_HealthStates_of : forall i s, HealthStates_of i = Some s -> value s = i;
}.

(** Modelled from the spec: the invariants of a transition matrix (data
    model and error handling sections): the matrix is square, its entries
    are non-negative, every row sums to one, and the row of the death state
    puts all its mass on the death state. *)
Definition row_is_distribution (row : list Q) : bool :=
  forallb (Qle_bool 0) row && Qeq_bool (foldr Qplus 0%Q row) 1.

Definition row_is_absorbing (row : list Q) (i : nat) : bool :=
  forallb (fun '(j, pr) => Qeq_bool pr (if decide (j = i) then 1 else 0)) (imap pair row).

Definition config_invariants (p : Parameters) : bool :=
  forallb (fun row => row_is_distribution row
                      && bool_decide (length row = length (probMatrix p)))
          (probMatrix p)
  && match probMatrix p !! value HIV_DEATH with
     | Some row => row_is_absorbing row (value HIV_DEATH)
     | None => false
     end.

(** The configurations on which [Patient.simulate] of the guarded engine
    cannot raise: every state has a row, and the sampler, drawing from a row,
    returns the value of a member. *)
Record samples_states (p : Parameters) : Prop := {
  row_defined : forall s, is_Some (probMatrix p !! value s);
  sample_defined : forall s row g,
    probMatrix p !! value s = Some row ->
    is_Some (HealthStates_of (Empirical_sample row g).1);
}.

(** In the economic-evaluation engine the two annual tables are read at the
    values of the states as well. *)
Record tables_defined (p : Parameters) : Prop := {
  cost_defined : forall s, is_Some (annualStateCosts p !! value s);
  utility_defined : forall s, is_Some (annualStateUtilities p !! value s);
}.

(** The sampler never draws an index of probability zero from the AIDS row
    (part of the sampler's contract, [P(index = j) = row[j]]), and that row
    gives positive probability to AIDS and death only: a patient with AIDS
    stays or dies. *)
Record aids_is_left_by_death_only (p : Parameters) : Prop := {
  aids_sample_support : forall row g,
    probMatrix p !! value AIDS = Some row ->
    exists pr, row !! (Empirical_sample row g).1 = Some pr /\ (0 < pr)%Q;
  aids_row_support : forall row j pr,
    probMatrix p !! value AIDS = Some row ->
    row !! j = Some pr -> (0 < pr)%Q ->
    j = value AIDS \/ j = value HIV_DEATH;
}.

(** Non-negative economic inputs. *)
Record nonnegative_inputs (p : Parameters) : Prop := {
  costs_nonneg : Forall (Qle 0) (annualStateCosts p);
  utilities_nonneg : Forall (Qle 0) (annualStateUtilities p);
  treatment_nonneg : (0 <= annualTreatmentCost p)%Q;
  discount_nonneg : (0 <= discountRate p)%Q;
}.

(** Exactly one of two propositions holds. *)
Definition exactly_one (A B : Prop) : Prop := (A \/ B) /\ ~ (A /\ B).

(** A value that, once it is [Some t] after [i] steps, is the same [Some t]
    after every [j >= i] steps. *)
Definition never_overwritten (after : Z -> option (option Q)) : Prop :=
  forall i j t, (0 <= i <= j)%Z -> after i = Some (Some t) -> after j = Some (Some t).

(** Step [i] changes the value: after [i + 1] steps it is not what it was
    after [i] steps. *)
Definition changes_at (after : Z -> option (option Q)) (i : Z) : Prop :=
  after (i + 1)%Z <> after i.

(** At most one step changes the value. *)
Definition assigned_at_most_once (after : Z -> option (option Q)) : Prop :=
  forall i i', (0 <= i)%Z -> (0 <= i')%Z ->
               changes_at after i -> changes_at after i' -> i = i'.
End configuration.

Module Guarded := MarkovModelClasses.
Module EconEval := EconEvalMarkovModelClasses.

(** Short names for the parts of the two patient loops: the loop condition,
    the loop body, the patient's current state, and (economic-evaluation
    engine) the parameter object held by the patient's accumulator. *)
Abbreviation G_alive :=
  (fun self : Guarded.Patient.t =>
     Guarded.PatientStateMonitor.get_if_alive (Guarded.Patient.stateMonitor self)).
Abbreviation G_body := Guarded.Patient.simulate_body.
Abbreviation G_state :=
  (fun self : Guarded.Patient.t =>
     Guarded.PatientStateMonitor.currentState (Guarded.Patient.stateMonitor self)).
Abbreviation E_alive :=
  (fun st : EconEval.Patient.t * RNG =>
     EconEval.PatientStateMonitor.get_if_alive (EconEval.Patient.stateMonitor st.1)).
Abbreviation E_body := EconEval.Patient.simulate_body.
Abbreviation E_state :=
  (fun self : EconEval.Patient.t =>
     EconEval.PatientStateMonitor.currentState (EconEval.Patient.stateMonitor self)).
Abbreviation E_tables :=
  (fun self : EconEval.Patient.t =>
     EconEval.PatientCostUtilityMonitor.params
       (EconEval.PatientStateMonitor.costUtilityMonitor (EconEval.Patient.stateMonitor self))).

Section observations.
Context {H : HealthStateEnum} {RC : RandomCarrier} {H0 : RandomSource}.
Context {LC : LibraryCarrier} {Lib : Library}.

(** [timeToAIDS] of a freshly constructed patient after [simulate(n)]. *)
Definition Guarded_timeToAIDS_after (id : Z) (p : Parameters) (n : Z)
  : option (option Q) :=
  (fun self => Guarded.PatientStateMonitor.timeToAIDS (Guarded.Patient.stateMonitor self))
    <$> state_after (Guarded.Patient.simulate (Guarded.Patient.init id p) n).

Definition EconEval_timeToAIDS_after (id : Z) (p : Parameters) (n : Z)
  : option (option Q) :=
  (fun self => EconEval.PatientStateMonitor.timeToAIDS (EconEval.Patient.stateMonitor self))
    <$> state_after (EconEval.Patient.simulate (EconEval.Patient.init id p) n).

(** The two discounted totals of a freshly constructed patient after
    [simulate(n)]. *)
Definition EconEval_totals_after (id : Z) (p : Parameters) (n : Z) : option (Q * Q) :=
  (fun self =>
     let cu := EconEval.PatientStateMonitor.costUtilityMonitor
                 (EconEval.Patient.stateMonitor self) in
     (EconEval.PatientCostUtilityMonitor.totalDiscountedCost cu,
      EconEval.PatientCostUtilityMonitor.totalDiscountedUtility cu))
    <$> state_after (EconEval.Patient.simulate (EconEval.Patient.init id p) n).

(** The outcome values [extract_outcomes] reads off a patient. *)
Definition Guarded_outcomes (self : Guarded.Patient.t)
  : option Q * option Q * Q * Q :=
  let m := Guarded.Patient.stateMonitor self in
  let cu := Guarded.PatientStateMonitor.costUtilityMonitor m in
  (Guarded.PatientStateMonitor.survivalTime m,
   Guarded.PatientStateMonitor.timeToAIDS m,
   Guarded.PatientCostUtilityMonitor.totalDiscountedCost cu,
   Guarded.PatientCostUtilityMonitor.totalDiscountedUtility cu).

Definition EconEval_outcomes (self : EconEval.Patient.t)
  : option Q * option Q * Q * Q :=
  let m := EconEval.Patient.stateMonitor self in
  let cu := EconEval.PatientStateMonitor.costUtilityMonitor m in
  (EconEval.PatientStateMonitor.survivalTime m,
   EconEval.PatientStateMonitor.timeToAIDS m,
   EconEval.PatientCostUtilityMonitor.totalDiscountedCost cu,
   EconEval.PatientCostUtilityMonitor.totalDiscountedUtility cu).

(** The ids of the patients a cohort constructs, in construction order. *)
Definition Guarded_patient_ids (cid pop : Z) (p : Parameters) : list Z :=
  Guarded.Patient.id <$> Guarded.Cohort.patients (Guarded.Cohort.init cid pop p).

Definition EconEval_patient_ids (cid pop : Z) (p : Parameters) : list Z :=
  EconEval.Patient.id <$> EconEval.Cohort.populate (EconEval.Cohort.init cid pop p).

(** The states of a guarded monitor that construction and [update] calls
    can produce. *)
Inductive Guarded_reachable : Guarded.PatientStateMonitor.t -> Prop :=
| reachable_init (p : Parameters) :
    Guarded_reachable (Guarded.PatientStateMonitor.init p)
| reachable_update (m m' : Guarded.PatientStateMonitor.t) (k : Z) (s : HealthStates) :
    Guarded_reachable m ->
    state_after (Guarded.PatientStateMonitor.update m k s) = Some m' ->
    Guarded_reachable m'.

(** A guarded cohort in which every patient's monitor is such a state and
    the vector [timesToAIDS] extracted so far holds no [None]. *)
Definition Guarded_cohort_sound (c : Guarded.Cohort.t) : Prop :=
  Forall (fun a => Guarded_reachable (Guarded.Patient.stateMonitor a))
         (Guarded.Cohort.patients c)
  /\ Forall is_Some (Guarded.CohortOutcomes.timesToAIDS (Guarded.Cohort.cohortOutcomes c)).
End observations.

(** ** A concrete configuration *)

Module Scenario.

(** Modelled from the spec: the three states of the concrete scenario,
    Well = 0, AIDS = 1, Death = 2. *)
Inductive HIV3 : Set := Well | Aids | Death.

#[local] Instance HIV3_eq_dec : EqDecision HIV3.
Proof. solve_decision. Defined.

Definition HIV3_enum : HealthStateEnum :=
  {| HealthStates := HIV3;
     value := fun s => match s with Well => 0 | Aids => 1 | Death => 2 end;
     HealthStates_of := fun i =>
       match i with 0 => Some Well | 1 => Some Aids | 2 => Some Death | _ => None end;
     AIDS := Aids;
     HIV_DEATH := Death |}.

(** Modelled from the spec: a sampler by inversion of the cumulative
    distribution (the first index whose cumulative probability exceeds a
    uniform draw), on a linear congruential stream seeded by the patient's
    id. *)
Definition modulus : positive := 2147483648.

Definition uniform (g : Z) : Q := (g mod Z.pos modulus) # modulus.

Definition advance (g : Z) : Z := ((1103515245 * g + 12345) mod Z.pos modulus)%Z.

Fixpoint first_exceeding (probs : list Q) (cumulative u : Q) (i : nat) : nat :=
  match probs with
  | [] => i
  | pr :: probs' =>
      if Qlt_le_dec u (cumulative + pr) then i
      else first_exceeding probs' (cumulative + pr)%Q u (S i)
  end.

Definition Z_carrier : RandomCarrier := {| RNG := Z |}.

Definition inversion_sampler : @RandomSource Z_carrier :=
  {| RNG_seed := fun seed => seed : @RNG Z_carrier;
     Empirical_sample := fun probs g => (first_exceeding probs 0 (uniform g) 0, advance g) |}.

(** A library for the runs of the examples.  A summary statistic is the
    sample it is built from and a sample path is its three arguments.  The
    constructors refuse what a careful library refuses: [SummaryStat] an empty
    sample, [PrevalencePathBatchUpdate] increments that do not match the times
    in number, [MarkovJumpProcess] a matrix with a row that does not sum to 1,
    each with a [ValueError]; [get_next_state] raises a [ValueError] on a state
    that has no row. *)
Definition plain_objects : LibraryCarrier :=
  {| StatObject := list (option Q); PathObject := Z * list Q * list Z |}.

Definition summary_of (data : list (option Q)) : exn + @StatObject plain_objects :=
  match data with
  | [] => inl ValueError
  | _ => inr (data : @StatObject plain_objects)
  end.

Definition path_of (initial_size : Z) (times_of_changes : list Q) (increments : list Z)
  : exn + @PathObject plain_objects :=
  if decide (length times_of_changes = length increments)
  then inr ((initial_size, times_of_changes, increments) : @PathObject plain_objects)
  else inl ValueError.

Definition rows_sum_to_one (matrix : list (list Q)) : option exn :=
  if forallb (fun row => Qeq_bool (foldr Qplus 0%Q row) 1) matrix
  then None else Some ValueError.

Definition checking_library : @Library plain_objects :=
  {| SimPy_SummaryStat := fun _ data => summary_of data;
     SimPy_PrevalencePathBatchUpdate := fun _ => path_of;
     deampy_SummaryStat := fun _ data => summary_of (Some <$> data);
     deampy_PrevalencePathBatchUpdate := fun _ => path_of;
     deampy_MarkovJumpProcess := rows_sum_to_one;
     deampy_get_next_state_error := fun _ _ => ValueError |}.

(** Modelled from the spec: the parameters of the concrete scenario. *)
Definition parameters : @Parameters HIV3_enum :=
  {| initialHealthState := Well : @HealthStates HIV3_enum;
     probMatrix := [[9 # 10; 8 # 100; 2 # 100]; [0; 85 # 100; 15 # 100]; [0; 0; 1]]%Q;
     annualStateCosts := [100; 500; 0]%Q;
     annualStateUtilities := [1; 7 # 10; 0]%Q;
     annualTreatmentCost := 200;
     discountRate := 3 # 100 |}.

(** The same economic inputs on a matrix that satisfies the invariants of
    the spec and lets a patient recover from AIDS: Well goes to AIDS, AIDS
    goes back to Well, death is absorbing. *)
Definition relapsing : @Parameters HIV3_enum :=
  {| initialHealthState := Well : @HealthStates HIV3_enum;
     probMatrix := [[0; 1; 0]; [1; 0; 0]; [0; 0; 1]]%Q;
     annualStateCosts := [100; 500; 0]%Q;
     annualStateUtilities := [1; 7 # 10; 0]%Q;
     annualTreatmentCost := 200;
     discountRate := 3 # 100 |}.

End Scenario.

(** ** Further configurations on the three states *)

Module Variants.
Import Scenario.

(** Well goes to AIDS and AIDS goes to death, both with certainty. *)
Definition progressing : @Parameters HIV3_enum :=
  {| initialHealthState := Well : @HealthStates HIV3_enum;
     probMatrix := [[0; 1; 0]; [0; 0; 1]; [0; 0; 1]]%Q;
     annualStateCosts := [100; 500; 0]%Q;
     annualStateUtilities := [1; 7 # 10; 0]%Q;
     annualTreatmentCost := 200;
     discountRate := 3 # 100 |}.

(** A matrix with the row of Well only: a patient in AIDS has no row. *)
Definition missing_row : @Parameters HIV3_enum :=
  {| initialHealthState := Well : @HealthStates HIV3_enum;
     probMatrix := [[0; 1; 0]]%Q;
     annualStateCosts := [100; 500; 0]%Q;
     annualStateUtilities := [1; 7 # 10; 0]%Q;
     annualTreatmentCost := 200;
     discountRate := 3 # 100 |}.

(** A row of AIDS with a fourth entry, which is the index of no state. *)
Definition long_row : @Parameters HIV3_enum :=
  {| initialHealthState := Well : @HealthStates HIV3_enum;
     probMatrix := [[0; 1; 0]; [0; 0; 0; 1]; [0; 0; 1]]%Q;
     annualStateCosts := [100; 500; 0]%Q;
     annualStateUtilities := [1; 7 # 10; 0]%Q;
     annualTreatmentCost := 200;
     discountRate := 3 # 100 |}.

(** The matrix of [progressing] with a table of annual costs that has no
    entry for death. *)
Definition short_tables : @Parameters HIV3_enum :=
  {| initialHealthState := Well : @HealthStates HIV3_enum;
     probMatrix := [[0; 1; 0]; [0; 0; 1]; [0; 0; 1]]%Q;
     annualStateCosts := [100; 500]%Q;
     annualStateUtilities := [1; 7 # 10; 0]%Q;
     annualTreatmentCost := 200;
     discountRate := 3 # 100 |}.

(** The scenario's parameters with a first row that sums to one half. *)
Definition unnormalised : @Parameters HIV3_enum :=
  {| initialHealthState := Well : @HealthStates HIV3_enum;
     probMatrix := [[1 # 2; 0; 0]; [0; 85 # 100; 15 # 100]; [0; 0; 1]]%Q;
     annualStateCosts := [100; 500; 0]%Q;
     annualStateUtilities := [1; 7 # 10; 0]%Q;
     annualTreatmentCost := 200;
     discountRate := 3 # 100 |}.
End Variants.

(** * Properties *)

(** ** The simulation loop *)

Section while_loop_facts.
Context {St : Type} (alive : St -> bool) (body : St -> Z -> completion St).
Hypothesis body_total : forall st k, body st k <> OutOfFuel.

Abbreviation loop := (loop alive body).

Lemma while_loop_fuel fuel fuel' n st k :
  (Z.to_nat (n - k) <= fuel)%nat -> (Z.to_nat (n - k) <= fuel')%nat ->
  while_loop alive body fuel n st k = while_loop alive body fuel' n st k.
Proof.
  revert fuel' st k. induction fuel as [|fuel IH]; intros fuel' st k Hf Hf'.
  - simpl. destruct (alive st && (k <? n)%Z) eqn:E.
    + apply andb_true_iff in E as [_ E]. apply Z.ltb_lt in E. lia.
    + destruct fuel'; simpl; rewrite E; reflexivity.
  - destruct fuel' as [|fuel']; simpl; destruct (alive st && (k <? n)%Z) eqn:E;
      try reflexivity.
    + apply andb_true_iff in E as [_ E]. apply Z.ltb_lt in E. lia.
    + apply andb_true_iff in E as [_ E]. apply Z.ltb_lt in E.
      destruct (body st k); try reflexivity. apply IH; lia.
Qed.

Lemma loop_unfold n st k :
  loop n st k =
    if alive st && (k <? n)%Z
    then match body st k with
         | Returns st' => loop n st' (k + 1)
         | Raises e st' => Raises e (st', k)
         | OutOfFuel => OutOfFuel
         end
    else Returns (st, k).
Proof.
  unfold loop. destruct (alive st && (k <? n)%Z) eqn:E.
  - pose proof E as E'. apply andb_true_iff in E' as [_ E']. apply Z.ltb_lt in E'.
    replace (Z.to_nat (n - k)) with (S (Z.to_nat (n - (k + 1)))) by lia.
    simpl. rewrite E. reflexivity.
  - destruct (Z.to_nat (n - k)); simpl; rewrite E; reflexivity.
Qed.

(** Induction on the number of steps the loop has left. *)
Lemma loop_ind (n : Z) (P : St -> Z -> Prop) :
  (forall st k,
      (forall st', alive st = true -> (k < n)%Z -> body st k = Returns st' ->
                   P st' (k + 1)%Z) ->
      P st k) ->
  forall st k, P st k.
Proof.
  intros step st k.
  remember (Z.to_nat (n - k)) as m eqn:Hm. revert st k Hm.
  induction m as [|m IH]; intros st k Hm; apply step; intros st' _ Hk _.
  - lia.
  - apply IH. lia.
Qed.

Lemma loop_never_out_of_fuel n st k : loop n st k <> OutOfFuel.
Proof.
  revert st k. apply (loop_ind n). intros st k IH.
  rewrite loop_unfold. destruct (alive st && (k <? n)%Z) eqn:E; [|discriminate].
  apply andb_true_iff in E as [Ha Hk]. apply Z.ltb_lt in Hk.
  destruct (body st k) as [st'| |] eqn:Hb; [|discriminate|].
  - apply (IH st' Ha Hk eq_refl).
  - exfalso. apply (body_total _ _ Hb).
Qed.

(** When the loop is left normally its condition is false, and [k] has
    moved from its start towards the cap without passing it. *)
Lemma loop_exit n st k st' k' :
  loop n st k = Returns (st', k') ->
  alive st' && (k' <? n)%Z = false /\ (k <= k')%Z /\ (k' <= Z.max k n)%Z.
Proof.
  revert st k. apply (loop_ind n (fun st k => loop n st k = Returns (st', k') -> _)).
  intros st k IH. rewrite loop_unfold.
  destruct (alive st && (k <? n)%Z) eqn:E.
  - apply andb_true_iff in E as [Ha Hk]. apply Z.ltb_lt in Hk.
    destruct (body st k) as [st1| |] eqn:Hb; try discriminate.
    intros Hl. destruct (IH st1 Ha Hk eq_refl Hl) as (? & ? & ?).
    repeat split; [assumption | lia | lia].
  - intros [= <- <-]. repeat split; [assumption | lia | lia].
Qed.

(** A property of the loop state that every pass through the body keeps
    holds when the loop is left, normally or by an exception. *)
Lemma loop_invariant (P : St -> Prop) n st k st' k' :
  (forall st k st', P st -> alive st = true -> (k < n)%Z ->
                    state_after (body st k) = Some st' -> P st') ->
  P st ->
  state_after (loop n st k) = Some (st', k') ->
  P st'.
Proof.
  intros Hbody. revert st k.
  apply (loop_ind n (fun st k => P st -> state_after (loop n st k) = Some (st', k') -> _)).
  intros st k IH HP. rewrite loop_unfold.
  destruct (alive st && (k <? n)%Z) eqn:E.
  - apply andb_true_iff in E as [Ha Hk]. apply Z.ltb_lt in Hk.
    destruct (body st k) as [st1|e st1|] eqn:Hb; simpl.
    + apply (IH st1 Ha Hk eq_refl). apply (Hbody st k st1 HP Ha Hk). rewrite Hb. reflexivity.
    + intros [= <- <-]. apply (Hbody st k st1 HP Ha Hk). rewrite Hb. reflexivity.
    + discriminate.
  - simpl. intros [= <- <-]. assumption.
Qed.

(** The same for a property that only normal returns of the body keep,
    when the loop is left normally. *)
Lemma loop_returns_invariant (P : St -> Prop) n st k st' k' :
  (forall st k st', P st -> alive st = true -> (k < n)%Z ->
                    body st k = Returns st' -> P st') ->
  P st ->
  loop n st k = Returns (st', k') ->
  P st'.
Proof.
  intros Hbody. revert st k.
  apply (loop_ind n (fun st k => P st -> loop n st k = Returns (st', k') -> _)).
  intros st k IH HP. rewrite loop_unfold.
  destruct (alive st && (k <? n)%Z) eqn:E.
  - apply andb_true_iff in E as [Ha Hk]. apply Z.ltb_lt in Hk.
    destruct (body st k) as [st1|e st1|] eqn:Hb; try discriminate.
    apply (IH st1 Ha Hk eq_refl). apply (Hbody st k st1 HP Ha Hk Hb).
  - intros [= <- <-]. assumption.
Qed.

(** Running to the cap [j] is running to a smaller cap [i] and going on
    from there. *)
Lemma loop_split i j st k :
  (i <= j)%Z ->
  loop j st k =
    match loop i st k with
    | Returns (st', k') => loop j st' k'
    | Raises e x => Raises e x
    | OutOfFuel => OutOfFuel
    end.
Proof.
  intros Hij. revert st k. apply (loop_ind i). intros st k IH.
  rewrite (loop_unfold i st k).
  destruct (alive st && (k <? i)%Z) eqn:E; [|reflexivity].
  apply andb_true_iff in E as [Ha Hk]. apply Z.ltb_lt in Hk.
  rewrite (loop_unfold j st k). rewrite Ha. simpl.
  destruct (k <? j)%Z eqn:Hkj; [|apply Z.ltb_ge in Hkj; lia].
  destruct (body st k) as [st1|e st1|] eqn:Hb; try reflexivity.
  apply (IH st1 Ha Hk eq_refl).
Qed.
(** On states that satisfy [P], where the body returns and keeps [P], the
    loop returns. *)
Lemma loop_returns (P : St -> Prop) n st k :
  (forall st k, P st -> alive st = true ->
                exists st', body st k = Returns st' /\ P st') ->
  P st ->
  exists st' k', loop n st k = Returns (st', k') /\ P st'.
Proof.
  intros Hbody. revert st k.
  apply (loop_ind n (fun st k => P st -> exists st' k', loop n st k = Returns (st', k') /\ P st')).
  intros st k IH HP. rewrite loop_unfold.
  destruct (alive st && (k <? n)%Z) eqn:E.
  - apply andb_true_iff in E as [Ha Hk]. apply Z.ltb_lt in Hk.
    destruct (Hbody st k HP Ha) as (st1 & Hb & HP1). rewrite Hb.
    apply (IH st1 Ha Hk Hb HP1).
  - exists st, k. split; [reflexivity | assumption].
Qed.
End while_loop_facts.

(** ** First-passage marks

    A mark on the loop state (the time of an event) that the body sets only
    while the state is not yet [settled], and a settled state that stays
    settled with its mark untouched: such a mark is written at most once
    along a run.  [inv] is what the body keeps of the state throughout (the
    configuration it reads). *)
Section first_passage.
Context {St : Type} (alive : St -> bool) (body : St -> Z -> completion St).
Context (mark : St -> option Q) (inv settled : St -> Prop) (st0 : St).
Hypothesis body_total : forall st k, body st k <> OutOfFuel.
Hypothesis inv_kept : forall st k st',
    inv st -> state_after (body st k) = Some st' -> inv st'.
Hypothesis settled_frame : forall st k st',
    inv st -> settled st -> alive st = true -> state_after (body st k) = Some st' ->
    mark st' = mark st /\ settled st'.
Hypothesis mark_settles : forall st k st',
    inv st -> alive st = true -> body st k = Returns st' ->
    (mark st <> None -> settled st) -> mark st' <> None -> settled st'.
Hypothesis mark_set : forall st k st',
    state_after (body st k) = Some st' -> mark st' <> mark st ->
    exists t, mark st' = Some t.
Hypothesis inv_start : inv st0.
Hypothesis fresh : mark st0 <> None -> settled st0.

Abbreviation loop := (loop alive body).
Abbreviation after := (mark_after alive body mark st0).

Lemma mark_never_overwritten : never_overwritten after.
Proof.
  intros i j t [Hi Hij] Hm. unfold mark_after in *.
  rewrite (loop_split alive body i j) by lia.
  assert (Hkeep : forall st k,
             inv st -> mark st = Some t -> settled st ->
             (fun x : St * Z => mark x.1) <$> state_after (loop j st k)
             = Some (Some t)).
  { intros st k Hinv Hmark Hset.
    destruct (state_after (loop j st k)) as [[st' k']|] eqn:Hl.
    - simpl. f_equal.
      apply (loop_invariant alive body
               (fun x => inv x /\ mark x = Some t /\ settled x)
               j st k st' k'); [|repeat split; assumption|assumption].
      intros x kx x' (Hx0 & Hx1 & Hx2) Ha _ Hb.
      destruct (settled_frame x kx x' Hx0 Hx2 Ha Hb) as [-> ?].
      repeat split; try assumption. apply (inv_kept x kx x' Hx0 Hb).
    - exfalso. destruct (loop j st k) eqn:Hl'; try discriminate.
      apply (loop_never_out_of_fuel alive body body_total j st k Hl'). }
  destruct (loop i st0 0) as [[st' k']|e [st' k']|] eqn:Hl; simpl in Hm.
  - injection Hm as Hm.
    destruct (loop_returns_invariant alive body
                (fun x => inv x /\ (mark x <> None -> settled x))
                i st0 0 st' k') as [Hinv Hset]; [|split; assumption|assumption|].
    + intros x kx x' [Hx0 Hx] Ha _ Hb. split.
      * apply (inv_kept x kx x' Hx0). rewrite Hb. reflexivity.
      * apply (mark_settles x kx x' Hx0 Ha Hb Hx).
    + apply Hkeep; [assumption|assumption|]. apply Hset. congruence.
  - simpl. assumption.
  - discriminate.
Qed.

(** One more step of the cap is at most one more pass through the body. *)
Lemma mark_after_succ i :
  (0 <= i)%Z ->
  after (i + 1)%Z = after i \/
  exists st k st',
    state_after (body st k) = Some st' /\
    after i = Some (mark st) /\ after (i + 1)%Z = Some (mark st').
Proof.
  intros Hi. unfold mark_after.
  rewrite (loop_split alive body i (i + 1)) by lia.
  destruct (loop i st0 0) as [[st k]|e [st k]|] eqn:Hl; [|left; reflexivity..].
  destruct (loop_exit alive body i st0 0 st k Hl) as (Hexit & Hk0 & Hk).
  rewrite (loop_unfold alive body (i + 1) st k).
  destruct (alive st && (k <? i + 1)%Z) eqn:E; [|left; reflexivity].
  apply andb_true_iff in E as [Ha Hk1]. apply Z.ltb_lt in Hk1.
  rewrite Ha in Hexit. simpl in Hexit. apply Z.ltb_ge in Hexit.
  right. exists st, k.
  destruct (body st k) as [st1|e st1|] eqn:Hb.
  - exists st1. split; [reflexivity|]. split; [reflexivity|].
    rewrite (loop_unfold alive body (i + 1) st1 (k + 1)).
    replace (k + 1 <? i + 1)%Z with false by (symmetry; apply Z.ltb_ge; lia).
    rewrite andb_false_r. reflexivity.
  - exists st1. repeat split; reflexivity.
  - exfalso. apply (body_total _ _ Hb).
Qed.

Lemma mark_changes_to_some i :
  (0 <= i)%Z -> changes_at after i -> exists t, after (i + 1)%Z = Some (Some t).
Proof.
  intros Hi Hch. unfold changes_at in Hch.
  destruct (mark_after_succ i Hi) as [Heq|(st & k & st' & Hb & Hi0 & Hi1)].
  - contradiction.
  - rewrite Hi0, Hi1 in Hch.
    destruct (mark_set st k st' Hb) as [t Ht]; [congruence|].
    exists t. rewrite Hi1, Ht. reflexivity.
Qed.

Lemma mark_assigned_at_most_once : assigned_at_most_once after.
Proof.
  assert (Hlt : forall i i', (0 <= i)%Z -> (i < i')%Z ->
                             changes_at after i -> changes_at after i' -> False).
  { intros i i' Hi Hlt Hch Hch'.
    destruct (mark_changes_to_some i Hi Hch) as [t Ht].
    assert (H1 : after i' = Some (Some t))
      by (apply (mark_never_overwritten (i + 1)%Z i' t); [lia | exact Ht]).
    assert (H2 : after (i' + 1)%Z = Some (Some t))
      by (apply (mark_never_overwritten (i + 1)%Z (i' + 1)%Z t); [lia | exact Ht]).
    apply Hch'. congruence. }
  intros i i' Hi Hi' Hch Hch'.
  destruct (Z.lt_trichotomy i i') as [H|[H|H]]; [|assumption|].
  - exfalso. apply (Hlt i i' Hi H Hch Hch').
  - exfalso. apply (Hlt i' i Hi' H Hch' Hch).
Qed.
End first_passage.

(** ** The state monitors *)

Section monitor_facts.
Context `{HealthStateEnum}.

Lemma Guarded_update_total (m : Guarded.PatientStateMonitor.t) k s :
  Guarded.PatientStateMonitor.update m k s <> OutOfFuel.
Proof.
  unfold Guarded.PatientStateMonitor.update.
  destruct (decide _); [discriminate|].
  destruct (decide (_ /\ _)); discriminate.
Qed.

Lemma EconEval_accumulator_update_total (a : EconEval.PatientCostUtilityMonitor.t) k cs ns :
  EconEval.PatientCostUtilityMonitor.update a k cs ns <> OutOfFuel.
Proof.
  unfold EconEval.PatientCostUtilityMonitor.update.
  destruct (EconEval.PatientCostUtilityMonitor.cost_and_utility _ _ _) as [[? ?]|];
    discriminate.
Qed.

Lemma EconEval_update_total (m : EconEval.PatientStateMonitor.t) k s :
  EconEval.PatientStateMonitor.update m k s <> OutOfFuel.
Proof.
  unfold EconEval.PatientStateMonitor.update.
  pose proof (EconEval_accumulator_update_total
                (EconEval.PatientStateMonitor.costUtilityMonitor m) k
                (EconEval.PatientStateMonitor.currentState m) s) as Ht.
  destruct (EconEval.PatientCostUtilityMonitor.update _ _ _ _);
    [discriminate | discriminate | contradiction].
Qed.

(** The absorption guard of [MarkovModelClasses.py]: on a dead patient
    [update] returns at once and the monitor, its accumulator included, is
    the same object state as before. *)
Lemma Guarded_update_absorbed (m : Guarded.PatientStateMonitor.t) k s :
  Guarded.PatientStateMonitor.currentState m = HIV_DEATH ->
  Guarded.PatientStateMonitor.update m k s = Returns m.
Proof.
  intros Hd. unfold Guarded.PatientStateMonitor.update.
  destruct (decide _); [reflexivity | contradiction].
Qed.

(** What a guarded [update] on a living patient leaves behind. *)
Lemma Guarded_update_alive (m : Guarded.PatientStateMonitor.t) k s :
  Guarded.PatientStateMonitor.currentState m <> HIV_DEATH ->
  Guarded.PatientStateMonitor.update m k s =
    Returns
      {| Guarded.PatientStateMonitor.currentState := s;
         Guarded.PatientStateMonitor.survivalTime :=
           if decide (s = HIV_DEATH) then Some (half_cycle k)
           else Guarded.PatientStateMonitor.survivalTime m;
         Guarded.PatientStateMonitor.timeToAIDS :=
           if decide (Guarded.PatientStateMonitor.currentState m <> AIDS /\ s = AIDS)
           then Some (half_cycle k) else Guarded.PatientStateMonitor.timeToAIDS m;
         Guarded.PatientStateMonitor.ifDevelopedAIDS :=
           if decide (Guarded.PatientStateMonitor.currentState m <> AIDS /\ s = AIDS)
           then true else Guarded.PatientStateMonitor.ifDevelopedAIDS m;
         Guarded.PatientStateMonitor.costUtilityMonitor :=
           Guarded.PatientStateMonitor.costUtilityMonitor m |}.
Proof.
  intros Ha. unfold Guarded.PatientStateMonitor.update.
  destruct (decide _); [contradiction|].
  destruct (decide (_ /\ _)); reflexivity.
Qed.

(** The fields of the monitor after an [update] of
    [EconEvalMarkovModelClasses.py], whether the accumulator returned or
    raised. *)
Lemma EconEval_update_fields (m m' : EconEval.PatientStateMonitor.t) k s :
  state_after (EconEval.PatientStateMonitor.update m k s) = Some m' ->
  EconEval.PatientStateMonitor.survivalTime m' =
    (if decide (s = HIV_DEATH) then Some (half_cycle k)
     else EconEval.PatientStateMonitor.survivalTime m)
  /\ EconEval.PatientStateMonitor.timeToAIDS m' =
       (if decide (EconEval.PatientStateMonitor.currentState m <> AIDS /\ s = AIDS)
        then Some (half_cycle k) else EconEval.PatientStateMonitor.timeToAIDS m).
Proof.
  unfold EconEval.PatientStateMonitor.update.
  destruct (EconEval.PatientCostUtilityMonitor.update _ _ _ _); simpl;
    [intros [= <-]; simpl; split; reflexivity..|discriminate].
Qed.

Lemma EconEval_update_returns (m m' : EconEval.PatientStateMonitor.t) k s :
  EconEval.PatientStateMonitor.update m k s = Returns m' ->
  EconEval.PatientStateMonitor.currentState m' = s.
Proof.
  unfold EconEval.PatientStateMonitor.update.
  destruct (EconEval.PatientCostUtilityMonitor.update _ _ _ _);
    [intros [= <-]; reflexivity | discriminate..].
Qed.

Lemma EconEval_update_raises (m m' : EconEval.PatientStateMonitor.t) k s e :
  EconEval.PatientStateMonitor.update m k s = Raises e m' ->
  EconEval.PatientStateMonitor.currentState m' =
    EconEval.PatientStateMonitor.currentState m.
Proof.
  unfold EconEval.PatientStateMonitor.update.
  destruct (EconEval.PatientCostUtilityMonitor.update _ _ _ _);
    [discriminate | intros [= _ <-]; reflexivity | discriminate].
Qed.

(** C2. An [update] on a monitor whose patient is not dead records the
    survival time [time_step + 0.5] when the new state is the death state
    and leaves the survival time as it was otherwise, in both engines. *)
Theorem update_records_survivalTime
    (mg : Guarded.PatientStateMonitor.t) (me : EconEval.PatientStateMonitor.t)
    (time_step : Z) (new_state : HealthStates) :
  Guarded.PatientStateMonitor.currentState mg <> HIV_DEATH ->
  EconEval.PatientStateMonitor.currentState me <> HIV_DEATH ->
  (exists mg',
      state_after (Guarded.PatientStateMonitor.update mg time_step new_state) = Some mg'
      /\ (new_state = HIV_DEATH ->
          Guarded.PatientStateMonitor.survivalTime mg'
          = Some (inject_Z time_step + (1 # 2))%Q)
      /\ (new_state <> HIV_DEATH ->
          Guarded.PatientStateMonitor.survivalTime mg'
          = Guarded.PatientStateMonitor.survivalTime mg))
  /\ (exists me',
      state_after (EconEval.PatientStateMonitor.update me time_step new_state) = Some me'
      /\ (new_state = HIV_DEATH ->
          EconEval.PatientStateMonitor.survivalTime me'
          = Some (inject_Z time_step + (1 # 2))%Q)
      /\ (new_state <> HIV_DEATH ->
          EconEval.PatientStateMonitor.survivalTime me'
          = EconEval.PatientStateMonitor.survivalTime me)).
Proof.
  intros Hg He. split.
  - rewrite (Guarded_update_alive mg time_step new_state Hg). eexists. split; [reflexivity|].
    simpl. destruct (decide (new_state = HIV_DEATH)); split; intros ?;
      try contradiction; reflexivity.
  - destruct (state_after (EconEval.PatientStateMonitor.update me time_step new_state))
      as [me'|] eqn:Hu.
    + exists me'. split; [reflexivity|].
      destruct (EconEval_update_fields me me' time_step new_state Hu) as [-> _].
      destruct (decide (new_state = HIV_DEATH)); split; intros ?;
        try contradiction; reflexivity.
    + exfalso. pose proof (EconEval_update_total me time_step new_state) as Ht.
      destruct (EconEval.PatientStateMonitor.update me time_step new_state);
        [discriminate | discriminate | contradiction].
Qed.
End monitor_facts.

(** ** The cost/utility accumulator *)

Section accumulator_facts.
Context `{HealthStateEnum}.

Lemma cost_and_utility_defined (p : Parameters) cs ns c_cur c_next u_cur u_next :
  annualStateCosts p !! value cs = Some c_cur ->
  annualStateCosts p !! value ns = Some c_next ->
  annualStateUtilities p !! value cs = Some u_cur ->
  annualStateUtilities p !! value ns = Some u_next ->
  EconEval.PatientCostUtilityMonitor.cost_and_utility p cs ns =
    Some (if decide (ns = HIV_DEATH)
          then ((1 # 2) * (c_cur + c_next) + (1 # 2) * annualTreatmentCost p)%Q
          else ((1 # 2) * (c_cur + c_next) + 1 * annualTreatmentCost p)%Q,
          ((1 # 2) * (u_cur + u_next))%Q).
Proof.
  intros Hc Hc' Hu Hu'. unfold EconEval.PatientCostUtilityMonitor.cost_and_utility.
  rewrite Hc, Hc', Hu, Hu'. reflexivity.
Qed.

Lemma cost_and_utility_reads (p : Parameters) cs ns cost utility :
  EconEval.PatientCostUtilityMonitor.cost_and_utility p cs ns = Some (cost, utility) ->
  exists c_cur c_next u_cur u_next,
    annualStateCosts p !! value cs = Some c_cur
    /\ annualStateCosts p !! value ns = Some c_next
    /\ annualStateUtilities p !! value cs = Some u_cur
    /\ annualStateUtilities p !! value ns = Some u_next.
Proof.
  unfold EconEval.PatientCostUtilityMonitor.cost_and_utility.
  destruct (annualStateCosts p !! value cs) as [c_cur|]; [|discriminate].
  destruct (annualStateCosts p !! value ns) as [c_next|]; [|discriminate].
  destruct (annualStateUtilities p !! value cs) as [u_cur|]; [|discriminate].
  destruct (annualStateUtilities p !! value ns) as [u_next|]; [|discriminate].
  intros _. exists c_cur, c_next, u_cur, u_next. repeat split; reflexivity.
Qed.

(** What [update] of [EconEvalMarkovModelClasses.py] adds to the totals is
    the present value of the cost and of the utility of the step: half the
    sum of the two states' annual costs plus the annual treatment cost, of
    which half is charged when the next state is the death state, and half the
    sum of the two states' annual utilities. *)
Lemma EconEval_accumulator_update_step (self : EconEval.PatientCostUtilityMonitor.t)
    (k : Z) (current_state next_state : HealthStates) (c_cur c_next u_cur u_next : Q) :
  let p := EconEval.PatientCostUtilityMonitor.params self in
  annualStateCosts p !! value current_state = Some c_cur ->
  annualStateCosts p !! value next_state = Some c_next ->
  annualStateUtilities p !! value current_state = Some u_cur ->
  annualStateUtilities p !! value next_state = Some u_next ->
  EconEval.PatientCostUtilityMonitor.update self k current_state next_state
  = Returns
      {| EconEval.PatientCostUtilityMonitor.params := p;
         EconEval.PatientCostUtilityMonitor.totalDiscountedCost :=
           (EconEval.PatientCostUtilityMonitor.totalDiscountedCost self
            + pv_single_payment
                (if decide (next_state = HIV_DEATH)
                 then (1 # 2) * (c_cur + c_next) + (1 # 2) * annualTreatmentCost p
                 else (1 # 2) * (c_cur + c_next) + 1 * annualTreatmentCost p)
                (discountRate p / 2) (2 * k + 1))%Q;
         EconEval.PatientCostUtilityMonitor.totalDiscountedUtility :=
           (EconEval.PatientCostUtilityMonitor.totalDiscountedUtility self
            + pv_single_payment ((1 # 2) * (u_cur + u_next))
                (discountRate p / 2) (2 * k + 1))%Q |}.
Proof.
  intros p Hc Hc' Hu Hu'. unfold EconEval.PatientCostUtilityMonitor.update. fold p.
  rewrite (cost_and_utility_defined p current_state next_state _ _ _ _ Hc Hc' Hu Hu').
  reflexivity.
Qed.

(** The accumulator of [EconEvalMarkovModelClasses.py] adds the present
    values of the step's cost and utility, discounted at half the annual
    rate over [2 * k + 1] periods, and nothing else; when a table read
    fails it raises before touching the totals. *)
Lemma EconEval_accumulator_update_adds (self : EconEval.PatientCostUtilityMonitor.t)
    (k : Z) (current_state next_state : HealthStates) (cost utility : Q) :
  EconEval.PatientCostUtilityMonitor.cost_and_utility
    (EconEval.PatientCostUtilityMonitor.params self) current_state next_state
  = Some (cost, utility) ->
  exists self',
    EconEval.PatientCostUtilityMonitor.update self k current_state next_state
    = Returns self'
    /\ EconEval.PatientCostUtilityMonitor.params self'
       = EconEval.PatientCostUtilityMonitor.params self
    /\ (EconEval.PatientCostUtilityMonitor.totalDiscountedCost self'
        == EconEval.PatientCostUtilityMonitor.totalDiscountedCost self
           + cost / (1 + discountRate (EconEval.PatientCostUtilityMonitor.params self) / 2)
                      ^ (2 * k + 1))%Q
    /\ (EconEval.PatientCostUtilityMonitor.totalDiscountedUtility self'
        == EconEval.PatientCostUtilityMonitor.totalDiscountedUtility self
           + utility / (1 + discountRate (EconEval.PatientCostUtilityMonitor.params self) / 2)
                         ^ (2 * k + 1))%Q.
Proof.
  intros Hcu. unfold EconEval.PatientCostUtilityMonitor.update. rewrite Hcu.
  eexists. split; [reflexivity|]. simpl. unfold pv_single_payment.
  repeat split; reflexivity.
Qed.

Lemma EconEval_accumulator_update_raises (self : EconEval.PatientCostUtilityMonitor.t)
    (k : Z) (current_state next_state : HealthStates) :
  EconEval.PatientCostUtilityMonitor.cost_and_utility
    (EconEval.PatientCostUtilityMonitor.params self) current_state next_state
  = None ->
  EconEval.PatientCostUtilityMonitor.update self k current_state next_state
  = Raises IndexError self.
Proof.
  intros Hcu. unfold EconEval.PatientCostUtilityMonitor.update. rewrite Hcu. reflexivity.
Qed.

(** The accumulator of [MarkovModelClasses.py] returns its object
    unchanged, whatever the step. *)
Lemma Guarded_accumulator_update_skips (self : Guarded.PatientCostUtilityMonitor.t)
    (k : Z) (current_state next_state : HealthStates) :
  Guarded.PatientCostUtilityMonitor.update self k current_state next_state
  = Returns self.
Proof. reflexivity. Qed.

Lemma pv_single_payment_nonneg (payment rate : Q) (period : Z) :
  (0 <= payment)%Q -> (0 <= rate)%Q -> (0 <= pv_single_payment payment rate period)%Q.
Proof.
  intros Hp Hr. unfold pv_single_payment, Qdiv.
  apply Qmult_le_0_compat; [assumption|].
  apply Qinv_le_0_compat. apply Qpower_0_le. lra.
Qed.

Lemma cost_and_utility_nonneg (p : Parameters) cs ns cost utility :
  nonnegative_inputs p ->
  EconEval.PatientCostUtilityMonitor.cost_and_utility p cs ns = Some (cost, utility) ->
  (0 <= cost)%Q /\ (0 <= utility)%Q.
Proof.
  intros [Hcs Hus Ht Hd] Hcu.
  destruct (cost_and_utility_reads p cs ns cost utility Hcu)
    as (c_cur & c_next & u_cur & u_next & Hc & Hc' & Hu & Hu').
  rewrite (cost_and_utility_defined p cs ns _ _ _ _ Hc Hc' Hu Hu') in Hcu.
  pose proof (proj1 (Forall_lookup _ _) Hcs _ _ Hc).
  pose proof (proj1 (Forall_lookup _ _) Hcs _ _ Hc').
  pose proof (proj1 (Forall_lookup _ _) Hus _ _ Hu).
  pose proof (proj1 (Forall_lookup _ _) Hus _ _ Hu').
  injection Hcu as <- <-. destruct (decide (ns = HIV_DEATH)); split; lra.
Qed.

Lemma EconEval_accumulator_update_monotone (p : Parameters)
    (self self' : EconEval.PatientCostUtilityMonitor.t) (k : Z) (cs ns : HealthStates) :
  nonnegative_inputs p ->
  EconEval.PatientCostUtilityMonitor.params self = p ->
  state_after (EconEval.PatientCostUtilityMonitor.update self k cs ns) = Some self' ->
  (EconEval.PatientCostUtilityMonitor.totalDiscountedCost self
   <= EconEval.PatientCostUtilityMonitor.totalDiscountedCost self')%Q
  /\ (EconEval.PatientCostUtilityMonitor.totalDiscountedUtility self
      <= EconEval.PatientCostUtilityMonitor.totalDiscountedUtility self')%Q.
Proof.
  intros Hnn Hp. unfold EconEval.PatientCostUtilityMonitor.update. rewrite Hp.
  destruct (EconEval.PatientCostUtilityMonitor.cost_and_utility p cs ns)
    as [[cost utility]|] eqn:Hcu; simpl.
  - destruct (cost_and_utility_nonneg p cs ns cost utility Hnn Hcu) as [Hc Hu].
    assert (Hr : (0 <= discountRate p / 2)%Q).
    { apply Qmult_le_0_compat; [apply (discount_nonneg p Hnn) | discriminate]. }
    pose proof (pv_single_payment_nonneg cost _ (2 * k + 1) Hc Hr).
    pose proof (pv_single_payment_nonneg utility _ (2 * k + 1) Hu Hr).
    intros [= <-]. simpl. split; lra.
  - intros [= <-]. split; apply Qle_refl.
Qed.
End accumulator_facts.


(** ** The patient loop of [MarkovModelClasses.py] *)

Section guarded_patient_facts.
Context {H : HealthStateEnum} {RC : RandomCarrier} {H0 : RandomSource}.
Context {LC : LibraryCarrier} {Lib : Library}.

Lemma Guarded_simulate_run_loop (self : Guarded.Patient.t) n :
  Guarded.Patient.simulate_run self n = loop G_alive G_body n self 0.
Proof. unfold Guarded.Patient.simulate_run, loop. rewrite Z.sub_0_r. reflexivity. Qed.

Lemma Guarded_alive_iff (self : Guarded.Patient.t) :
  G_alive self = true <-> G_state self <> HIV_DEATH.
Proof.
  unfold Guarded.PatientStateMonitor.get_if_alive.
  destruct (decide _); split; intros; try assumption; try reflexivity;
    try discriminate; contradiction.
Qed.

Lemma Guarded_body_total (self : Guarded.Patient.t) k : G_body self k <> OutOfFuel.
Proof.
  unfold Guarded.Patient.simulate_body.
  destruct (probMatrix _ !! _) as [row|]; [|discriminate].
  destruct (Empirical_sample row _) as [j g].
  destruct (HealthStates_of j) as [s|]; [|discriminate].
  pose proof (Guarded_update_total (Guarded.Patient.stateMonitor self) k s).
  destruct (Guarded.PatientStateMonitor.update _ _ _);
    [discriminate | discriminate | contradiction].
Qed.

(** What one pass through the body does to the patient: the id and the
    parameters stay; the monitor either is untouched (the pass raised before
    the update) or went through [update] with the sampled state. *)
Lemma Guarded_body_inv (self st' : Guarded.Patient.t) k :
  state_after (G_body self k) = Some st' ->
  Guarded.Patient.id st' = Guarded.Patient.id self
  /\ Guarded.Patient.params st' = Guarded.Patient.params self
  /\ (Guarded.Patient.stateMonitor st' = Guarded.Patient.stateMonitor self
      \/ exists row s,
          probMatrix (Guarded.Patient.params self) !! value (G_state self) = Some row
          /\ HealthStates_of (Empirical_sample row (Guarded.Patient.rng self)).1 = Some s
          /\ state_after
               (Guarded.PatientStateMonitor.update (Guarded.Patient.stateMonitor self) k s)
             = Some (Guarded.Patient.stateMonitor st')).
Proof.
  unfold Guarded.Patient.simulate_body.
  destruct (probMatrix _ !! _) as [row|] eqn:Hrow.
  - destruct (Empirical_sample row _) as [j g] eqn:Hs.
    destruct (HealthStates_of j) as [s|] eqn:Hj.
    + destruct (Guarded.PatientStateMonitor.update _ _ _) as [m|e m|] eqn:Hu;
        simpl; [| |discriminate]; intros [= <-]; simpl;
        (split; [reflexivity|]); (split; [reflexivity|]);
        right; exists row, s; rewrite Hs; simpl; rewrite Hu; auto.
    + simpl. intros [= <-]. simpl. auto.
  - simpl. intros [= <-]. auto.
Qed.

Lemma Guarded_body_returns_inv (self st' : Guarded.Patient.t) k :
  G_body self k = Returns st' ->
  exists row s,
    probMatrix (Guarded.Patient.params self) !! value (G_state self) = Some row
    /\ HealthStates_of (Empirical_sample row (Guarded.Patient.rng self)).1 = Some s
    /\ Guarded.PatientStateMonitor.update (Guarded.Patient.stateMonitor self) k s
       = Returns (Guarded.Patient.stateMonitor st').
Proof.
  unfold Guarded.Patient.simulate_body.
  destruct (probMatrix _ !! _) as [row|] eqn:Hrow; [|discriminate].
  destruct (Empirical_sample row _) as [j g] eqn:Hs.
  destruct (HealthStates_of j) as [s|] eqn:Hj; [|discriminate].
  destruct (Guarded.PatientStateMonitor.update _ _ _) as [m|e m|] eqn:Hu;
    try discriminate.
  intros [= <-]. exists row, s. rewrite Hs. simpl. auto.
Qed.

(** On a configuration that samples states, a pass through the body on a
    living patient returns. *)
Lemma Guarded_body_returns (p : Parameters) (self : Guarded.Patient.t) k :
  samples_states p ->
  Guarded.Patient.params self = p ->
  exists st', G_body self k = Returns st' /\ Guarded.Patient.params st' = p.
Proof.
  intros [Hrow Hsample] Hp. unfold Guarded.Patient.simulate_body. rewrite Hp.
  destruct (Hrow (G_state self)) as [row Hr]. rewrite Hr.
  destruct (Empirical_sample row (Guarded.Patient.rng self)) as [j g] eqn:Hs.
  destruct (Hsample (G_state self) row (Guarded.Patient.rng self) Hr) as [s Hj].
  rewrite Hs in Hj. simpl in Hj. rewrite Hj.
  unfold Guarded.PatientStateMonitor.update.
  destruct (decide _); [eexists; split; reflexivity|].
  destruct (decide (_ /\ _)); eexists; split; reflexivity.
Qed.

Lemma Guarded_simulate_state_after (self : Guarded.Patient.t) n :
  state_after (Guarded.Patient.simulate self n)
  = fst <$> state_after (loop G_alive G_body n self 0).
Proof.
  unfold Guarded.Patient.simulate. rewrite Guarded_simulate_run_loop.
  destruct (loop _ _ _ _ _) as [[? ?]|? [? ?]|]; reflexivity.
Qed.

Lemma Guarded_simulate_total (self : Guarded.Patient.t) n :
  Guarded.Patient.simulate self n <> OutOfFuel.
Proof.
  unfold Guarded.Patient.simulate. rewrite Guarded_simulate_run_loop.
  pose proof (loop_never_out_of_fuel G_alive G_body Guarded_body_total n self 0).
  destruct (loop _ _ _ _ _) as [[? ?]|? [? ?]|]; [discriminate | discriminate | contradiction].
Qed.

(** A property of the patient that every pass through the body keeps holds
    after [simulate]. *)
Lemma Guarded_simulate_invariant (P : Guarded.Patient.t -> Prop)
    (self self' : Guarded.Patient.t) n :
  (forall st k st', P st -> state_after (G_body st k) = Some st' -> P st') ->
  P self ->
  state_after (Guarded.Patient.simulate self n) = Some self' ->
  P self'.
Proof.
  intros Hbody HP. rewrite Guarded_simulate_state_after.
  destruct (state_after (loop _ _ _ _ _)) as [[st' k']|] eqn:Hl; [|discriminate].
  simpl. intros [= <-].
  apply (loop_invariant G_alive G_body P n self 0 st' k'); [|assumption|assumption].
  intros st k st1 HPst _ _ Hb. apply (Hbody st k st1 HPst Hb).
Qed.

Lemma Guarded_simulate_keeps (self self' : Guarded.Patient.t) n :
  state_after (Guarded.Patient.simulate self n) = Some self' ->
  Guarded.Patient.id self' = Guarded.Patient.id self
  /\ Guarded.Patient.params self' = Guarded.Patient.params self.
Proof.
  apply (Guarded_simulate_invariant
           (fun st => Guarded.Patient.id st = Guarded.Patient.id self
                      /\ Guarded.Patient.params st = Guarded.Patient.params self));
    [|split; reflexivity].
  intros st k st' [Hid Hp] Hb.
  destruct (Guarded_body_inv st st' k Hb) as (-> & -> & _). split; assumption.
Qed.
End guarded_patient_facts.

(** ** The patient loop of [EconEvalMarkovModelClasses.py] *)

Section econ_eval_patient_facts.
Context {H : HealthStateEnum} {RC : RandomCarrier} {H0 : RandomSource}.
Context {LC : LibraryCarrier} {Lib : Library}.

(** [simulate] is the construction of the process, which may raise, and
    then the loop. *)
Lemma EconEval_simulate_run_loop (self : EconEval.Patient.t) n :
  EconEval.Patient.simulate_run self n
  = match deampy_MarkovJumpProcess (probMatrix (EconEval.Patient.params self)) with
    | Some e => Raises e (self, RNG_seed (EconEval.Patient.id self), 0%Z)
    | None => loop E_alive E_body n (self, RNG_seed (EconEval.Patient.id self)) 0
    end.
Proof. unfold EconEval.Patient.simulate_run, loop. rewrite Z.sub_0_r. reflexivity. Qed.

Lemma EconEval_alive_iff (st : EconEval.Patient.t * RNG) :
  E_alive st = true <-> E_state st.1 <> HIV_DEATH.
Proof.
  unfold EconEval.PatientStateMonitor.get_if_alive.
  destruct (decide _); split; intros; try assumption; try reflexivity;
    try discriminate; contradiction.
Qed.

Lemma EconEval_body_total (st : EconEval.Patient.t * RNG) k : E_body st k <> OutOfFuel.
Proof.
  destruct st as [self g]. unfold EconEval.Patient.simulate_body, EconEval.Patient.get_next_state.
  destruct (probMatrix _ !! _) as [row|]; [|discriminate].
  destruct (Empirical_sample row _) as [j g'].
  destruct (HealthStates_of j) as [s|]; [|discriminate].
  pose proof (EconEval_update_total (EconEval.Patient.stateMonitor self) k s).
  destruct (EconEval.PatientStateMonitor.update _ _ _);
    [discriminate | discriminate | contradiction].
Qed.

Lemma EconEval_body_inv (st st' : EconEval.Patient.t * RNG) k :
  state_after (E_body st k) = Some st' ->
  EconEval.Patient.id st'.1 = EconEval.Patient.id st.1
  /\ EconEval.Patient.params st'.1 = EconEval.Patient.params st.1
  /\ (EconEval.Patient.stateMonitor st'.1 = EconEval.Patient.stateMonitor st.1
      \/ exists row s,
          probMatrix (EconEval.Patient.params st.1) !! value (E_state st.1) = Some row
          /\ HealthStates_of (Empirical_sample row st.2).1 = Some s
          /\ state_after
               (EconEval.PatientStateMonitor.update (EconEval.Patient.stateMonitor st.1) k s)
             = Some (EconEval.Patient.stateMonitor st'.1)).
Proof.
  destruct st as [self g]. unfold EconEval.Patient.simulate_body, EconEval.Patient.get_next_state.
  simpl fst; simpl snd.
  destruct (probMatrix _ !! _) as [row|] eqn:Hrow.
  - destruct (Empirical_sample row _) as [j g'] eqn:Hs.
    destruct (HealthStates_of j) as [s|] eqn:Hj.
    + destruct (EconEval.PatientStateMonitor.update _ _ _) as [m|e m|] eqn:Hu;
        simpl; [| |discriminate]; intros [= <-]; simpl;
        (split; [reflexivity|]); (split; [reflexivity|]);
        right; exists row, s; rewrite Hs; simpl; rewrite Hu; auto.
    + simpl. intros [= <-]. simpl. auto.
  - simpl. intros [= <-]. auto.
Qed.

Lemma EconEval_body_returns_inv (st st' : EconEval.Patient.t * RNG) k :
  E_body st k = Returns st' ->
  exists row s,
    probMatrix (EconEval.Patient.params st.1) !! value (E_state st.1) = Some row
    /\ HealthStates_of (Empirical_sample row st.2).1 = Some s
    /\ EconEval.PatientStateMonitor.update (EconEval.Patient.stateMonitor st.1) k s
       = Returns (EconEval.Patient.stateMonitor st'.1).
Proof.
  destruct st as [self g]. unfold EconEval.Patient.simulate_body, EconEval.Patient.get_next_state.
  simpl fst; simpl snd.
  destruct (probMatrix _ !! _) as [row|] eqn:Hrow; [|discriminate].
  destruct (Empirical_sample row _) as [j g'] eqn:Hs.
  destruct (HealthStates_of j) as [s|] eqn:Hj; [|discriminate].
  destruct (EconEval.PatientStateMonitor.update _ _ _) as [m|e m|] eqn:Hu;
    try discriminate.
  intros [= <-]. exists row, s. rewrite Hs. simpl. auto.
Qed.

(** The accumulator keeps the parameter object it was built with. *)
Lemma EconEval_accumulator_update_params (a a' : EconEval.PatientCostUtilityMonitor.t) k cs ns :
  state_after (EconEval.PatientCostUtilityMonitor.update a k cs ns) = Some a' ->
  EconEval.PatientCostUtilityMonitor.params a' = EconEval.PatientCostUtilityMonitor.params a.
Proof.
  unfold EconEval.PatientCostUtilityMonitor.update.
  destruct (EconEval.PatientCostUtilityMonitor.cost_and_utility _ _ _) as [[? ?]|];
    simpl; intros [= <-]; reflexivity.
Qed.

Lemma EconEval_update_params (m m' : EconEval.PatientStateMonitor.t) k s :
  state_after (EconEval.PatientStateMonitor.update m k s) = Some m' ->
  EconEval.PatientCostUtilityMonitor.params (EconEval.PatientStateMonitor.costUtilityMonitor m')
  = EconEval.PatientCostUtilityMonitor.params (EconEval.PatientStateMonitor.costUtilityMonitor m).
Proof.
  unfold EconEval.PatientStateMonitor.update.
  destruct (EconEval.PatientCostUtilityMonitor.update _ _ _ _) as [a|e a|] eqn:Hu;
    simpl; [| |discriminate]; intros [= <-]; simpl;
    apply (EconEval_accumulator_update_params _ _ k
             (EconEval.PatientStateMonitor.currentState m) s); rewrite Hu; reflexivity.
Qed.

(** With both tables defined at every state, [update] of the monitor
    returns. *)
Lemma EconEval_update_defined (m : EconEval.PatientStateMonitor.t) k s :
  tables_defined
    (EconEval.PatientCostUtilityMonitor.params
       (EconEval.PatientStateMonitor.costUtilityMonitor m)) ->
  exists m', EconEval.PatientStateMonitor.update m k s = Returns m'.
Proof.
  intros [Hc Hu]. unfold EconEval.PatientStateMonitor.update,
    EconEval.PatientCostUtilityMonitor.update.
  destruct (Hc (EconEval.PatientStateMonitor.currentState m)) as [c1 Hc1].
  destruct (Hc s) as [c2 Hc2].
  destruct (Hu (EconEval.PatientStateMonitor.currentState m)) as [u1 Hu1].
  destruct (Hu s) as [u2 Hu2].
  rewrite (cost_and_utility_defined _ _ _ _ _ _ _ Hc1 Hc2 Hu1 Hu2).
  eexists. reflexivity.
Qed.

Lemma EconEval_body_returns (p q : Parameters) (st : EconEval.Patient.t * RNG) k :
  samples_states p -> tables_defined q ->
  EconEval.Patient.params st.1 = p /\ E_tables st.1 = q ->
  exists st', E_body st k = Returns st'
              /\ EconEval.Patient.params st'.1 = p /\ E_tables st'.1 = q.
Proof.
  intros [Hrow Hsample] Htab [Hp Hq]. destruct st as [self g]. simpl in Hp, Hq.
  unfold EconEval.Patient.simulate_body, EconEval.Patient.get_next_state. rewrite Hp.
  destruct (Hrow (E_state self)) as [row Hr]. rewrite Hr.
  destruct (Empirical_sample row g) as [j g'] eqn:Hs.
  destruct (Hsample (E_state self) row g Hr) as [s Hj].
  rewrite Hs in Hj. simpl in Hj. rewrite Hj.
  destruct (EconEval_update_defined (EconEval.Patient.stateMonitor self) k s) as [m' Hm'].
  { rewrite Hq. assumption. }
  rewrite Hm'. eexists. split; [reflexivity|]. simpl. split; [reflexivity|].
  rewrite <- Hq. apply (EconEval_update_params _ _ k s). rewrite Hm'. reflexivity.
Qed.

Lemma EconEval_simulate_state_after (self : EconEval.Patient.t) n :
  state_after (EconEval.Patient.simulate self n)
  = match deampy_MarkovJumpProcess (probMatrix (EconEval.Patient.params self)) with
    | Some _ => Some self
    | None =>
        (fun x : EconEval.Patient.t * RNG * Z => x.1.1)
          <$> state_after
                (loop E_alive E_body n (self, RNG_seed (EconEval.Patient.id self)) 0)
    end.
Proof.
  unfold EconEval.Patient.simulate. rewrite EconEval_simulate_run_loop.
  destruct (deampy_MarkovJumpProcess _); [reflexivity|].
  destruct (loop _ _ _ _ _) as [[[? ?] ?]|? [[? ?] ?]|]; reflexivity.
Qed.

Lemma EconEval_simulate_total (self : EconEval.Patient.t) n :
  EconEval.Patient.simulate self n <> OutOfFuel.
Proof.
  unfold EconEval.Patient.simulate. rewrite EconEval_simulate_run_loop.
  destruct (deampy_MarkovJumpProcess _); [discriminate|].
  pose proof (loop_never_out_of_fuel E_alive E_body EconEval_body_total n
                (self, RNG_seed (EconEval.Patient.id self)) 0).
  destruct (loop _ _ _ _ _) as [[[? ?] ?]|? [[? ?] ?]|];
    [discriminate | discriminate | contradiction].
Qed.

(** What the body keeps and the patient has at the start, the patient has
    after [simulate], however it completes. *)
Lemma EconEval_simulate_invariant (P : EconEval.Patient.t * RNG -> Prop)
    (self self' : EconEval.Patient.t) n :
  (forall st k st', P st -> E_alive st = true -> (k < n)%Z ->
                    state_after (E_body st k) = Some st' -> P st') ->
  P (self, RNG_seed (EconEval.Patient.id self)) ->
  state_after (EconEval.Patient.simulate self n) = Some self' ->
  exists g, P (self', g).
Proof.
  intros Hbody HP. rewrite EconEval_simulate_state_after.
  destruct (deampy_MarkovJumpProcess _).
  - intros [= <-]. eexists. exact HP.
  - destruct (state_after (loop _ _ _ _ _)) as [[[a g] k']|] eqn:Hl; [|discriminate].
    simpl. intros [= <-]. exists g.
    apply (loop_invariant E_alive E_body P n
             (self, RNG_seed (EconEval.Patient.id self)) 0 (a, g) k' Hbody HP Hl).
Qed.

Lemma EconEval_simulate_keeps (self self' : EconEval.Patient.t) n :
  state_after (EconEval.Patient.simulate self n) = Some self' ->
  EconEval.Patient.id self' = EconEval.Patient.id self
  /\ EconEval.Patient.params self' = EconEval.Patient.params self.
Proof.
  intros Hs.
  destruct (EconEval_simulate_invariant
              (fun st => EconEval.Patient.id st.1 = EconEval.Patient.id self
                         /\ EconEval.Patient.params st.1 = EconEval.Patient.params self)
              self self' n) as [g Hg]; [|split; reflexivity|assumption|exact Hg].
  intros st k st1 [Hid Hp] _ _ Hb.
  destruct (EconEval_body_inv st st1 k Hb) as (-> & -> & _). split; assumption.
Qed.
End econ_eval_patient_facts.

(** ** The discounted totals along a simulation *)

Section discounted_totals.
Context {H : HealthStateEnum} {RC : RandomCarrier} {H0 : RandomSource}.
Context {LC : LibraryCarrier} {Lib : Library}.

Abbreviation E_cost :=
  (fun st : EconEval.Patient.t * RNG =>
     EconEval.PatientCostUtilityMonitor.totalDiscountedCost
       (EconEval.PatientStateMonitor.costUtilityMonitor (EconEval.Patient.stateMonitor st.1))).
Abbreviation E_utility :=
  (fun st : EconEval.Patient.t * RNG =>
     EconEval.PatientCostUtilityMonitor.totalDiscountedUtility
       (EconEval.PatientStateMonitor.costUtilityMonitor (EconEval.Patient.stateMonitor st.1))).

(** The accumulator after an [update] of the monitor is the accumulator
    after its own [update], whether that returned or raised. *)
Lemma EconEval_update_accumulator (m m' : EconEval.PatientStateMonitor.t) k s :
  state_after (EconEval.PatientStateMonitor.update m k s) = Some m' ->
  state_after
    (EconEval.PatientCostUtilityMonitor.update
       (EconEval.PatientStateMonitor.costUtilityMonitor m) k
       (EconEval.PatientStateMonitor.currentState m) s)
  = Some (EconEval.PatientStateMonitor.costUtilityMonitor m').
Proof.
  unfold EconEval.PatientStateMonitor.update.
  destruct (EconEval.PatientCostUtilityMonitor.update _ _ _ _); simpl;
    [intros [= <-]; reflexivity..|discriminate].
Qed.

Lemma EconEval_body_totals_monotone (p : Parameters) (st st' : EconEval.Patient.t * RNG) k :
  nonnegative_inputs p ->
  E_tables st.1 = p ->
  state_after (E_body st k) = Some st' ->
  E_tables st'.1 = p
  /\ (E_cost st <= E_cost st')%Q /\ (E_utility st <= E_utility st')%Q.
Proof.
  intros Hnn Hp Hb.
  destruct (EconEval_body_inv st st' k Hb) as (_ & _ & [->|(row & s & _ & _ & Hu)]).
  - split; [assumption|]. split; apply Qle_refl.
  - split.
    + rewrite (EconEval_update_params _ _ k s Hu). assumption.
    + apply (EconEval_accumulator_update_monotone p _ _ k
               (EconEval.PatientStateMonitor.currentState (EconEval.Patient.stateMonitor st.1))
               s Hnn Hp).
      apply (EconEval_update_accumulator _ _ k s Hu).
Qed.

(** The totals after [j] steps are at least the totals after [i <= j]
    steps. *)
Lemma EconEval_totals_after_monotone (p : Parameters) (id i j : Z) (ci ui cj uj : Q) :
  nonnegative_inputs p ->
  (0 <= i <= j)%Z ->
  EconEval_totals_after id p i = Some (ci, ui) ->
  EconEval_totals_after id p j = Some (cj, uj) ->
  (ci <= cj)%Q /\ (ui <= uj)%Q.
Proof.
  intros Hnn Hij. unfold EconEval_totals_after.
  rewrite !EconEval_simulate_state_after. simpl EconEval.Patient.id.
  destruct (deampy_MarkovJumpProcess _).
  { simpl. intros [= <- <-] [= <- <-]. split; apply Qle_refl. }
  rewrite (loop_split E_alive E_body i j) by lia.
  destruct (loop E_alive E_body i (EconEval.Patient.init id p, RNG_seed id) 0)
    as [[sti ki]|e [sti ki]|] eqn:Hi; simpl; [| |discriminate].
  - intros [= <- <-].
    assert (Hpi : E_tables sti.1 = p).
    { apply (loop_invariant E_alive E_body (fun x => E_tables x.1 = p)
               i (EconEval.Patient.init id p, RNG_seed id) 0 sti ki);
        [|reflexivity|rewrite Hi; reflexivity].
      intros x kx x' Hx _ _ Hb.
      apply (EconEval_body_totals_monotone p x x' kx Hnn Hx Hb). }
    destruct (state_after (loop E_alive E_body j sti ki)) as [[stj kj]|] eqn:Hj;
      [|discriminate].
    simpl. intros [= <- <-].
    apply (loop_invariant E_alive E_body
             (fun x => E_tables x.1 = p
                       /\ (E_cost sti <= E_cost x)%Q /\ (E_utility sti <= E_utility x)%Q)
             j sti ki stj kj); [| |assumption].
    + intros x kx x' (Hx & Hc & Hu) _ _ Hb.
      destruct (EconEval_body_totals_monotone p x x' kx Hnn Hx Hb) as (Hx' & Hc' & Hu').
      split; [assumption|]. split; eapply Qle_trans; eassumption.
    + split; [assumption|]. split; apply Qle_refl.
  - intros [= <- <-] [= <- <-]. split; apply Qle_refl.
Qed.

(** C6. With non-negative annual costs, annual utilities, treatment cost and
    discount rate, the two discounted totals start at zero, no accumulator
    update, at any step and between any two states, makes either of them
    smaller, and so along a simulation the totals after more steps are at
    least the totals after fewer. *)
Theorem discounted_totals_monotone (p : Parameters) :
  nonnegative_inputs p ->
  (EconEval.PatientCostUtilityMonitor.totalDiscountedCost
     (EconEval.PatientCostUtilityMonitor.init p) = 0%Q
   /\ EconEval.PatientCostUtilityMonitor.totalDiscountedUtility
        (EconEval.PatientCostUtilityMonitor.init p) = 0%Q)
  /\ (forall (self self' : EconEval.PatientCostUtilityMonitor.t) (k : Z)
             (current_state next_state : HealthStates),
      EconEval.PatientCostUtilityMonitor.params self = p ->
      state_after (EconEval.PatientCostUtilityMonitor.update self k current_state next_state)
      = Some self' ->
      (EconEval.PatientCostUtilityMonitor.totalDiscountedCost self
       <= EconEval.PatientCostUtilityMonitor.totalDiscountedCost self')%Q
      /\ (EconEval.PatientCostUtilityMonitor.totalDiscountedUtility self
          <= EconEval.PatientCostUtilityMonitor.totalDiscountedUtility self')%Q)
  /\ (forall (id i j : Z) (ci ui cj uj : Q),
      (0 <= i <= j)%Z ->
      EconEval_totals_after id p i = Some (ci, ui) ->
      EconEval_totals_after id p j = Some (cj, uj) ->
      (ci <= cj)%Q /\ (ui <= uj)%Q).
Proof.
  intros Hnn. split; [split; reflexivity|]. split.
  - intros self self' k cs ns Hp Hu.
    apply (EconEval_accumulator_update_monotone p self self' k cs ns Hnn Hp Hu).
  - intros id i j ci ui cj uj Hij Hi Hj.
    apply (EconEval_totals_after_monotone p id i j ci ui cj uj Hnn Hij Hi Hj).
Qed.
End discounted_totals.

(** ** Termination of [Patient.simulate] *)

Section termination.
Context {H : HealthStateEnum} {RC : RandomCarrier} {H0 : RandomSource}.
Context {LC : LibraryCarrier} {Lib : Library}.

(** A run of the loop that returned is made of passes through the body, from
    the step it started at to the step it reports. *)
Lemma loop_passes {St : Type} (alive : St -> bool) (body : St -> Z -> completion St)
    n st k st' k' :
  loop alive body n st k = Returns (st', k') -> passes alive body k st k' st'.
Proof.
  revert st k.
  apply (loop_ind alive body n
           (fun st k => loop alive body n st k = Returns (st', k') -> _)).
  intros st k IH. rewrite loop_unfold.
  destruct (alive st && (k <? n)%Z) eqn:E.
  - apply andb_true_iff in E as [Ha Hk]. apply Z.ltb_lt in Hk.
    destruct (body st k) as [st1| |] eqn:Hb; try discriminate.
    intros Hl. apply (passes_step alive body k st st1 k' st' Ha Hb).
    apply (IH st1 Ha Hk eq_refl Hl).
  - intros [= <- <-]. apply passes_none.
Qed.

(** Passes count the steps: they never go back, and a run of no step leaves
    the state as it is. *)
Lemma passes_le {St : Type} (alive : St -> bool) (body : St -> Z -> completion St)
    k st k' st' :
  passes alive body k st k' st' -> (k <= k')%Z /\ (k = k' -> st = st').
Proof.
  induction 1 as [k st|k st st1 k' st' Ha Hb _ [IH _]].
  - split; [lia | reflexivity].
  - split; [lia | intros ->; lia].
Qed.

Lemma Guarded_simulate_run_total (self : Guarded.Patient.t) (n : Z) :
  Guarded.Patient.simulate_run self n <> OutOfFuel.
Proof.
  rewrite Guarded_simulate_run_loop.
  apply (loop_never_out_of_fuel G_alive G_body Guarded_body_total).
Qed.

Lemma EconEval_simulate_run_total (self : EconEval.Patient.t) (n : Z) :
  EconEval.Patient.simulate_run self n <> OutOfFuel.
Proof.
  rewrite EconEval_simulate_run_loop.
  destruct (deampy_MarkovJumpProcess _); [discriminate|].
  apply (loop_never_out_of_fuel E_alive E_body EconEval_body_total).
Qed.

(** When [simulate] returns, the patient went through the body at the steps
    [0, ..., k - 1] for some [k <= n], and is dead or went through all [n]
    steps. *)
Lemma Guarded_simulate_classified (self self' : Guarded.Patient.t) (n : Z) :
  (0 <= n)%Z ->
  Guarded.Patient.simulate self n = Returns self' ->
  exactly_one
    (Guarded.PatientStateMonitor.currentState (Guarded.Patient.stateMonitor self')
     = HIV_DEATH)
    (passes G_alive G_body 0 self n self'
     /\ Guarded.PatientStateMonitor.currentState (Guarded.Patient.stateMonitor self')
        <> HIV_DEATH)
  /\ exists k, (0 <= k <= n)%Z /\ passes G_alive G_body 0 self k self'.
Proof.
  intros Hn. unfold Guarded.Patient.simulate. rewrite Guarded_simulate_run_loop.
  destruct (loop G_alive G_body n self 0) as [[a k]|e [a k]|] eqn:Hrun; try discriminate.
  intros [= ->].
  destruct (loop_exit G_alive G_body n self 0 self' k Hrun) as (Hexit & Hk0 & Hk).
  pose proof (loop_passes G_alive G_body n self 0 self' k Hrun) as Hp.
  split; [|exists k; split; [lia | exact Hp]].
  destruct (decide (Guarded.PatientStateMonitor.currentState
                      (Guarded.Patient.stateMonitor self') = HIV_DEATH)) as [Hd|Ha].
  - split; [left; assumption|]. intros [_ [_ Hne]]. contradiction.
  - split; [|intros [Hd _]; contradiction]. right. split; [|assumption].
    apply Guarded_alive_iff in Ha. rewrite Ha in Hexit. simpl in Hexit.
    apply Z.ltb_ge in Hexit. replace n with k by lia. exact Hp.
Qed.

Lemma EconEval_simulate_classified (self self' : EconEval.Patient.t) (n : Z) :
  (0 <= n)%Z ->
  EconEval.Patient.simulate self n = Returns self' ->
  exists g : RNG,
    exactly_one
      (EconEval.PatientStateMonitor.currentState (EconEval.Patient.stateMonitor self')
       = HIV_DEATH)
      (passes E_alive E_body 0 (self, RNG_seed (EconEval.Patient.id self)) n (self', g)
       /\ EconEval.PatientStateMonitor.currentState (EconEval.Patient.stateMonitor self')
          <> HIV_DEATH)
    /\ exists k, (0 <= k <= n)%Z
                 /\ passes E_alive E_body 0 (self, RNG_seed (EconEval.Patient.id self))
                      k (self', g).
Proof.
  intros Hn. unfold EconEval.Patient.simulate. rewrite EconEval_simulate_run_loop.
  destruct (deampy_MarkovJumpProcess _); [discriminate|].
  destruct (loop E_alive E_body n _ 0) as [[[a g] k]|e [[a g] k]|] eqn:Hrun;
    try discriminate.
  intros [= ->]. exists g.
  destruct (loop_exit E_alive E_body n _ 0 _ k Hrun) as (Hexit & Hk0 & Hk).
  pose proof (loop_passes E_alive E_body n _ 0 _ k Hrun) as Hp.
  split; [|exists k; split; [lia | exact Hp]].
  destruct (decide (EconEval.PatientStateMonitor.currentState
                      (EconEval.Patient.stateMonitor self') = HIV_DEATH)) as [Hd|Ha].
  - split; [left; assumption|]. intros [_ [_ Hne]]. contradiction.
  - split; [|intros [Hd _]; contradiction]. right. split; [|assumption].
    apply (EconEval_alive_iff (self', g)) in Ha. rewrite Ha in Hexit. simpl in Hexit.
    apply Z.ltb_ge in Hexit. replace n with k by lia. exact Hp.
Qed.

(** On a configuration on which no read can fail, [simulate] returns; in the
    economic-evaluation engine, when the library has built the process. *)
Lemma Guarded_simulate_returns (self : Guarded.Patient.t) (n : Z) :
  samples_states (Guarded.Patient.params self) ->
  exists self', Guarded.Patient.simulate self n = Returns self'.
Proof.
  intros Hcfg. unfold Guarded.Patient.simulate. rewrite Guarded_simulate_run_loop.
  destruct (loop_returns G_alive G_body
              (fun st => Guarded.Patient.params st = Guarded.Patient.params self)
              n self 0) as (self' & k & Hl & _); [|reflexivity|].
  { intros st k Hp _. apply (Guarded_body_returns _ st k Hcfg Hp). }
  exists self'. rewrite Hl. reflexivity.
Qed.

Lemma EconEval_simulate_returns (self : EconEval.Patient.t) (n : Z) :
  deampy_MarkovJumpProcess (probMatrix (EconEval.Patient.params self)) = None ->
  samples_states (EconEval.Patient.params self) ->
  tables_defined (E_tables self) ->
  exists self', EconEval.Patient.simulate self n = Returns self'.
Proof.
  intros Hmjp Hcfg Htab. unfold EconEval.Patient.simulate.
  rewrite EconEval_simulate_run_loop, Hmjp.
  destruct (loop_returns E_alive E_body
              (fun st => EconEval.Patient.params st.1 = EconEval.Patient.params self
                         /\ E_tables st.1 = E_tables self)
              n (self, RNG_seed (EconEval.Patient.id self)) 0)
    as ([self' g] & k & Hl & _); [|split; reflexivity|].
  { intros st k Hp _. apply (EconEval_body_returns _ _ st k Hcfg Htab Hp). }
  exists self'. rewrite Hl. reflexivity.
Qed.

(** C7. For a positive number of time steps, [Patient.simulate] terminates,
    whatever the patient: the loop never exhausts its step budget.  When it
    returns, the patient was taken through the loop body at the steps
    [0, ..., k - 1], in this order, for some [k <= n_time_steps], and exactly
    one of the two holds: the patient is in the death state, or it was taken
    through the body at all the steps [0, ..., n_time_steps - 1] and is not in
    the death state.  And it returns on every configuration on which no read
    can fail (every state has a row of the matrix, the sampler returns the
    value of a state, and, in the economic-evaluation engine, the two annual
    tables cover every state and the library builds the Markov jump process
    from the matrix).  Both engines. *)
Theorem simulate_ends_dead_or_exhausted
    (pg : Guarded.Patient.t) (pe : EconEval.Patient.t) (n_time_steps : Z) :
  (0 < n_time_steps)%Z ->
  (Guarded.Patient.simulate pg n_time_steps <> OutOfFuel
   /\ (forall pg',
          Guarded.Patient.simulate pg n_time_steps = Returns pg' ->
          exactly_one
            (Guarded.PatientStateMonitor.currentState (Guarded.Patient.stateMonitor pg')
             = HIV_DEATH)
            (passes G_alive G_body 0 pg n_time_steps pg'
             /\ Guarded.PatientStateMonitor.currentState (Guarded.Patient.stateMonitor pg')
                <> HIV_DEATH)
          /\ exists k, (0 <= k <= n_time_steps)%Z /\ passes G_alive G_body 0 pg k pg')
   /\ (samples_states (Guarded.Patient.params pg) ->
       exists pg', Guarded.Patient.simulate pg n_time_steps = Returns pg'))
  /\ (EconEval.Patient.simulate pe n_time_steps <> OutOfFuel
      /\ (forall pe',
             EconEval.Patient.simulate pe n_time_steps = Returns pe' ->
             exists g : RNG,
               exactly_one
                 (EconEval.PatientStateMonitor.currentState
                    (EconEval.Patient.stateMonitor pe') = HIV_DEATH)
                 (passes E_alive E_body 0 (pe, RNG_seed (EconEval.Patient.id pe))
                    n_time_steps (pe', g)
                  /\ EconEval.PatientStateMonitor.currentState
                       (EconEval.Patient.stateMonitor pe') <> HIV_DEATH)
               /\ exists k, (0 <= k <= n_time_steps)%Z
                            /\ passes E_alive E_body 0
                                 (pe, RNG_seed (EconEval.Patient.id pe)) k (pe', g))
      /\ (deampy_MarkovJumpProcess (probMatrix (EconEval.Patient.params pe)) = None ->
          samples_states (EconEval.Patient.params pe) ->
          tables_defined (E_tables pe) ->
          exists pe', EconEval.Patient.simulate pe n_time_steps = Returns pe')).
Proof.
  intros Hn. split; (split; [|split]).
  - apply Guarded_simulate_total.
  - intros pg'. apply Guarded_simulate_classified. lia.
  - apply Guarded_simulate_returns.
  - apply EconEval_simulate_total.
  - intros pe'. apply EconEval_simulate_classified. lia.
  - apply EconEval_simulate_returns.
Qed.
End termination.

(** ** Time to AIDS *)

Section time_to_aids.
Context {H : HealthStateEnum} {RC : RandomCarrier} {H0 : RandomSource}.
Context {LC : LibraryCarrier} {Lib : Library}.

Lemma never_overwritten_ext (f g : Z -> option (option Q)) :
  (forall n, f n = g n) -> never_overwritten g -> never_overwritten f.
Proof. intros Hfg Hg i j t Hij. rewrite !Hfg. apply (Hg i j t Hij). Qed.

Lemma assigned_at_most_once_ext (f g : Z -> option (option Q)) :
  (forall n, f n = g n) -> assigned_at_most_once g -> assigned_at_most_once f.
Proof.
  intros Hfg Hg i i' Hi Hi'. unfold changes_at. rewrite !Hfg. apply (Hg i i' Hi Hi').
Qed.

(** [update] writes [timeToAIDS] only when the patient was not in the AIDS
    state and the new state is the AIDS state, and what it writes is
    [time_step + 0.5]. *)
Lemma Guarded_update_timeToAIDS (m m' : Guarded.PatientStateMonitor.t) k s :
  state_after (Guarded.PatientStateMonitor.update m k s) = Some m' ->
  Guarded.PatientStateMonitor.timeToAIDS m' <> Guarded.PatientStateMonitor.timeToAIDS m ->
  Guarded.PatientStateMonitor.currentState m <> AIDS /\ s = AIDS
  /\ Guarded.PatientStateMonitor.timeToAIDS m' = Some (half_cycle k).
Proof.
  destruct (decide (Guarded.PatientStateMonitor.currentState m = HIV_DEATH)) as [Hd|Ha].
  - rewrite (Guarded_update_absorbed m k s Hd). simpl. intros [= <-] Hne. contradiction.
  - rewrite (Guarded_update_alive m k s Ha). simpl. intros [= <-]. simpl.
    destruct (decide (_ /\ _)) as [[? ?]|?]; [auto | intros Hne; contradiction].
Qed.

Lemma EconEval_update_timeToAIDS (m m' : EconEval.PatientStateMonitor.t) k s :
  state_after (EconEval.PatientStateMonitor.update m k s) = Some m' ->
  EconEval.PatientStateMonitor.timeToAIDS m' <> EconEval.PatientStateMonitor.timeToAIDS m ->
  EconEval.PatientStateMonitor.currentState m <> AIDS /\ s = AIDS
  /\ EconEval.PatientStateMonitor.timeToAIDS m' = Some (half_cycle k).
Proof.
  intros Hu. destruct (EconEval_update_fields m m' k s Hu) as [_ ->].
  destruct (decide (_ /\ _)) as [[? ?]|?]; [auto | intros Hne; contradiction].
Qed.

Lemma Guarded_timeToAIDS_after_mark id (p : Parameters) n :
  Guarded_timeToAIDS_after id p n
  = mark_after G_alive G_body
      (fun self => Guarded.PatientStateMonitor.timeToAIDS (Guarded.Patient.stateMonitor self))
      (Guarded.Patient.init id p) n.
Proof.
  unfold Guarded_timeToAIDS_after, mark_after. rewrite Guarded_simulate_state_after.
  destruct (state_after (loop _ _ _ _ _)) as [[? ?]|]; reflexivity.
Qed.

Lemma EconEval_timeToAIDS_after_mark id (p : Parameters) n :
  deampy_MarkovJumpProcess (probMatrix p) = None ->
  EconEval_timeToAIDS_after id p n
  = mark_after E_alive E_body
      (fun st => EconEval.PatientStateMonitor.timeToAIDS (EconEval.Patient.stateMonitor st.1))
      (EconEval.Patient.init id p, RNG_seed id) n.
Proof.
  intros Hmjp.
  unfold EconEval_timeToAIDS_after, mark_after. rewrite EconEval_simulate_state_after.
  simpl. rewrite Hmjp.
  destruct (state_after (loop _ _ _ _ _)) as [[[? ?] ?]|]; reflexivity.
Qed.

(** When the process cannot be built the patient is left as constructed,
    whatever the number of steps. *)
Lemma EconEval_timeToAIDS_after_unbuilt id (p : Parameters) e n :
  deampy_MarkovJumpProcess (probMatrix p) = Some e ->
  EconEval_timeToAIDS_after id p n = Some None.
Proof.
  intros Hmjp. unfold EconEval_timeToAIDS_after. rewrite EconEval_simulate_state_after.
  simpl. rewrite Hmjp. reflexivity.
Qed.

Context `{!HealthStateEnumLaws}.

Lemma value_inj (s s' : HealthStates) : value s = value s' -> s = s'.
Proof.
  intros Hv. pose proof (HealthStates_of_value s) as Hs.
  rewrite Hv, HealthStates_of_value in Hs. congruence.
Qed.

(** Where AIDS is left by death only, the state sampled from the AIDS row
    is AIDS or death. *)
Lemma aids_successor (p : Parameters) row g s :
  aids_is_left_by_death_only p ->
  probMatrix p !! value AIDS = Some row ->
  HealthStates_of (Empirical_sample row g).1 = Some s ->
  s = AIDS \/ s = HIV_DEATH.
Proof.
  intros [Hsup Hrow] Hr Hs.
  destruct (Hsup row g Hr) as (pr & Hj & Hpos).
  apply value_HealthStates_of in Hs.
  destruct (Hrow row _ pr Hr Hj Hpos) as [Hv|Hv]; rewrite <- Hs in Hv;
    apply value_inj in Hv; auto.
Qed.

Section runs.
Variables (p : Parameters) (id : Z).
Hypothesis Hp : aids_is_left_by_death_only p.

Let G_mark := fun self : Guarded.Patient.t =>
  Guarded.PatientStateMonitor.timeToAIDS (Guarded.Patient.stateMonitor self).
Let G_inv := fun self : Guarded.Patient.t => Guarded.Patient.params self = p.
Let G_settled := fun self : Guarded.Patient.t =>
  G_state self = AIDS \/ G_state self = HIV_DEATH.

Lemma Guarded_inv_kept st k st' :
  G_inv st -> state_after (G_body st k) = Some st' -> G_inv st'.
Proof.
  unfold G_inv. intros Hi Hb. destruct (Guarded_body_inv st st' k Hb) as (_ & -> & _).
  assumption.
Qed.

Lemma Guarded_settled_frame st k st' :
  G_inv st -> G_settled st -> G_alive st = true ->
  state_after (G_body st k) = Some st' ->
  G_mark st' = G_mark st /\ G_settled st'.
Proof.
  unfold G_inv, G_settled, G_mark. intros Hi Hset Ha Hb.
  apply Guarded_alive_iff in Ha. destruct Hset as [Haids|Hd]; [|contradiction].
  destruct (Guarded_body_inv st st' k Hb) as (_ & _ & [->|(row & s & Hr & Hs & Hu)]).
  - auto.
  - rewrite Hi, Haids in Hr.
    rewrite (Guarded_update_alive _ k s Ha) in Hu. simpl in Hu. injection Hu as <-.
    simpl. split.
    + destruct (decide (_ /\ _)) as [[Hne _]|_]; [contradiction | reflexivity].
    + apply (aids_successor p row _ s Hp Hr Hs).
Qed.

Lemma Guarded_mark_settles st k st' :
  G_inv st -> G_alive st = true -> G_body st k = Returns st' ->
  (G_mark st <> None -> G_settled st) -> G_mark st' <> None -> G_settled st'.
Proof.
  unfold G_inv, G_settled, G_mark. intros Hi Ha Hb Hset.
  apply Guarded_alive_iff in Ha.
  destruct (Guarded_body_returns_inv st st' k Hb) as (row & s & Hr & Hs & Hu).
  rewrite (Guarded_update_alive _ k s Ha) in Hu. injection Hu as <-. simpl.
  destruct (decide (_ /\ _)) as [[_ ->]|_]; [auto|].
  intros Hm. destruct (Hset Hm) as [Haids|Hd]; [|contradiction].
  rewrite Hi, Haids in Hr. apply (aids_successor p row _ s Hp Hr Hs).
Qed.

Lemma Guarded_mark_set st k st' :
  state_after (G_body st k) = Some st' -> G_mark st' <> G_mark st ->
  exists t, G_mark st' = Some t.
Proof.
  unfold G_mark. intros Hb Hne.
  destruct (Guarded_body_inv st st' k Hb) as (_ & _ & [Heq|(row & s & _ & _ & Hu)]).
  - rewrite Heq in Hne. contradiction.
  - destruct (Guarded_update_timeToAIDS _ _ k s Hu Hne) as (_ & _ & ->). eauto.
Qed.

Lemma Guarded_timeToAIDS_never_overwritten :
  never_overwritten (Guarded_timeToAIDS_after id p).
Proof.
  apply (never_overwritten_ext _ _ (Guarded_timeToAIDS_after_mark id p)).
  apply (mark_never_overwritten G_alive G_body G_mark G_inv G_settled
           (Guarded.Patient.init id p) Guarded_body_total Guarded_inv_kept
           Guarded_settled_frame Guarded_mark_settles).
  - reflexivity.
  - intros Hm. contradiction.
Qed.

Lemma Guarded_timeToAIDS_assigned_at_most_once :
  assigned_at_most_once (Guarded_timeToAIDS_after id p).
Proof.
  apply (assigned_at_most_once_ext _ _ (Guarded_timeToAIDS_after_mark id p)).
  apply (mark_assigned_at_most_once G_alive G_body G_mark G_inv G_settled
           (Guarded.Patient.init id p) Guarded_body_total Guarded_inv_kept
           Guarded_settled_frame Guarded_mark_settles Guarded_mark_set).
  - reflexivity.
  - intros Hm. contradiction.
Qed.

Let E_mark := fun st : EconEval.Patient.t * RNG =>
  EconEval.PatientStateMonitor.timeToAIDS (EconEval.Patient.stateMonitor st.1).
Let E_inv := fun st : EconEval.Patient.t * RNG => EconEval.Patient.params st.1 = p.
Let E_settled := fun st : EconEval.Patient.t * RNG =>
  E_state st.1 = AIDS \/ E_state st.1 = HIV_DEATH.

Lemma EconEval_inv_kept st k st' :
  E_inv st -> state_after (E_body st k) = Some st' -> E_inv st'.
Proof.
  unfold E_inv. intros Hi Hb. destruct (EconEval_body_inv st st' k Hb) as (_ & -> & _).
  assumption.
Qed.

Lemma EconEval_settled_frame st k st' :
  E_inv st -> E_settled st -> E_alive st = true ->
  state_after (E_body st k) = Some st' ->
  E_mark st' = E_mark st /\ E_settled st'.
Proof.
  unfold E_inv, E_settled, E_mark. intros Hi Hset Ha Hb.
  apply EconEval_alive_iff in Ha. destruct Hset as [Haids|Hd]; [|contradiction].
  destruct (EconEval_body_inv st st' k Hb) as (_ & _ & [->|(row & s & Hr & Hs & Hu)]).
  - auto.
  - rewrite Hi, Haids in Hr.
    destruct (EconEval_update_fields _ _ k s Hu) as [_ Htta]. split.
    + rewrite Htta. destruct (decide (_ /\ _)) as [[Hne _]|_];
        [contradiction | reflexivity].
    + destruct (EconEval.PatientStateMonitor.update _ k s) as [m|e m|] eqn:Hupd;
        simpl in Hu; [| |discriminate]; injection Hu as ->.
      * rewrite (EconEval_update_returns _ _ k s Hupd).
        apply (aids_successor p row _ s Hp Hr Hs).
      * rewrite (EconEval_update_raises _ _ k s e Hupd). auto.
Qed.

Lemma EconEval_mark_settles st k st' :
  E_inv st -> E_alive st = true -> E_body st k = Returns st' ->
  (E_mark st <> None -> E_settled st) -> E_mark st' <> None -> E_settled st'.
Proof.
  unfold E_inv, E_settled, E_mark. intros Hi Ha Hb Hset.
  apply EconEval_alive_iff in Ha.
  destruct (EconEval_body_returns_inv st st' k Hb) as (row & s & Hr & Hs & Hu).
  rewrite (EconEval_update_returns _ _ k s Hu).
  destruct (EconEval_update_fields (EconEval.Patient.stateMonitor st.1)
              (EconEval.Patient.stateMonitor st'.1) k s)
    as [_ Htta]; [rewrite Hu; reflexivity|].
  rewrite Htta. destruct (decide (_ /\ _)) as [[_ ->]|_]; [auto|].
  intros Hm. destruct (Hset Hm) as [Haids|Hd]; [|contradiction].
  rewrite Hi, Haids in Hr. apply (aids_successor p row _ s Hp Hr Hs).
Qed.

Lemma EconEval_mark_set st k st' :
  state_after (E_body st k) = Some st' -> E_mark st' <> E_mark st ->
  exists t, E_mark st' = Some t.
Proof.
  unfold E_mark. intros Hb Hne.
  destruct (EconEval_body_inv st st' k Hb) as (_ & _ & [Heq|(row & s & _ & _ & Hu)]).
  - rewrite Heq in Hne. contradiction.
  - destruct (EconEval_update_timeToAIDS _ _ k s Hu Hne) as (_ & _ & ->). eauto.
Qed.

Lemma EconEval_timeToAIDS_never_overwritten :
  never_overwritten (EconEval_timeToAIDS_after id p).
Proof.
  destruct (deampy_MarkovJumpProcess (probMatrix p)) as [e|] eqn:Hmjp.
  { intros i j t _ Hi. rewrite (EconEval_timeToAIDS_after_unbuilt id p e i Hmjp) in Hi.
    discriminate. }
  apply (never_overwritten_ext _ _ (fun n => EconEval_timeToAIDS_after_mark id p n Hmjp)).
  apply (mark_never_overwritten E_alive E_body E_mark E_inv E_settled
           (EconEval.Patient.init id p, RNG_seed id) EconEval_body_total
           EconEval_inv_kept EconEval_settled_frame EconEval_mark_settles).
  - reflexivity.
  - intros Hm. contradiction.
Qed.

Lemma EconEval_timeToAIDS_assigned_at_most_once :
  assigned_at_most_once (EconEval_timeToAIDS_after id p).
Proof.
  destruct (deampy_MarkovJumpProcess (probMatrix p)) as [e|] eqn:Hmjp.
  { intros i i' _ _ Hi. exfalso. apply Hi.
    rewrite !(EconEval_timeToAIDS_after_unbuilt id p e _ Hmjp). reflexivity. }
  apply (assigned_at_most_once_ext _ _ (fun n => EconEval_timeToAIDS_after_mark id p n Hmjp)).
  apply (mark_assigned_at_most_once E_alive E_body E_mark E_inv E_settled
           (EconEval.Patient.init id p, RNG_seed id) EconEval_body_total
           EconEval_inv_kept EconEval_settled_frame EconEval_mark_settles
           EconEval_mark_set).
  - reflexivity.
  - intros Hm. contradiction.
Qed.
End runs.

(** C3 (as amended). [update] writes [timeToAIDS] only in a call in which
    the monitor's state is not the AIDS state and the new state is, and then
    writes [time_step + 0.5].  On a transition matrix whose AIDS row leads to
    AIDS and death only, a simulated patient's [timeToAIDS] is written by at
    most one step of the simulation and, once set, is the same after every
    later step.  Both engines. *)
Theorem timeToAIDS_written_once (p : Parameters) (id : Z) :
  aids_is_left_by_death_only p ->
  (forall (mg mg' : Guarded.PatientStateMonitor.t) (time_step : Z) (new_state : HealthStates),
      state_after (Guarded.PatientStateMonitor.update mg time_step new_state) = Some mg' ->
      Guarded.PatientStateMonitor.timeToAIDS mg' <> Guarded.PatientStateMonitor.timeToAIDS mg ->
      Guarded.PatientStateMonitor.currentState mg <> AIDS /\ new_state = AIDS
      /\ Guarded.PatientStateMonitor.timeToAIDS mg' = Some (inject_Z time_step + (1 # 2))%Q)
  /\ (forall (me me' : EconEval.PatientStateMonitor.t) (time_step : Z) (new_state : HealthStates),
      state_after (EconEval.PatientStateMonitor.update me time_step new_state) = Some me' ->
      EconEval.PatientStateMonitor.timeToAIDS me' <> EconEval.PatientStateMonitor.timeToAIDS me ->
      EconEval.PatientStateMonitor.currentState me <> AIDS /\ new_state = AIDS
      /\ EconEval.PatientStateMonitor.timeToAIDS me' = Some (inject_Z time_step + (1 # 2))%Q)
  /\ assigned_at_most_once (Guarded_timeToAIDS_after id p)
  /\ never_overwritten (Guarded_timeToAIDS_after id p)
  /\ assigned_at_most_once (EconEval_timeToAIDS_after id p)
  /\ never_overwritten (EconEval_timeToAIDS_after id p).
Proof.
  intros Hp.
  split; [intros mg mg' k s Hu Hne; exact (Guarded_update_timeToAIDS mg mg' k s Hu Hne)|].
  split; [intros me me' k s Hu Hne; exact (EconEval_update_timeToAIDS me me' k s Hu Hne)|].
  split; [exact (Guarded_timeToAIDS_assigned_at_most_once p id Hp)|].
  split; [exact (Guarded_timeToAIDS_never_overwritten p id Hp)|].
  split; [exact (EconEval_timeToAIDS_assigned_at_most_once p id Hp)|].
  exact (EconEval_timeToAIDS_never_overwritten p id Hp).
Qed.
End time_to_aids.

(** ** The onset flag of [MarkovModelClasses.py] *)

Section onset_flag.
Context {H : HealthStateEnum} {RC : RandomCarrier} {H0 : RandomSource}.
Context {LC : LibraryCarrier} {Lib : Library}.

Lemma Guarded_flag_tracks_time (m : Guarded.PatientStateMonitor.t) :
  Guarded_reachable m ->
  Guarded.PatientStateMonitor.ifDevelopedAIDS m = true
  <-> Guarded.PatientStateMonitor.timeToAIDS m <> None.
Proof.
  induction 1 as [p|m m' k s Hm IH Hu].
  - simpl. split; [discriminate | intros Hne; contradiction].
  - destruct (decide (Guarded.PatientStateMonitor.currentState m = HIV_DEATH)) as [Hd|Ha].
    + rewrite (Guarded_update_absorbed m k s Hd) in Hu. injection Hu as <-. exact IH.
    + rewrite (Guarded_update_alive m k s Ha) in Hu. injection Hu as <-. simpl.
      destruct (decide (_ /\ _)); [|exact IH].
      split; [discriminate | reflexivity].
Qed.

(** The monitor of a patient stays reachable through [simulate]. *)
Lemma Guarded_simulate_reachable (self self' : Guarded.Patient.t) n :
  Guarded_reachable (Guarded.Patient.stateMonitor self) ->
  state_after (Guarded.Patient.simulate self n) = Some self' ->
  Guarded_reachable (Guarded.Patient.stateMonitor self').
Proof.
  apply (Guarded_simulate_invariant
           (fun st => Guarded_reachable (Guarded.Patient.stateMonitor st))).
  intros st k st' Hr Hb.
  destruct (Guarded_body_inv st st' k Hb) as (_ & _ & [->|(row & s & _ & _ & Hu)]).
  - assumption.
  - apply (reachable_update _ _ k s Hr Hu).
Qed.

(** What [simulate_patients] returns is, position by position, what
    [Patient.simulate] returns on the patients it was given. *)
Lemma Guarded_simulate_patients_lookup (ps ps' : list Guarded.Patient.t) n i a :
  Guarded.Cohort.simulate_patients ps n = Returns ps' ->
  ps' !! i = Some a ->
  exists a0, ps !! i = Some a0 /\ Guarded.Patient.simulate a0 n = Returns a.
Proof.
  revert ps' i. induction ps as [|q ps IH]; intros ps' i; simpl.
  - intros [= <-]. rewrite lookup_nil. discriminate.
  - destruct (Guarded.Patient.simulate q n) as [q'|e q'|] eqn:Hq; try discriminate.
    destruct (Guarded.Cohort.simulate_patients ps n) as [ps1|e ps1|] eqn:Hps;
      try discriminate.
    intros [= <-]. destruct i as [|i]; simpl.
    + intros [= <-]. exists q. split; [reflexivity | assumption].
    + intros Ha. apply (IH ps1 i eq_refl Ha).
Qed.

Lemma Guarded_cohort_patient (cid pop : Z) (p : Parameters) i a0 :
  Guarded.Cohort.patients (Guarded.Cohort.init cid pop p) !! i = Some a0 ->
  a0 = Guarded.Patient.init (cid * pop + Z.of_nat i) p /\ (Z.of_nat i < pop)%Z.
Proof.
  simpl. rewrite list_lookup_fmap.
  destruct (seqZ 0 pop !! i) as [z|] eqn:Hz; [|discriminate].
  apply lookup_seqZ in Hz as [-> Hlt]. simpl. intros [= <-].
  split; [reflexivity | assumption].
Qed.

Lemma Guarded_record_patient_timesToAIDS (o : Guarded.CohortOutcomes.t) (a : Guarded.Patient.t) :
  Guarded_reachable (Guarded.Patient.stateMonitor a) ->
  Forall is_Some (Guarded.CohortOutcomes.timesToAIDS o) ->
  Forall is_Some
    (Guarded.CohortOutcomes.timesToAIDS (Guarded.CohortOutcomes.record_patient o a)).
Proof.
  intros Hr Ho. simpl.
  destruct (Guarded.PatientStateMonitor.ifDevelopedAIDS _) eqn:Hflag; [|assumption].
  apply Forall_app. split; [assumption|]. apply Forall_singleton.
  apply (Guarded_flag_tracks_time _ Hr) in Hflag.
  destruct (Guarded.PatientStateMonitor.timeToAIDS _); [eexists; reflexivity | contradiction].
Qed.

Lemma Guarded_record_patients_timesToAIDS (o : Guarded.CohortOutcomes.t)
    (ps : list Guarded.Patient.t) :
  Forall (fun a => Guarded_reachable (Guarded.Patient.stateMonitor a)) ps ->
  Forall is_Some (Guarded.CohortOutcomes.timesToAIDS o) ->
  Forall is_Some
    (Guarded.CohortOutcomes.timesToAIDS (Guarded.CohortOutcomes.record_patients o ps)).
Proof.
  unfold Guarded.CohortOutcomes.record_patients. revert o.
  induction ps as [|a ps IH]; intros o Hps Ho; simpl; [assumption|].
  apply Forall_cons in Hps as [Ha Hps].
  apply IH; [assumption|]. apply Guarded_record_patient_timesToAIDS; assumption.
Qed.

(** However [extract_outcomes] completes, the four vectors are those that
    the loop over the patients has left: the library constructors that follow
    the loop touch none of them. *)
Lemma Guarded_extract_outcomes_loop (o o' : Guarded.CohortOutcomes.t)
    (ps : list Guarded.Patient.t) :
  state_after (Guarded.CohortOutcomes.extract_outcomes o ps) = Some o' ->
  Guarded.CohortOutcomes.survivalTimes o'
  = Guarded.CohortOutcomes.survivalTimes (Guarded.CohortOutcomes.record_patients o ps)
  /\ Guarded.CohortOutcomes.timesToAIDS o'
     = Guarded.CohortOutcomes.timesToAIDS (Guarded.CohortOutcomes.record_patients o ps)
  /\ Guarded.CohortOutcomes.costs o'
     = Guarded.CohortOutcomes.costs (Guarded.CohortOutcomes.record_patients o ps)
  /\ Guarded.CohortOutcomes.utilities o'
     = Guarded.CohortOutcomes.utilities (Guarded.CohortOutcomes.record_patients o ps).
Proof.
  unfold Guarded.CohortOutcomes.extract_outcomes,
    Guarded.CohortOutcomes.nLivingPatients_arguments.
  repeat (match goal with
          | |- context [match ?c with inl _ => _ | inr _ => _ end] => destruct c
          end; simpl; [intros [= <-]; auto|]).
  intros [= <-]. auto.
Qed.

Lemma EconEval_extract_outcomes_loop (o o' : EconEval.CohortOutcomes.t)
    (ps : list EconEval.Patient.t) :
  state_after (EconEval.CohortOutcomes.extract_outcomes o ps) = Some o' ->
  EconEval.CohortOutcomes.survivalTimes o'
  = EconEval.CohortOutcomes.survivalTimes (EconEval.CohortOutcomes.record_patients o ps)
  /\ EconEval.CohortOutcomes.timesToAIDS o'
     = EconEval.CohortOutcomes.timesToAIDS (EconEval.CohortOutcomes.record_patients o ps)
  /\ EconEval.CohortOutcomes.costs o'
     = EconEval.CohortOutcomes.costs (EconEval.CohortOutcomes.record_patients o ps)
  /\ EconEval.CohortOutcomes.utilities o'
     = EconEval.CohortOutcomes.utilities (EconEval.CohortOutcomes.record_patients o ps).
Proof.
  unfold EconEval.CohortOutcomes.extract_outcomes,
    EconEval.CohortOutcomes.nLivingPatients_arguments.
  repeat (match goal with
          | |- context [match ?c with inl _ => _ | inr _ => _ end] => destruct c
          end; simpl; [intros [= <-]; auto|]).
  intros [= <-]. auto.
Qed.

Lemma Guarded_extract_outcomes_total (o : Guarded.CohortOutcomes.t)
    (ps : list Guarded.Patient.t) :
  Guarded.CohortOutcomes.extract_outcomes o ps <> OutOfFuel.
Proof.
  unfold Guarded.CohortOutcomes.extract_outcomes,
    Guarded.CohortOutcomes.nLivingPatients_arguments.
  repeat (match goal with
          | |- context [match ?c with inl _ => _ | inr _ => _ end] => destruct c
          end; [discriminate|]).
  discriminate.
Qed.

Lemma Guarded_simulate_patients_reachable (ps ps' : list Guarded.Patient.t) n :
  Forall (fun a => Guarded_reachable (Guarded.Patient.stateMonitor a)) ps ->
  state_after (Guarded.Cohort.simulate_patients ps n) = Some ps' ->
  Forall (fun a => Guarded_reachable (Guarded.Patient.stateMonitor a)) ps'.
Proof.
  revert ps'. induction ps as [|q ps IH]; intros ps' Hps; simpl.
  - intros [= <-]. apply Forall_nil_2.
  - apply Forall_cons in Hps as [Hq Hps].
    destruct (Guarded.Patient.simulate q n) as [q'|e q'|] eqn:Hsim; simpl;
      [| |discriminate].
    + assert (Hq' : Guarded_reachable (Guarded.Patient.stateMonitor q'))
        by (apply (Guarded_simulate_reachable q q' n Hq); rewrite Hsim; reflexivity).
      destruct (Guarded.Cohort.simulate_patients ps n) as [ps1|e ps1|] eqn:Hrest; simpl;
        [| |discriminate]; intros [= <-]; apply Forall_cons; split; try assumption;
        apply IH; try assumption; reflexivity.
    + intros [= <-]. apply Forall_cons. split; [|assumption].
      apply (Guarded_simulate_reachable q q' n Hq). rewrite Hsim. reflexivity.
Qed.

Lemma Guarded_cohort_init_sound (cid pop : Z) (p : Parameters) :
  Guarded_cohort_sound (Guarded.Cohort.init cid pop p).
Proof.
  split; [|apply Forall_nil_2]. apply Forall_lookup. intros i a Ha.
  apply Guarded_cohort_patient in Ha as [-> _]. simpl. apply reachable_init.
Qed.

Lemma Guarded_cohort_simulate_sound (c c' : Guarded.Cohort.t) n :
  Guarded_cohort_sound c ->
  state_after (Guarded.Cohort.simulate c n) = Some c' ->
  Guarded_cohort_sound c'.
Proof.
  intros [Hps Ho]. unfold Guarded.Cohort.simulate.
  destruct (Guarded.Cohort.simulate_patients _ n) as [ps|e ps|] eqn:Hsim; simpl;
    [| |discriminate];
    assert (Hps' : Forall (fun a => Guarded_reachable (Guarded.Patient.stateMonitor a)) ps)
      by (apply (Guarded_simulate_patients_reachable _ ps n Hps); rewrite Hsim; reflexivity).
  - destruct (Guarded.CohortOutcomes.extract_outcomes _ ps) as [o|e o|] eqn:Hex; simpl;
      [| |discriminate]; intros [= <-]; (split; simpl; [assumption|]);
      (destruct (Guarded_extract_outcomes_loop (Guarded.Cohort.cohortOutcomes c) o ps)
         as (_ & -> & _); [rewrite Hex; reflexivity|]);
      apply Guarded_record_patients_timesToAIDS; assumption.
  - intros [= <-]. split; simpl; assumption.
Qed.

(** C10. In the guarded engine, after construction and after every
    [update] call the flag [ifDevelopedAIDS] is set exactly when
    [timeToAIDS] is not [None]; so the vector [timesToAIDS], whose entries
    [extract_outcomes] appends on that flag, holds no [None]: not in a
    freshly constructed cohort, and not after any [simulate] call on a cohort
    in which it held none before. *)
Theorem ifDevelopedAIDS_iff_timeToAIDS_set :
  (forall m : Guarded.PatientStateMonitor.t,
      Guarded_reachable m ->
      Guarded.PatientStateMonitor.ifDevelopedAIDS m = true
      <-> Guarded.PatientStateMonitor.timeToAIDS m <> None)
  /\ (forall (cid pop : Z) (p : Parameters),
      Guarded_cohort_sound (Guarded.Cohort.init cid pop p))
  /\ (forall (c c' : Guarded.Cohort.t) (n : Z),
      Guarded_cohort_sound c ->
      state_after (Guarded.Cohort.simulate c n) = Some c' ->
      Guarded_cohort_sound c'
      /\ Forall is_Some
           (Guarded.CohortOutcomes.timesToAIDS (Guarded.Cohort.cohortOutcomes c'))).
Proof.
  split; [exact Guarded_flag_tracks_time|].
  split; [exact Guarded_cohort_init_sound|].
  intros c c' n Hc Hsim.
  pose proof (Guarded_cohort_simulate_sound c c' n Hc Hsim) as Hc'.
  split; [exact Hc' | exact (proj2 Hc')].
Qed.
End onset_flag.

(** ** Cohorts *)

Section cohort_facts.
Context {H : HealthStateEnum} {RC : RandomCarrier} {H0 : RandomSource}.
Context {LC : LibraryCarrier} {Lib : Library}.

Lemma EconEval_simulate_patients_lookup (ps ps' : list EconEval.Patient.t) n i a :
  EconEval.Cohort.simulate_patients ps n = Returns ps' ->
  ps' !! i = Some a ->
  exists a0, ps !! i = Some a0 /\ EconEval.Patient.simulate a0 n = Returns a.
Proof.
  revert ps' i. induction ps as [|q ps IH]; intros ps' i; simpl.
  - intros [= <-]. rewrite lookup_nil. discriminate.
  - destruct (EconEval.Patient.simulate q n) as [q'|e q'|] eqn:Hq; try discriminate.
    destruct (EconEval.Cohort.simulate_patients ps n) as [ps1|e ps1|] eqn:Hps;
      try discriminate.
    intros [= <-]. destruct i as [|i]; simpl.
    + intros [= <-]. exists q. split; [reflexivity | assumption].
    + intros Ha. apply (IH ps1 i eq_refl Ha).
Qed.

Lemma EconEval_cohort_patient (cid pop : Z) (p : Parameters) i a0 :
  EconEval.Cohort.populate (EconEval.Cohort.init cid pop p) !! i = Some a0 ->
  a0 = EconEval.Patient.init (cid * pop + Z.of_nat i) p /\ (Z.of_nat i < pop)%Z.
Proof.
  unfold EconEval.Cohort.populate. simpl. rewrite list_lookup_fmap.
  destruct (seqZ 0 pop !! i) as [z|] eqn:Hz; [|discriminate].
  apply lookup_seqZ in Hz as [-> Hlt]. simpl. intros [= <-].
  split; [reflexivity | assumption].
Qed.

(** A simulated patient of a cohort is the patient constructed from its own
    id and the cohort's parameters, simulated on its own. *)
Lemma Guarded_cohort_patient_simulated (cid pop : Z) (p : Parameters) n ps i a :
  Guarded.Cohort.simulate_patients
    (Guarded.Cohort.patients (Guarded.Cohort.init cid pop p)) n = Returns ps ->
  ps !! i = Some a ->
  Guarded.Patient.simulate (Guarded.Patient.init (Guarded.Patient.id a) p) n = Returns a.
Proof.
  intros Hps Ha.
  destruct (Guarded_simulate_patients_lookup _ _ n i a Hps Ha) as (a0 & Ha0 & Hsim).
  apply Guarded_cohort_patient in Ha0 as [-> _].
  destruct (Guarded_simulate_keeps (Guarded.Patient.init (cid * pop + Z.of_nat i) p) a n)
    as [-> _]; [rewrite Hsim; reflexivity|].
  exact Hsim.
Qed.

Lemma EconEval_cohort_patient_simulated (cid pop : Z) (p : Parameters) n ps i a :
  EconEval.Cohort.simulate_patients
    (EconEval.Cohort.populate (EconEval.Cohort.init cid pop p)) n = Returns ps ->
  ps !! i = Some a ->
  EconEval.Patient.simulate (EconEval.Patient.init (EconEval.Patient.id a) p) n = Returns a.
Proof.
  intros Hps Ha.
  destruct (EconEval_simulate_patients_lookup _ _ n i a Hps Ha) as (a0 & Ha0 & Hsim).
  apply EconEval_cohort_patient in Ha0 as [-> _].
  destruct (EconEval_simulate_keeps (EconEval.Patient.init (cid * pop + Z.of_nat i) p) a n)
    as [-> _]; [rewrite Hsim; reflexivity|].
  exact Hsim.
Qed.

(** C8. Two patients constructed with the same id and the same parameters
    and simulated for the same number of steps have the same survival time,
    time to AIDS, discounted cost and discounted utility: whether they are
    constructed directly, or by two cohorts (of any ids and sizes) on the
    same parameters.  The generator is seeded by the id and the sampler is
    a function of the generator, so the outcome is a function of the id,
    the parameters and the number of steps.  Both engines. *)
Theorem same_id_same_outcomes (p : Parameters) (n_time_steps : Z) :
  (forall (id : Z) (a b : Guarded.Patient.t),
      state_after (Guarded.Patient.simulate (Guarded.Patient.init id p) n_time_steps) = Some a ->
      state_after (Guarded.Patient.simulate (Guarded.Patient.init id p) n_time_steps) = Some b ->
      Guarded_outcomes a = Guarded_outcomes b)
  /\ (forall (id : Z) (a b : EconEval.Patient.t),
      state_after (EconEval.Patient.simulate (EconEval.Patient.init id p) n_time_steps) = Some a ->
      state_after (EconEval.Patient.simulate (EconEval.Patient.init id p) n_time_steps) = Some b ->
      EconEval_outcomes a = EconEval_outcomes b)
  /\ (forall (cid1 pop1 cid2 pop2 : Z) (ps1 ps2 : list Guarded.Patient.t)
             (i1 i2 : nat) (a b : Guarded.Patient.t),
      Guarded.Cohort.simulate_patients
        (Guarded.Cohort.patients (Guarded.Cohort.init cid1 pop1 p)) n_time_steps = Returns ps1 ->
      Guarded.Cohort.simulate_patients
        (Guarded.Cohort.patients (Guarded.Cohort.init cid2 pop2 p)) n_time_steps = Returns ps2 ->
      ps1 !! i1 = Some a -> ps2 !! i2 = Some b ->
      Guarded.Patient.id a = Guarded.Patient.id b ->
      Guarded_outcomes a = Guarded_outcomes b)
  /\ (forall (cid1 pop1 cid2 pop2 : Z) (ps1 ps2 : list EconEval.Patient.t)
             (i1 i2 : nat) (a b : EconEval.Patient.t),
      EconEval.Cohort.simulate_patients
        (EconEval.Cohort.populate (EconEval.Cohort.init cid1 pop1 p)) n_time_steps = Returns ps1 ->
      EconEval.Cohort.simulate_patients
        (EconEval.Cohort.populate (EconEval.Cohort.init cid2 pop2 p)) n_time_steps = Returns ps2 ->
      ps1 !! i1 = Some a -> ps2 !! i2 = Some b ->
      EconEval.Patient.id a = EconEval.Patient.id b ->
      EconEval_outcomes a = EconEval_outcomes b).
Proof.
  split; [intros id a b Ha Hb; congruence|].
  split; [intros id a b Ha Hb; congruence|].
  split.
  - intros cid1 pop1 cid2 pop2 ps1 ps2 i1 i2 a b Hps1 Hps2 Ha Hb Hid.
    pose proof (Guarded_cohort_patient_simulated cid1 pop1 p _ ps1 i1 a Hps1 Ha) as Hsa.
    pose proof (Guarded_cohort_patient_simulated cid2 pop2 p _ ps2 i2 b Hps2 Hb) as Hsb.
    rewrite Hid in Hsa. congruence.
  - intros cid1 pop1 cid2 pop2 ps1 ps2 i1 i2 a b Hps1 Hps2 Ha Hb Hid.
    pose proof (EconEval_cohort_patient_simulated cid1 pop1 p _ ps1 i1 a Hps1 Ha) as Hsa.
    pose proof (EconEval_cohort_patient_simulated cid2 pop2 p _ ps2 i2 b Hps2 Hb) as Hsb.
    rewrite Hid in Hsa. congruence.
Qed.

(** The ids a cohort hands out. *)
Lemma Guarded_patient_ids_eq (cid pop : Z) (p : Parameters) :
  Guarded_patient_ids cid pop p = (fun i => cid * pop + i)%Z <$> seqZ 0 pop.
Proof.
  unfold Guarded_patient_ids. simpl. rewrite <- list_fmap_compose. reflexivity.
Qed.

Lemma EconEval_patient_ids_eq (cid pop : Z) (p : Parameters) :
  EconEval_patient_ids cid pop p = (fun i => cid * pop + i)%Z <$> seqZ 0 pop.
Proof.
  unfold EconEval_patient_ids, EconEval.Cohort.populate. simpl.
  rewrite <- list_fmap_compose. reflexivity.
Qed.

Lemma cohort_ids_length (cid pop : Z) :
  (0 <= pop)%Z ->
  Z.of_nat (length ((fun i => cid * pop + i)%Z <$> seqZ 0 pop)) = pop.
Proof. intros Hpop. rewrite length_fmap, length_seqZ. lia. Qed.

Lemma cohort_ids_lookup (cid pop i : Z) :
  (0 <= i < pop)%Z ->
  ((fun i => cid * pop + i)%Z <$> seqZ 0 pop) !! Z.to_nat i = Some (cid * pop + i)%Z.
Proof.
  intros Hi. rewrite list_lookup_fmap.
  rewrite (proj2 (lookup_seqZ 0 pop (Z.to_nat i) i)) by lia. reflexivity.
Qed.

Lemma cohort_ids_elem (cid pop x : Z) :
  x ∈ ((fun i => cid * pop + i)%Z <$> seqZ 0 pop) ->
  exists i, (0 <= i < pop)%Z /\ x = (cid * pop + i)%Z.
Proof.
  intros Hx. apply list_elem_of_fmap in Hx as (i & -> & Hi).
  apply elem_of_seqZ in Hi. exists i. split; [lia | reflexivity].
Qed.

Lemma elem_of_concat (x : Z) (ls : list (list Z)) :
  x ∈ concat ls -> exists l, x ∈ l /\ l ∈ ls.
Proof.
  induction ls as [|l ls IH]; simpl.
  - intros Hx. apply elem_of_nil in Hx. contradiction.
  - intros Hx. apply elem_of_app in Hx as [Hx|Hx].
    + exists l. split; [assumption | apply elem_of_cons; left; reflexivity].
    + destruct (IH Hx) as (l' & Hl' & Hin). exists l'.
      split; [assumption | apply elem_of_cons; right; assumption].
Qed.

(** Cohorts of one common size and distinct ids hand out distinct ids. *)
Lemma cohort_ids_unique (pop : Z) (cids : list Z) :
  NoDup cids ->
  NoDup (concat ((fun cid => (fun i => cid * pop + i)%Z <$> seqZ 0 pop) <$> cids)).
Proof.
  induction 1 as [|cid cids Hnotin Hnd IH]; simpl; [apply NoDup_nil_2|].
  apply NoDup_app. split; [|split; [|assumption]].
  - apply NoDup_fmap_2; [|apply NoDup_seqZ]. intros i j Hij. lia.
  - intros x Hx Hx'. apply cohort_ids_elem in Hx as (i & Hi & ->).
    apply elem_of_concat in Hx' as (l & Hl & Hin).
    apply list_elem_of_fmap in Hin as (cid' & -> & Hcid').
    apply cohort_ids_elem in Hl as (i' & Hi' & Heq).
    assert (cid = cid') by nia. subst cid'. contradiction.
Qed.

(** C9 (as amended). A cohort with id [cid] and a non-negative population
    size [pop] constructs exactly [pop] patients, the [i]-th with id
    [cid * pop + i]; and over cohorts that share one population size and
    have distinct ids, these patient ids are all distinct.  Both engines. *)
Theorem cohort_patient_ids (p : Parameters) (cid pop : Z) (cids : list Z) :
  (0 <= pop)%Z ->
  NoDup cids ->
  (Z.of_nat (length (Guarded.Cohort.patients (Guarded.Cohort.init cid pop p))) = pop
   /\ forall i, (0 <= i < pop)%Z ->
                Guarded_patient_ids cid pop p !! Z.to_nat i = Some (cid * pop + i)%Z)
  /\ (Z.of_nat (length (EconEval.Cohort.populate (EconEval.Cohort.init cid pop p))) = pop
      /\ forall i, (0 <= i < pop)%Z ->
                   EconEval_patient_ids cid pop p !! Z.to_nat i = Some (cid * pop + i)%Z)
  /\ NoDup (concat ((fun c => Guarded_patient_ids c pop p) <$> cids))
  /\ NoDup (concat ((fun c => EconEval_patient_ids c pop p) <$> cids)).
Proof.
  intros Hpop Hnd. repeat split.
  - simpl. rewrite length_fmap, length_seqZ. lia.
  - intros i Hi. rewrite Guarded_patient_ids_eq. apply (cohort_ids_lookup cid pop i Hi).
  - unfold EconEval.Cohort.populate. simpl. rewrite length_fmap, length_seqZ. lia.
  - intros i Hi. rewrite EconEval_patient_ids_eq. apply (cohort_ids_lookup cid pop i Hi).
  - assert (Heq : (fun c => Guarded_patient_ids c pop p) <$> cids
                  = (fun c => (fun i => c * pop + i)%Z <$> seqZ 0 pop) <$> cids)
      by (apply list_fmap_ext; intros; apply Guarded_patient_ids_eq).
    rewrite Heq. apply (cohort_ids_unique pop cids Hnd).
  - assert (Heq : (fun c => EconEval_patient_ids c pop p) <$> cids
                  = (fun c => (fun i => c * pop + i)%Z <$> seqZ 0 pop) <$> cids)
      by (apply list_fmap_ext; intros; apply EconEval_patient_ids_eq).
    rewrite Heq. apply (cohort_ids_unique pop cids Hnd).
Qed.
End cohort_facts.

(** ** The concrete configuration *)

Section scenario_facts.
Import Scenario.
#[local] Existing Instances HIV3_enum Z_carrier inversion_sampler.
#[local] Existing Instances plain_objects checking_library.

Lemma HIV3_laws : @HealthStateEnumLaws HIV3_enum.
Proof.
  split.
  - intros []; reflexivity.
  - intros [|[|[|i]]] s; simpl; intros [= <-]; reflexivity.
Qed.

Lemma uniform_range (g : Z) : (0 <= uniform g)%Q /\ (uniform g < 1)%Q.
Proof.
  unfold uniform, Qle, Qlt. simpl.
  pose proof (Z.mod_pos_bound g (Z.pos modulus) eq_refl). lia.
Qed.

Lemma scenario_samples_states :
  samples_states (H:=HIV3_enum) (H0:=inversion_sampler) parameters.
Proof.
  split.
  - intros []; eexists; reflexivity.
  - intros s row g Hrow. simpl. destruct (uniform_range g) as [H0 H1].
    destruct s; injection Hrow as <-; simpl;
      repeat (destruct (Qlt_le_dec _ _); [eexists; reflexivity|]); exfalso; lra.
Qed.

Lemma scenario_tables_defined : @tables_defined HIV3_enum parameters.
Proof. split; intros []; eexists; reflexivity. Qed.

Lemma scenario_nonnegative_inputs : @nonnegative_inputs HIV3_enum parameters.
Proof. split; simpl; repeat constructor; discriminate. Qed.

Lemma scenario_aids_is_left_by_death_only :
  aids_is_left_by_death_only (H:=HIV3_enum) (H0:=inversion_sampler) parameters.
Proof.
  split.
  - intros row g [= <-]. simpl. destruct (uniform_range g) as [H0 H1].
    destruct (Qlt_le_dec _ _); [exfalso; lra|].
    destruct (Qlt_le_dec _ _); [eexists; split; [reflexivity | reflexivity]|].
    destruct (Qlt_le_dec _ _); [eexists; split; [reflexivity | reflexivity]|].
    exfalso; lra.
  - intros row j pr [= <-]. destruct j as [|[|[|j]]]; simpl; intros [= <-]; auto.
    intros Hpos. discriminate.
Qed.
End scenario_facts.

(** ** The properties on the concrete configuration *)

Section scenario_instances.
Import Scenario.
#[local] Existing Instances HIV3_enum Z_carrier inversion_sampler.
#[local] Existing Instances plain_objects checking_library.

Abbreviation G_monitor0 := (Guarded.PatientStateMonitor.init (H:=HIV3_enum) parameters).
Abbreviation E_monitor0 := (EconEval.PatientStateMonitor.init (H:=HIV3_enum) parameters).

(** C1. The monitor of [EconEvalMarkovModelClasses.py] has no absorption
    guard.  A patient that died at step 3 has the survival time 3.5; a
    further [update(7, HIV_DEATH)] on that monitor overwrites it with 7.5
    and adds the discounted half-year treatment cost to the total, and a
    further [update(7, AIDS)] moves the dead patient to the AIDS state and
    sets its time to AIDS. *)
Theorem EconEval_update_after_death_changes_monitor :
  exists dead again revived : EconEval.PatientStateMonitor.t,
    EconEval.PatientStateMonitor.update E_monitor0 3 Death = Returns dead
    /\ EconEval.PatientStateMonitor.currentState dead = Death
    /\ EconEval.PatientStateMonitor.survivalTime dead = Some (7 # 2)
    /\ EconEval.PatientStateMonitor.update dead 7 Death = Returns again
    /\ EconEval.PatientStateMonitor.survivalTime again = Some (15 # 2)
    /\ ~ (EconEval.PatientCostUtilityMonitor.totalDiscountedCost
            (EconEval.PatientStateMonitor.costUtilityMonitor again)
          == EconEval.PatientCostUtilityMonitor.totalDiscountedCost
               (EconEval.PatientStateMonitor.costUtilityMonitor dead))%Q
    /\ EconEval.PatientStateMonitor.update dead 7 Aids = Returns revived
    /\ EconEval.PatientStateMonitor.currentState revived = Aids
    /\ EconEval.PatientStateMonitor.timeToAIDS dead = None
    /\ EconEval.PatientStateMonitor.timeToAIDS revived = Some (15 # 2).
Proof.
  eexists _, _, _.
  split; [vm_compute; reflexivity|].
  split; [reflexivity|]. split; [reflexivity|].
  split; [vm_compute; reflexivity|].
  split; [reflexivity|].
  split; [vm_compute; discriminate|].
  split; [vm_compute; reflexivity|].
  repeat split; reflexivity.
Qed.

(** C5. The accumulator of [MarkovModelClasses.py] has an empty [update]:
    a step from Well to Well at [k = 0], whose discounted cost is
    [(0.5 * (100 + 100) + 200) / 1.015] and whose discounted utility is
    [1 / 1.015], leaves both totals at zero.  On the same step the
    accumulator of [EconEvalMarkovModelClasses.py] adds that discounted
    cost. *)
Theorem Guarded_accumulator_update_adds_nothing :
  let acc := Guarded.PatientCostUtilityMonitor.init (H:=HIV3_enum) parameters in
  exists acc',
    Guarded.PatientCostUtilityMonitor.update acc 0 Well Well = Returns acc'
    /\ Guarded.PatientCostUtilityMonitor.totalDiscountedCost acc' = 0%Q
    /\ Guarded.PatientCostUtilityMonitor.totalDiscountedUtility acc' = 0%Q
    /\ ~ (pv_single_payment ((1 # 2) * (100 + 100) + 200) ((3 # 100) / 2) (2 * 0 + 1)
          == 0)%Q
    /\ ~ (pv_single_payment ((1 # 2) * (1 + 1)) ((3 # 100) / 2) (2 * 0 + 1) == 0)%Q
    /\ exists acc_e,
        EconEval.PatientCostUtilityMonitor.update
          (EconEval.PatientCostUtilityMonitor.init (H:=HIV3_enum) parameters) 0 Well Well
        = Returns acc_e
        /\ (EconEval.PatientCostUtilityMonitor.totalDiscountedCost acc_e
            == pv_single_payment ((1 # 2) * (100 + 100) + 200) ((3 # 100) / 2) (2 * 0 + 1))%Q.
Proof.
  simpl. eexists. split; [reflexivity|].
  split; [reflexivity|]. split; [reflexivity|].
  split; [vm_compute; discriminate|]. split; [vm_compute; discriminate|].
  eexists. split; [vm_compute; reflexivity|]. vm_compute. reflexivity.
Qed.

(** C4. In every call of [update(k, current_state, next_state)] of the
    accumulator of [EconEvalMarkovModelClasses.py] whose table reads succeed,
    the totals grow by the present values of the cost and of the utility of
    the step: the cost is half the sum of the two states' annual costs plus
    the annual treatment cost, of which only half is charged when the next
    state is the death state, and the utility is half the sum of the two
    states' annual utilities.  The [update] of [MarkovModelClasses.py], whose
    body is a docstring and comments, computes no cost and no utility of the
    step in any call: it returns the accumulator as it is.  On the step from
    AIDS to death at [k = 3] of the scenario, where the cost of the step is
    [0.5 * (500 + 0) + 0.5 * 200 = 350] and its utility [0.5 * (0.7 + 0) =
    0.35], [EconEvalMarkovModelClasses.py] adds their present values, which
    undiscounted are 350 and 0.35, and [MarkovModelClasses.py] leaves both
    totals at zero. *)
Theorem Guarded_accumulator_update_computes_no_step_cost :
  (forall (E : HealthStateEnum) (self : @EconEval.PatientCostUtilityMonitor.t E) (k : Z)
          (current_state next_state : @HealthStates E) (c_cur c_next u_cur u_next : Q),
      let p := EconEval.PatientCostUtilityMonitor.params self in
      annualStateCosts p !! value current_state = Some c_cur ->
      annualStateCosts p !! value next_state = Some c_next ->
      annualStateUtilities p !! value current_state = Some u_cur ->
      annualStateUtilities p !! value next_state = Some u_next ->
      exists self',
        EconEval.PatientCostUtilityMonitor.update self k current_state next_state
        = Returns self'
        /\ EconEval.PatientCostUtilityMonitor.totalDiscountedCost self'
           = (EconEval.PatientCostUtilityMonitor.totalDiscountedCost self
              + pv_single_payment
                  (if decide (next_state = HIV_DEATH)
                   then (1 # 2) * (c_cur + c_next) + (1 # 2) * annualTreatmentCost p
                   else (1 # 2) * (c_cur + c_next) + 1 * annualTreatmentCost p)
                  (discountRate p / 2) (2 * k + 1))%Q
        /\ EconEval.PatientCostUtilityMonitor.totalDiscountedUtility self'
           = (EconEval.PatientCostUtilityMonitor.totalDiscountedUtility self
              + pv_single_payment ((1 # 2) * (u_cur + u_next))
                  (discountRate p / 2) (2 * k + 1))%Q)
  /\ (forall (E : HealthStateEnum) (self : @Guarded.PatientCostUtilityMonitor.t E) (k : Z)
             (current_state next_state : @HealthStates E),
      Guarded.PatientCostUtilityMonitor.update self k current_state next_state
      = Returns self)
  /\ (exists acc_g acc_e,
         Guarded.PatientCostUtilityMonitor.update
           (Guarded.PatientCostUtilityMonitor.init (H:=HIV3_enum) parameters) 3 Aids Death
         = Returns acc_g
         /\ Guarded.PatientCostUtilityMonitor.totalDiscountedCost acc_g = 0%Q
         /\ Guarded.PatientCostUtilityMonitor.totalDiscountedUtility acc_g = 0%Q
         /\ EconEval.PatientCostUtilityMonitor.update
              (EconEval.PatientCostUtilityMonitor.init (H:=HIV3_enum) parameters) 3 Aids Death
            = Returns acc_e
         /\ (EconEval.PatientCostUtilityMonitor.totalDiscountedCost acc_e
             * (1 + (3 # 100) / 2) ^ (2 * 3 + 1) == 350)%Q
         /\ (EconEval.PatientCostUtilityMonitor.totalDiscountedUtility acc_e
             * (1 + (3 # 100) / 2) ^ (2 * 3 + 1) == 35 # 100)%Q).
Proof.
  split; [|split].
  - intros E self k current_state next_state c_cur c_next u_cur u_next p Hc Hc' Hu Hu'.
    rewrite (EconEval_accumulator_update_step self k current_state next_state
               c_cur c_next u_cur u_next Hc Hc' Hu Hu').
    eexists. split; [reflexivity|]. split; reflexivity.
  - intros E self k current_state next_state. reflexivity.
  - eexists _, _. split; [reflexivity|]. split; [reflexivity|]. split; [reflexivity|].
    split; [vm_compute; reflexivity|]. split; vm_compute; reflexivity.
Qed.

(** A fresh monitor of each engine: a death at step 4 is timed at 4.5, and
    the onset of AIDS leaves the survival time unset. *)
Lemma update_records_survivalTime_witness :
  Guarded.PatientStateMonitor.survivalTime
    <$> state_after (Guarded.PatientStateMonitor.update G_monitor0 4 Death)
  = Some (Some (9 # 2))
  /\ EconEval.PatientStateMonitor.survivalTime
       <$> state_after (EconEval.PatientStateMonitor.update E_monitor0 4 Aids)
     = Some None.
Proof.
  destruct (update_records_survivalTime (H:=HIV3_enum) G_monitor0 E_monitor0 4 Death)
    as [(mg' & Hg & Hgd & _) _]; [discriminate | discriminate |].
  destruct (update_records_survivalTime (H:=HIV3_enum) G_monitor0 E_monitor0 4 Aids)
    as [_ (me' & He & _ & Hea)]; [discriminate | discriminate |].
  rewrite Hg, He. simpl. rewrite Hgd by reflexivity. rewrite Hea by discriminate.
  split; reflexivity.
Defined.

(** The step from Well to AIDS at [k = 0], from the initial totals. *)
Lemma discounted_totals_monotone_witness :
  exists acc',
    EconEval.PatientCostUtilityMonitor.update
      (EconEval.PatientCostUtilityMonitor.init (H:=HIV3_enum) parameters) 0 Well Aids
    = Returns acc'
    /\ (0 <= EconEval.PatientCostUtilityMonitor.totalDiscountedCost acc')%Q
    /\ (0 <= EconEval.PatientCostUtilityMonitor.totalDiscountedUtility acc')%Q.
Proof.
  eexists. split; [vm_compute; reflexivity|].
  destruct (discounted_totals_monotone (H:=HIV3_enum) (H0:=inversion_sampler)
              parameters scenario_nonnegative_inputs) as (_ & Hmono & _).
  apply (Hmono (EconEval.PatientCostUtilityMonitor.init (H:=HIV3_enum) parameters)
           _ 0%Z Well Aids eq_refl).
  vm_compute. reflexivity.
Defined.
End scenario_instances.

Section scenario_runs.
Import Scenario.
#[local] Existing Instances HIV3_enum Z_carrier inversion_sampler.
#[local] Existing Instances plain_objects checking_library.

(** Patient 1 of the guarded engine and patient 7 of the economic-evaluation
    engine, ten steps each on the scenario's parameters: the first goes
    through all ten steps and is alive, the second dies at step 5, the sixth
    pass through the body. *)
Lemma simulate_ends_dead_or_exhausted_witness :
  (exists pg',
      Guarded.Patient.simulate (Guarded.Patient.init 1 parameters) 10 = Returns pg'
      /\ Guarded.PatientStateMonitor.currentState (Guarded.Patient.stateMonitor pg') <> Death
      /\ passes G_alive G_body 0 (Guarded.Patient.init 1 parameters) 10 pg')
  /\ (exists pe' g,
      EconEval.Patient.simulate (EconEval.Patient.init 7 parameters) 10 = Returns pe'
      /\ EconEval.PatientStateMonitor.currentState (EconEval.Patient.stateMonitor pe') = Death
      /\ passes E_alive E_body 0 (EconEval.Patient.init 7 parameters, RNG_seed 7) 6 (pe', g)).
Proof.
  destruct (simulate_ends_dead_or_exhausted (H:=HIV3_enum) (H0:=inversion_sampler)
              (Guarded.Patient.init 1 parameters) (EconEval.Patient.init 7 parameters) 10)
    as [(_ & Hgc & _) (_ & Hec & _)]; [reflexivity|].
  split.
  - let r := eval vm_compute in
               (Guarded.Patient.simulate (H:=HIV3_enum) (H0:=inversion_sampler)
                  (Guarded.Patient.init 1 parameters) 10) in
    match r with
    | Returns ?a =>
        assert (Hg : Guarded.Patient.simulate (H:=HIV3_enum) (H0:=inversion_sampler)
                       (Guarded.Patient.init 1 parameters) 10 = Returns a)
          by (vm_compute; reflexivity);
        exists a; split; [exact Hg|]; split; [intros Hd; discriminate Hd|];
        destruct (Hgc a Hg) as [[[Hd|[Hp _]] _] _]; [discriminate Hd | exact Hp]
    end.
  - let r := eval vm_compute in
               (EconEval.Patient.simulate_run (H:=HIV3_enum) (H0:=inversion_sampler)
                  (EconEval.Patient.init 7 parameters) 6) in
    match r with
    | Returns (?a, ?g, _) =>
        assert (He : EconEval.Patient.simulate (H:=HIV3_enum) (H0:=inversion_sampler)
                       (EconEval.Patient.init 7 parameters) 10 = Returns a)
          by (vm_compute; reflexivity);
        assert (Hrun : EconEval.Patient.simulate_run (H:=HIV3_enum) (H0:=inversion_sampler)
                         (EconEval.Patient.init 7 parameters) 6 = Returns (a, g, 6%Z))
          by (vm_compute; reflexivity);
        assert (Hmjp : deampy_MarkovJumpProcess
                         (probMatrix (EconEval.Patient.params
                                        (EconEval.Patient.init 7 parameters))) = None)
          by reflexivity;
        rewrite EconEval_simulate_run_loop, Hmjp in Hrun;
        exists a, g; split; [exact He|]; split; [reflexivity|];
        destruct (Hec a He) as (_ & _ & _);
        exact (loop_passes _ _ _ _ _ _ _ Hrun)
    end.
Defined.


(** The scenario's matrix, whose AIDS row is [0, 0.85, 0.15]. *)
Lemma timeToAIDS_written_once_witness :
  assigned_at_most_once
    (Guarded_timeToAIDS_after (H:=HIV3_enum) (H0:=inversion_sampler) 2100000000 parameters)
  /\ never_overwritten
       (EconEval_timeToAIDS_after (H:=HIV3_enum) (H0:=inversion_sampler) 2100000000 parameters).
Proof.
  destruct (timeToAIDS_written_once (H:=HIV3_enum) (H0:=inversion_sampler) (H1:=HIV3_laws)
              parameters 2100000000 scenario_aids_is_left_by_death_only)
    as (_ & _ & Hg & _ & _ & He).
  split; assumption.
Defined.

(** C3 (as stated) fails.  The matrix [relapsing] satisfies the invariants
    the spec asks of a transition matrix; patient 0 enters AIDS at step 0
    ([timeToAIDS = 0.5]), recovers at step 1 and enters AIDS again at step 2,
    where [timeToAIDS] is overwritten with 2.5.  Both engines. *)
Lemma timeToAIDS_overwritten_on_relapse :
  config_invariants (H:=HIV3_enum) relapsing = true
  /\ ~ never_overwritten
         (Guarded_timeToAIDS_after (H:=HIV3_enum) (H0:=inversion_sampler) 0 relapsing)
  /\ ~ assigned_at_most_once
         (Guarded_timeToAIDS_after (H:=HIV3_enum) (H0:=inversion_sampler) 0 relapsing)
  /\ ~ never_overwritten
         (EconEval_timeToAIDS_after (H:=HIV3_enum) (H0:=inversion_sampler) 0 relapsing)
  /\ ~ assigned_at_most_once
         (EconEval_timeToAIDS_after (H:=HIV3_enum) (H0:=inversion_sampler) 0 relapsing).
Proof.
  split; [vm_compute; reflexivity|].
  assert (Hg0 : Guarded_timeToAIDS_after (H:=HIV3_enum) (H0:=inversion_sampler) 0 relapsing 0
                = Some None) by (vm_compute; reflexivity).
  assert (Hg1 : Guarded_timeToAIDS_after (H:=HIV3_enum) (H0:=inversion_sampler) 0 relapsing 1
                = Some (Some (1 # 2))) by (vm_compute; reflexivity).
  assert (Hg2 : Guarded_timeToAIDS_after (H:=HIV3_enum) (H0:=inversion_sampler) 0 relapsing 2
                = Some (Some (1 # 2))) by (vm_compute; reflexivity).
  assert (Hg3 : Guarded_timeToAIDS_after (H:=HIV3_enum) (H0:=inversion_sampler) 0 relapsing 3
                = Some (Some (5 # 2))) by (vm_compute; reflexivity).
  assert (He0 : EconEval_timeToAIDS_after (H:=HIV3_enum) (H0:=inversion_sampler) 0 relapsing 0
                = Some None) by (vm_compute; reflexivity).
  assert (He1 : EconEval_timeToAIDS_after (H:=HIV3_enum) (H0:=inversion_sampler) 0 relapsing 1
                = Some (Some (1 # 2))) by (vm_compute; reflexivity).
  assert (He2 : EconEval_timeToAIDS_after (H:=HIV3_enum) (H0:=inversion_sampler) 0 relapsing 2
                = Some (Some (1 # 2))) by (vm_compute; reflexivity).
  assert (He3 : EconEval_timeToAIDS_after (H:=HIV3_enum) (H0:=inversion_sampler) 0 relapsing 3
                = Some (Some (5 # 2))) by (vm_compute; reflexivity).
  repeat split.
  - intros Hno. specialize (Hno 1%Z 3%Z (1 # 2)%Q). rewrite Hg3 in Hno.
    assert (Some (Some (5 # 2)) = Some (Some (1 # 2))) by (apply Hno; [lia | exact Hg1]).
    discriminate.
  - intros Honce. assert (0 = 2)%Z; [|discriminate].
    apply Honce; [lia | lia | |]; unfold changes_at.
    + change (0 + 1)%Z with 1%Z. rewrite Hg0, Hg1. discriminate.
    + change (2 + 1)%Z with 3%Z. rewrite Hg2, Hg3. discriminate.
  - intros Hno. specialize (Hno 1%Z 3%Z (1 # 2)%Q). rewrite He3 in Hno.
    assert (Some (Some (5 # 2)) = Some (Some (1 # 2))) by (apply Hno; [lia | exact He1]).
    discriminate.
  - intros Honce. assert (0 = 2)%Z; [|discriminate].
    apply Honce; [lia | lia | |]; unfold changes_at.
    + change (0 + 1)%Z with 1%Z. rewrite He0, He1. discriminate.
    + change (2 + 1)%Z with 3%Z. rewrite He2, He3. discriminate.
Qed.

(** The first patient of the cohort with id 1 and two patients, and the
    only patient of the cohort with id 2: both have the id 2. *)
Lemma same_id_same_outcomes_witness :
  exists (ps1 ps2 : list EconEval.Patient.t) (a b : EconEval.Patient.t),
    EconEval.Cohort.simulate_patients (H:=HIV3_enum) (H0:=inversion_sampler)
      (EconEval.Cohort.populate (EconEval.Cohort.init 1 2 parameters)) 2 = Returns ps1
    /\ EconEval.Cohort.simulate_patients (H:=HIV3_enum) (H0:=inversion_sampler)
         (EconEval.Cohort.populate (EconEval.Cohort.init 2 1 parameters)) 2 = Returns ps2
    /\ ps1 !! 0%nat = Some a /\ ps2 !! 0%nat = Some b
    /\ EconEval.Patient.id a = 2%Z /\ EconEval.Patient.id b = 2%Z
    /\ EconEval_outcomes a = EconEval_outcomes b.
Proof.
  assert (H1 : exists a rest,
             EconEval.Cohort.simulate_patients (H:=HIV3_enum) (H0:=inversion_sampler)
               (EconEval.Cohort.populate (EconEval.Cohort.init 1 2 parameters)) 2
             = Returns (a :: rest) /\ EconEval.Patient.id a = 2%Z)
    by (vm_compute; eexists _, _; split; reflexivity).
  assert (H2 : exists b rest,
             EconEval.Cohort.simulate_patients (H:=HIV3_enum) (H0:=inversion_sampler)
               (EconEval.Cohort.populate (EconEval.Cohort.init 2 1 parameters)) 2
             = Returns (b :: rest) /\ EconEval.Patient.id b = 2%Z)
    by (vm_compute; eexists _, _; split; reflexivity).
  destruct H1 as (a & rest1 & H1 & Hida). destruct H2 as (b & rest2 & H2 & Hidb).
  exists (a :: rest1), (b :: rest2), a, b.
  split; [exact H1|]. split; [exact H2|].
  split; [reflexivity|]. split; [reflexivity|].
  split; [exact Hida|]. split; [exact Hidb|].
  destruct (same_id_same_outcomes (H:=HIV3_enum) (H0:=inversion_sampler) parameters 2)
    as (_ & _ & _ & Hcohorts).
  apply (Hcohorts 1%Z 2%Z 2%Z 1%Z (a :: rest1) (b :: rest2) 0%nat 0%nat a b H1 H2
           eq_refl eq_refl).
  rewrite Hida, Hidb. reflexivity.
Defined.

(** The cohort with id 4 of three patients, and the three cohorts with ids
    4, 0 and 7 of three patients each. *)
Lemma cohort_patient_ids_witness :
  Guarded_patient_ids (H:=HIV3_enum) (H0:=inversion_sampler) 4 3 parameters !! 2%nat
  = Some 14%Z
  /\ NoDup (concat ((fun c => EconEval_patient_ids (H:=HIV3_enum) c 3 parameters) <$> [4; 0; 7]%Z)).
Proof.
  destruct (cohort_patient_ids (H:=HIV3_enum) (H0:=inversion_sampler) parameters 4 3 [4; 0; 7]%Z)
    as ((_ & Hg) & _ & _ & He).
  - discriminate.
  - apply (bool_decide_unpack _). vm_compute. exact I.
  - split; [exact (Hg 2%Z ltac:(lia)) | exact He].
Defined.

(** C9 (as stated) fails.  The cohort with id 1 and two patients hands out
    the ids 2 and 3; the cohort with id 2 and one patient hands out the id 2:
    distinct non-negative cohort ids, and the patient id 2 twice.  Both
    engines. *)
Lemma cohort_ids_collide :
  NoDup [1; 2]%Z
  /\ Guarded_patient_ids (H:=HIV3_enum) (H0:=inversion_sampler) 1 2 parameters = [2; 3]%Z
  /\ Guarded_patient_ids (H:=HIV3_enum) (H0:=inversion_sampler) 2 1 parameters = [2]%Z
  /\ ~ NoDup (Guarded_patient_ids (H:=HIV3_enum) (H0:=inversion_sampler) 1 2 parameters
              ++ Guarded_patient_ids (H:=HIV3_enum) (H0:=inversion_sampler) 2 1 parameters)
  /\ ~ NoDup (EconEval_patient_ids (H:=HIV3_enum) 1 2 parameters
              ++ EconEval_patient_ids (H:=HIV3_enum) 2 1 parameters).
Proof.
  split; [apply (bool_decide_unpack _); vm_compute; exact I|].
  split; [reflexivity|]. split; [reflexivity|].
  split; intros Hnd; change (NoDup [2; 3; 2]%Z) in Hnd;
    apply NoDup_cons in Hnd as [Hnotin _]; apply Hnotin;
    apply elem_of_cons; right; apply elem_of_cons; left; reflexivity.
Qed.

(** A cohort of eight patients, simulated for ten steps and then for ten
    more; patient 1 is in AIDS and patient 2 is dead after the first ten. *)
Lemma ifDevelopedAIDS_iff_timeToAIDS_set_witness :
  exists c' c'',
    Guarded.Cohort.simulate (Guarded.Cohort.init 0 8 parameters) 10 = Returns c'
    /\ Guarded.Cohort.simulate c' 10 = Returns c''
    /\ Forall is_Some (Guarded.CohortOutcomes.timesToAIDS (Guarded.Cohort.cohortOutcomes c'')).
Proof.
  destruct (ifDevelopedAIDS_iff_timeToAIDS_set (H:=HIV3_enum) (H0:=inversion_sampler))
    as (_ & Hinit & Hstep).
  eexists _, _.
  split; [vm_compute; reflexivity|].
  split; [vm_compute; reflexivity|].
  match goal with
  | |- Forall _ (Guarded.CohortOutcomes.timesToAIDS (Guarded.Cohort.cohortOutcomes ?c2)) =>
      let r1 := eval vm_compute in
                (Guarded.Cohort.simulate (Guarded.Cohort.init 0 8 parameters) 10) in
      match r1 with
      | Returns ?c1 =>
          assert (H1 : Guarded.Cohort.simulate (Guarded.Cohort.init 0 8 parameters) 10
                       = Returns c1) by (vm_compute; reflexivity);
          assert (H2 : Guarded.Cohort.simulate c1 10 = Returns c2)
            by (vm_compute; reflexivity);
          destruct (Hstep (Guarded.Cohort.init 0 8 parameters) c1 10%Z)
            as [Hsound _]; [apply Hinit | rewrite H1; reflexivity |];
          destruct (Hstep c1 c2 10%Z Hsound) as [_ Hvec]; [rewrite H2; reflexivity|];
          exact Hvec
      end
  end.
Defined.
End scenario_runs.

(** * Further properties of the engines *)

(** ** More about the simulation loop *)

Section while_loop_steps.
Context {St : Type} (alive : St -> bool) (body : St -> Z -> completion St).

Abbreviation loop := (loop alive body).

(** An invariant that may mention the step counter. *)
Lemma loop_returns_invariant_at (P : St -> Z -> Prop) n st k st' k' :
  (forall st k st', P st k -> alive st = true -> (k < n)%Z ->
                    body st k = Returns st' -> P st' (k + 1)%Z) ->
  P st k ->
  loop n st k = Returns (st', k') ->
  P st' k'.
Proof.
  intros Hbody. revert st k.
  apply (loop_ind alive body n (fun st k => P st k -> loop n st k = Returns (st', k') -> _)).
  intros st k IH HP. rewrite loop_unfold.
  destruct (alive st && (k <? n)%Z) eqn:E.
  - apply andb_true_iff in E as [Ha Hk]. apply Z.ltb_lt in Hk.
    destruct (body st k) as [st1|e st1|] eqn:Hb; try discriminate.
    apply (IH st1 Ha Hk eq_refl). apply (Hbody st k st1 HP Ha Hk Hb).
  - intros [= <- <-]. assumption.
Qed.

(** Nothing to do: the loop returns its state as it found it. *)
Lemma loop_no_steps n st k :
  alive st = false \/ (n <= k)%Z -> loop n st k = Returns (st, k).
Proof.
  intros Hend. rewrite loop_unfold.
  destruct (alive st && (k <? n)%Z) eqn:E; [|reflexivity].
  apply andb_true_iff in E as [Ha Hk]. apply Z.ltb_lt in Hk.
  destruct Hend as [Hd|Hn]; [congruence | lia].
Qed.

(** A loop that ended with its condition on the state false ends the same
    way under a larger cap, and so does a loop that raised. *)
Lemma loop_stays_left i j st k st' k' :
  (i <= j)%Z -> loop i st k = Returns (st', k') -> alive st' = false ->
  loop j st k = Returns (st', k').
Proof.
  intros Hij Hi Hd. rewrite (loop_split alive body i j st k Hij), Hi.
  apply loop_no_steps. left. assumption.
Qed.

Lemma loop_stays_raised i j st k e x :
  (i <= j)%Z -> loop i st k = Raises e x -> loop j st k = Raises e x.
Proof. intros Hij Hi. rewrite (loop_split alive body i j st k Hij), Hi. reflexivity. Qed.

(** A loop that raised did so in a pass through its body, at the step it
    reports, on a state that satisfied the loop condition. *)
Lemma loop_raises_inv n st k e st' k' :
  loop n st k = Raises e (st', k') ->
  exists st1, alive st1 = true /\ (k <= k' < n)%Z /\ body st1 k' = Raises e st'.
Proof.
  revert st k.
  apply (loop_ind alive body n (fun st k => loop n st k = Raises e (st', k') -> _)).
  intros st k IH. rewrite loop_unfold.
  destruct (alive st && (k <? n)%Z) eqn:E; [|discriminate].
  apply andb_true_iff in E as [Ha Hk]. apply Z.ltb_lt in Hk.
  destruct (body st k) as [st1|e1 st1|] eqn:Hb; [| |discriminate].
  - intros Hl. destruct (IH st1 Ha Hk eq_refl Hl) as (st2 & Ha2 & Hk2 & Hb2).
    exists st2. split; [assumption|]. split; [lia | assumption].
  - intros [= <- <- <-]. exists st. split; [assumption|]. split; [lia | assumption].
Qed.
End while_loop_steps.

(** ** Event times along a run

    For a loop whose body, on a state that is alive, records the death time
    [k + 0.5] when the new state is the death state and the onset time
    [k + 0.5] when the state turns to AIDS, as the [update] of both monitors
    does: the times a run that started alive and without times leaves
    behind. *)
Section event_times.
Context {H : HealthStateEnum} {St : Type}.
Context (alive : St -> bool) (body : St -> Z -> completion St).
Context (cur : St -> HealthStates) (sT tta : St -> option Q).
Hypothesis alive_cur : forall st, alive st = true <-> cur st <> HIV_DEATH.
Hypothesis step_times : forall st k st',
    alive st = true -> body st k = Returns st' ->
    sT st' = (if decide (cur st' = HIV_DEATH) then Some (half_cycle k) else sT st)
    /\ tta st' = (if decide (cur st <> AIDS /\ cur st' = AIDS)
                  then Some (half_cycle k) else tta st).

Let times_inv (st : St) (k : Z) : Prop :=
  (0 <= k)%Z
  /\ (if decide (cur st = HIV_DEATH)
      then sT st = Some (half_cycle (k - 1)) /\ (1 <= k)%Z
      else sT st = None)
  /\ (forall t, tta st = Some t ->
                exists j, (0 <= j < k)%Z /\ t = half_cycle j
                          /\ (AIDS <> HIV_DEATH -> cur st = HIV_DEATH -> (j < k - 1)%Z)).

Lemma times_inv_step n st k st' :
  times_inv st k -> alive st = true -> (k < n)%Z -> body st k = Returns st' ->
  times_inv st' (k + 1).
Proof.
  intros (Hk & Hs & Ht) Ha _ Hb. destruct (step_times st k st' Ha Hb) as [HsT Htta].
  apply alive_cur in Ha. destruct (decide (cur st = HIV_DEATH)); [contradiction|].
  split; [lia|]. split.
  - rewrite HsT. destruct (decide (cur st' = HIV_DEATH)); [|assumption].
    split; [|lia]. replace (k + 1 - 1)%Z with k by lia. reflexivity.
  - intros t. rewrite Htta. destruct (decide (_ /\ _)) as [[_ Haids]|_].
    + intros [= <-]. exists k. split; [lia|]. split; [reflexivity|].
      intros Hne Hd. rewrite Haids in Hd. contradiction.
    + intros Hold. destruct (Ht t Hold) as (j & Hj & -> & _).
      exists j. split; [lia|]. split; [reflexivity|]. intros _ _. lia.
Qed.

Lemma times_inv_run n st0 st' k' :
  cur st0 <> HIV_DEATH -> sT st0 = None -> tta st0 = None ->
  loop alive body n st0 0 = Returns (st', k') ->
  times_inv st' k' /\ (k' <= Z.max 0 n)%Z.
Proof.
  intros Halive Hs Ht Hl. split.
  - apply (loop_returns_invariant_at alive body times_inv n st0 0 st' k');
      [apply times_inv_step| |assumption].
    split; [lia|]. split.
    + destruct (decide (cur st0 = HIV_DEATH)); [contradiction | assumption].
    + intros t. rewrite Ht. discriminate.
  - destruct (loop_exit alive body n st0 0 st' k' Hl) as (_ & _ & Hk). assumption.
Qed.

(** The same run, whether it started alive or dead: a death time is the half
    step before the step counter, an onset time is a half step below it, and
    the onset comes before the death. *)
Lemma run_times n st0 st' k' :
  sT st0 = None -> tta st0 = None ->
  loop alive body n st0 0 = Returns (st', k') ->
  (forall t, sT st' = Some t ->
             cur st' = HIV_DEATH /\ t = half_cycle (k' - 1) /\ (1 <= k' <= n)%Z)
  /\ (cur st0 <> HIV_DEATH -> cur st' = HIV_DEATH -> sT st' = Some (half_cycle (k' - 1)))
  /\ (forall t, tta st' = Some t -> exists j, (0 <= j < k')%Z /\ (k' <= n)%Z /\ t = half_cycle j)
  /\ (AIDS <> HIV_DEATH ->
      forall t t', tta st' = Some t -> sT st' = Some t' -> (t < t')%Q).
Proof.
  intros Hs Ht Hl. destruct (decide (cur st0 = HIV_DEATH)) as [Hd|Halive].
  - rewrite (loop_no_steps alive body n st0 0) in Hl.
    + injection Hl as <- <-. rewrite Hs, Ht.
      repeat split; try discriminate; try contradiction.
    + left. destruct (alive st0) eqn:Ha; [|reflexivity].
      apply alive_cur in Ha. contradiction.
  - destruct (times_inv_run n st0 st' k' Halive Hs Ht Hl) as [(Hk & HsT & Htta) Hmax].
    split; [|split; [|split]].
    + intros t Hst. destruct (decide (cur st' = HIV_DEATH)) as [Hd|Ha].
      * destruct HsT as [HsT Hk1]. split; [assumption|]. split; [congruence | lia].
      * congruence.
    + intros _ Hd. destruct (decide (cur st' = HIV_DEATH)); [|contradiction].
      apply HsT.
    + intros t Hx. destruct (Htta t Hx) as (j & Hj & -> & _).
      exists j. split; [assumption|]. split; [lia | reflexivity].
    + intros Hne t t' Hx Hst. destruct (Htta t Hx) as (j & Hj & -> & Hlt).
      destruct (decide (cur st' = HIV_DEATH)) as [Hd|Ha]; [|congruence].
      destruct HsT as [HsT _]. rewrite HsT in Hst. injection Hst as <-.
      specialize (Hlt Hne Hd). unfold half_cycle, Qlt. simpl. lia.
Qed.
End event_times.

(** ** Event times of a simulated patient *)

Section patient_times.
Context {H : HealthStateEnum} {RC : RandomCarrier} {H0 : RandomSource}.
Context {LC : LibraryCarrier} {Lib : Library}.

Lemma half_cycle_lt (j k : Z) : (j < k)%Z -> (half_cycle j < half_cycle k)%Q.
Proof. intros Hjk. unfold half_cycle, Qlt. simpl. lia. Qed.

Lemma Guarded_step_times (st : Guarded.Patient.t) k (st' : Guarded.Patient.t) :
  G_alive st = true -> G_body st k = Returns st' ->
  Guarded.PatientStateMonitor.survivalTime (Guarded.Patient.stateMonitor st')
  = (if decide (G_state st' = HIV_DEATH) then Some (half_cycle k)
     else Guarded.PatientStateMonitor.survivalTime (Guarded.Patient.stateMonitor st))
  /\ Guarded.PatientStateMonitor.timeToAIDS (Guarded.Patient.stateMonitor st')
     = (if decide (G_state st <> AIDS /\ G_state st' = AIDS) then Some (half_cycle k)
        else Guarded.PatientStateMonitor.timeToAIDS (Guarded.Patient.stateMonitor st)).
Proof.
  intros Ha Hb. apply Guarded_alive_iff in Ha.
  destruct (Guarded_body_returns_inv st st' k Hb) as (row & s & _ & _ & Hu).
  rewrite (Guarded_update_alive _ k s Ha) in Hu. injection Hu as <-. simpl.
  split; reflexivity.
Qed.

Lemma EconEval_step_times (st : EconEval.Patient.t * RNG) k (st' : EconEval.Patient.t * RNG) :
  E_alive st = true -> E_body st k = Returns st' ->
  EconEval.PatientStateMonitor.survivalTime (EconEval.Patient.stateMonitor st'.1)
  = (if decide (E_state st'.1 = HIV_DEATH) then Some (half_cycle k)
     else EconEval.PatientStateMonitor.survivalTime (EconEval.Patient.stateMonitor st.1))
  /\ EconEval.PatientStateMonitor.timeToAIDS (EconEval.Patient.stateMonitor st'.1)
     = (if decide (E_state st.1 <> AIDS /\ E_state st'.1 = AIDS) then Some (half_cycle k)
        else EconEval.PatientStateMonitor.timeToAIDS (EconEval.Patient.stateMonitor st.1)).
Proof.
  intros _ Hb.
  destruct (EconEval_body_returns_inv st st' k Hb) as (row & s & _ & _ & Hu).
  rewrite (EconEval_update_returns _ _ k s Hu).
  apply (EconEval_update_fields (EconEval.Patient.stateMonitor st.1)).
  rewrite Hu. reflexivity.
Qed.

Lemma Guarded_run_times (p : Parameters) (id n : Z) (self' : Guarded.Patient.t) (k : Z) :
  Guarded.Patient.simulate_run (Guarded.Patient.init id p) n = Returns (self', k) ->
  (forall t,
      Guarded.PatientStateMonitor.survivalTime (Guarded.Patient.stateMonitor self') = Some t ->
      G_state self' = HIV_DEATH /\ t = half_cycle (k - 1) /\ (1 <= k <= n)%Z)
  /\ (initialHealthState p <> HIV_DEATH -> G_state self' = HIV_DEATH ->
      Guarded.PatientStateMonitor.survivalTime (Guarded.Patient.stateMonitor self')
      = Some (half_cycle (k - 1)))
  /\ (forall t,
      Guarded.PatientStateMonitor.timeToAIDS (Guarded.Patient.stateMonitor self') = Some t ->
      exists j, (0 <= j < k)%Z /\ (k <= n)%Z /\ t = half_cycle j)
  /\ (AIDS <> HIV_DEATH ->
      forall t t',
        Guarded.PatientStateMonitor.timeToAIDS (Guarded.Patient.stateMonitor self') = Some t ->
        Guarded.PatientStateMonitor.survivalTime (Guarded.Patient.stateMonitor self') = Some t' ->
        (t < t')%Q).
Proof.
  rewrite Guarded_simulate_run_loop. intros Hl.
  apply (run_times G_alive G_body G_state
           (fun st => Guarded.PatientStateMonitor.survivalTime (Guarded.Patient.stateMonitor st))
           (fun st => Guarded.PatientStateMonitor.timeToAIDS (Guarded.Patient.stateMonitor st))
           Guarded_alive_iff Guarded_step_times n (Guarded.Patient.init id p) self' k
           eq_refl eq_refl Hl).
Qed.

Lemma EconEval_run_times (p : Parameters) (id n : Z) (self' : EconEval.Patient.t)
    (g : RNG) (k : Z) :
  EconEval.Patient.simulate_run (EconEval.Patient.init id p) n = Returns (self', g, k) ->
  (forall t,
      EconEval.PatientStateMonitor.survivalTime (EconEval.Patient.stateMonitor self') = Some t ->
      E_state self' = HIV_DEATH /\ t = half_cycle (k - 1) /\ (1 <= k <= n)%Z)
  /\ (initialHealthState p <> HIV_DEATH -> E_state self' = HIV_DEATH ->
      EconEval.PatientStateMonitor.survivalTime (EconEval.Patient.stateMonitor self')
      = Some (half_cycle (k - 1)))
  /\ (forall t,
      EconEval.PatientStateMonitor.timeToAIDS (EconEval.Patient.stateMonitor self') = Some t ->
      exists j, (0 <= j < k)%Z /\ (k <= n)%Z /\ t = half_cycle j)
  /\ (AIDS <> HIV_DEATH ->
      forall t t',
        EconEval.PatientStateMonitor.timeToAIDS (EconEval.Patient.stateMonitor self') = Some t ->
        EconEval.PatientStateMonitor.survivalTime (EconEval.Patient.stateMonitor self') = Some t' ->
        (t < t')%Q).
Proof.
  rewrite EconEval_simulate_run_loop.
  destruct (deampy_MarkovJumpProcess _); [discriminate|]. intros Hl.
  apply (run_times E_alive E_body (fun st => E_state st.1)
           (fun st => EconEval.PatientStateMonitor.survivalTime
                        (EconEval.Patient.stateMonitor st.1))
           (fun st => EconEval.PatientStateMonitor.timeToAIDS
                        (EconEval.Patient.stateMonitor st.1))
           EconEval_alive_iff EconEval_step_times n
           (EconEval.Patient.init id p, RNG_seed id) (self', g) k eq_refl eq_refl Hl).
Qed.

(** X3. After [simulate] has returned on a freshly constructed patient, a
    survival time is there only if the patient is dead, and it is the last
    executed step plus one half: [k - 1 + 0.5] for the step counter [k] at
    which the loop was left, with [1 <= k <= n_time_steps].  A patient that
    did not start in the death state and is dead has that survival time.
    Both engines. *)
Theorem survivalTime_is_last_step (p : Parameters) (id n_time_steps : Z) :
  (forall (self' : Guarded.Patient.t) (k : Z),
      Guarded.Patient.simulate_run (Guarded.Patient.init id p) n_time_steps
      = Returns (self', k) ->
      (forall t,
          Guarded.PatientStateMonitor.survivalTime (Guarded.Patient.stateMonitor self') = Some t ->
          Guarded.PatientStateMonitor.currentState (Guarded.Patient.stateMonitor self')
          = HIV_DEATH
          /\ t = (inject_Z (k - 1) + (1 # 2))%Q /\ (1 <= k <= n_time_steps)%Z)
      /\ (initialHealthState p <> HIV_DEATH ->
          Guarded.PatientStateMonitor.currentState (Guarded.Patient.stateMonitor self')
          = HIV_DEATH ->
          Guarded.PatientStateMonitor.survivalTime (Guarded.Patient.stateMonitor self')
          = Some (inject_Z (k - 1) + (1 # 2))%Q))
  /\ (forall (self' : EconEval.Patient.t) (g : RNG) (k : Z),
      EconEval.Patient.simulate_run (EconEval.Patient.init id p) n_time_steps
      = Returns (self', g, k) ->
      (forall t,
          EconEval.PatientStateMonitor.survivalTime (EconEval.Patient.stateMonitor self') = Some t ->
          EconEval.PatientStateMonitor.currentState (EconEval.Patient.stateMonitor self')
          = HIV_DEATH
          /\ t = (inject_Z (k - 1) + (1 # 2))%Q /\ (1 <= k <= n_time_steps)%Z)
      /\ (initialHealthState p <> HIV_DEATH ->
          EconEval.PatientStateMonitor.currentState (EconEval.Patient.stateMonitor self')
          = HIV_DEATH ->
          EconEval.PatientStateMonitor.survivalTime (EconEval.Patient.stateMonitor self')
          = Some (inject_Z (k - 1) + (1 # 2))%Q)).
Proof.
  split.
  - intros self' k Hrun.
    destruct (Guarded_run_times p id n_time_steps self' k Hrun) as (Hs & Hd & _).
    split; [exact Hs | exact Hd].
  - intros self' g k Hrun.
    destruct (EconEval_run_times p id n_time_steps self' g k Hrun) as (Hs & Hd & _).
    split; [exact Hs | exact Hd].
Qed.

(** X4. Where AIDS and death are two states, a freshly constructed patient
    on which [simulate] has returned has its time to AIDS, if any, at a step
    below the step counter ([j + 0.5] with [0 <= j < k <= n_time_steps]) and
    strictly before its survival time, if any.  Both engines. *)
Theorem timeToAIDS_before_survivalTime (p : Parameters) (id n_time_steps : Z) :
  AIDS <> HIV_DEATH ->
  (forall (self' : Guarded.Patient.t) (k : Z),
      Guarded.Patient.simulate_run (Guarded.Patient.init id p) n_time_steps
      = Returns (self', k) ->
      (forall t,
          Guarded.PatientStateMonitor.timeToAIDS (Guarded.Patient.stateMonitor self') = Some t ->
          exists j, (0 <= j < k)%Z /\ (k <= n_time_steps)%Z
                    /\ t = (inject_Z j + (1 # 2))%Q)
      /\ (forall t t',
          Guarded.PatientStateMonitor.timeToAIDS (Guarded.Patient.stateMonitor self') = Some t ->
          Guarded.PatientStateMonitor.survivalTime (Guarded.Patient.stateMonitor self') = Some t' ->
          (t < t')%Q))
  /\ (forall (self' : EconEval.Patient.t) (g : RNG) (k : Z),
      EconEval.Patient.simulate_run (EconEval.Patient.init id p) n_time_steps
      = Returns (self', g, k) ->
      (forall t,
          EconEval.PatientStateMonitor.timeToAIDS (EconEval.Patient.stateMonitor self') = Some t ->
          exists j, (0 <= j < k)%Z /\ (k <= n_time_steps)%Z
                    /\ t = (inject_Z j + (1 # 2))%Q)
      /\ (forall t t',
          EconEval.PatientStateMonitor.timeToAIDS (EconEval.Patient.stateMonitor self') = Some t ->
          EconEval.PatientStateMonitor.survivalTime (EconEval.Patient.stateMonitor self') = Some t' ->
          (t < t')%Q)).
Proof.
  intros Hne. split.
  - intros self' k Hrun.
    destruct (Guarded_run_times p id n_time_steps self' k Hrun) as (_ & _ & Ht & Hlt).
    split; [exact Ht | exact (Hlt Hne)].
  - intros self' g k Hrun.
    destruct (EconEval_run_times p id n_time_steps self' g k Hrun) as (_ & _ & Ht & Hlt).
    split; [exact Ht | exact (Hlt Hne)].
Qed.

(** X5. A larger cap on the time steps changes nothing once the simulation
    is over: if [simulate] with [i] steps returned on a patient that is dead,
    or raised, then [simulate] with any [j >= i] steps on the same patient
    ends in the same way with the same patient state.  Both engines. *)
Theorem simulate_longer_ends_the_same
    (pg : Guarded.Patient.t) (pe : EconEval.Patient.t) (i j : Z) :
  (i <= j)%Z ->
  (forall a, Guarded.Patient.simulate pg i = Returns a ->
             Guarded.PatientStateMonitor.currentState (Guarded.Patient.stateMonitor a)
             = HIV_DEATH ->
             Guarded.Patient.simulate pg j = Returns a)
  /\ (forall e a, Guarded.Patient.simulate pg i = Raises e a ->
                  Guarded.Patient.simulate pg j = Raises e a)
  /\ (forall a, EconEval.Patient.simulate pe i = Returns a ->
                EconEval.PatientStateMonitor.currentState (EconEval.Patient.stateMonitor a)
                = HIV_DEATH ->
                EconEval.Patient.simulate pe j = Returns a)
  /\ (forall e a, EconEval.Patient.simulate pe i = Raises e a ->
                  EconEval.Patient.simulate pe j = Raises e a).
Proof.
  intros Hij. unfold Guarded.Patient.simulate, EconEval.Patient.simulate.
  rewrite !Guarded_simulate_run_loop, !EconEval_simulate_run_loop.
  split; [|split; [|split]].
  - intros a. destruct (loop G_alive G_body i pg 0) as [[a' k]|e [a' k]|] eqn:Hi;
      try discriminate.
    intros [= ->] Hd.
    rewrite (loop_stays_left G_alive G_body i j pg 0 a k Hij Hi); [reflexivity|].
    destruct (G_alive a) eqn:Ha; [|reflexivity].
    apply Guarded_alive_iff in Ha. contradiction.
  - intros e a. destruct (loop G_alive G_body i pg 0) as [[a' k]|e' [a' k]|] eqn:Hi;
      try discriminate.
    intros [= -> ->].
    rewrite (loop_stays_raised G_alive G_body i j pg 0 e (a, k) Hij Hi). reflexivity.
  - intros a. destruct (deampy_MarkovJumpProcess _); [discriminate|].
    destruct (loop E_alive E_body i (pe, RNG_seed (EconEval.Patient.id pe)) 0)
      as [[[a' g] k]|e [[a' g] k]|] eqn:Hi; try discriminate.
    intros [= ->] Hd.
    rewrite (loop_stays_left E_alive E_body i j _ 0 (a, g) k Hij Hi); [reflexivity|].
    destruct (E_alive (a, g)) eqn:Ha; [|reflexivity].
    apply EconEval_alive_iff in Ha. contradiction.
  - intros e a. destruct (deampy_MarkovJumpProcess _); [intros Hr; exact Hr|].
    destruct (loop E_alive E_body i (pe, RNG_seed (EconEval.Patient.id pe)) 0)
      as [[[a' g] k]|e' [[a' g] k]|] eqn:Hi; try discriminate.
    intros [= -> ->].
    rewrite (loop_stays_raised E_alive E_body i j _ 0 e (a, g, k) Hij Hi). reflexivity.
Qed.
End patient_times.

(** ** Exceptions *)

Section exceptions.
Context {H : HealthStateEnum} {RC : RandomCarrier} {H0 : RandomSource}.
Context {LC : LibraryCarrier} {Lib : Library}.

(** A loop that raised at step [k'] had, up to that step, run as the loop
    with the cap [k'] runs. *)
Lemma loop_raises_prefix {St : Type} (alive : St -> bool) (body : St -> Z -> completion St)
    n st k e st' k' :
  loop alive body n st k = Raises e (st', k') ->
  exists st1,
    loop alive body k' st k = Returns (st1, k')
    /\ alive st1 = true /\ (k <= k' < n)%Z /\ body st1 k' = Raises e st'.
Proof.
  revert st k.
  apply (loop_ind alive body n
           (fun st k => loop alive body n st k = Raises e (st', k') -> _)).
  intros st k IH. rewrite loop_unfold.
  destruct (alive st && (k <? n)%Z) eqn:E; [|discriminate].
  apply andb_true_iff in E as [Ha Hk]. apply Z.ltb_lt in Hk.
  destruct (body st k) as [st1|e1 st1|] eqn:Hb; [| |discriminate].
  - intros Hl. destruct (IH st1 Ha Hk eq_refl Hl) as (st2 & Hl2 & Ha2 & Hk2 & Hb2).
    exists st2. split; [|split; [assumption|split; [lia | assumption]]].
    rewrite loop_unfold, Ha. simpl.
    replace (k <? k')%Z with true by (symmetry; apply Z.ltb_lt; lia).
    rewrite Hb. assumption.
  - intros [= <- <- <-]. exists st. split; [|split; [assumption|split; [lia | assumption]]].
    apply loop_no_steps. right. lia.
Qed.

Lemma Guarded_update_returns (m : Guarded.PatientStateMonitor.t) k s :
  exists m', Guarded.PatientStateMonitor.update m k s = Returns m'.
Proof.
  destruct (decide (Guarded.PatientStateMonitor.currentState m = HIV_DEATH)) as [Hd|Ha].
  - rewrite (Guarded_update_absorbed m k s Hd). eexists. reflexivity.
  - rewrite (Guarded_update_alive m k s Ha). eexists. reflexivity.
Qed.

(** What a failed table read leaves of the monitor of
    [EconEvalMarkovModelClasses.py]. *)
Lemma EconEval_update_failed_read (m : EconEval.PatientStateMonitor.t) k s :
  EconEval.PatientCostUtilityMonitor.cost_and_utility
    (EconEval.PatientCostUtilityMonitor.params (EconEval.PatientStateMonitor.costUtilityMonitor m))
    (EconEval.PatientStateMonitor.currentState m) s = None ->
  EconEval.PatientStateMonitor.update m k s
  = Raises IndexError
      {| EconEval.PatientStateMonitor.currentState := EconEval.PatientStateMonitor.currentState m;
         EconEval.PatientStateMonitor.survivalTime :=
           if decide (s = HIV_DEATH) then Some (half_cycle k)
           else EconEval.PatientStateMonitor.survivalTime m;
         EconEval.PatientStateMonitor.timeToAIDS :=
           if decide (EconEval.PatientStateMonitor.currentState m <> AIDS /\ s = AIDS)
           then Some (half_cycle k) else EconEval.PatientStateMonitor.timeToAIDS m;
         EconEval.PatientStateMonitor.costUtilityMonitor :=
           EconEval.PatientStateMonitor.costUtilityMonitor m |}.
Proof.
  intros Hcu. unfold EconEval.PatientStateMonitor.update.
  rewrite (EconEval_accumulator_update_raises _ k _ s Hcu). reflexivity.
Qed.

Lemma cost_and_utility_none (p : Parameters) cs ns :
  EconEval.PatientCostUtilityMonitor.cost_and_utility p cs ns = None
  <-> annualStateCosts p !! value cs = None \/ annualStateCosts p !! value ns = None
      \/ annualStateUtilities p !! value cs = None
      \/ annualStateUtilities p !! value ns = None.
Proof.
  unfold EconEval.PatientCostUtilityMonitor.cost_and_utility.
  destruct (annualStateCosts p !! value cs), (annualStateCosts p !! value ns),
    (annualStateUtilities p !! value cs), (annualStateUtilities p !! value ns);
    split; intros Hx; try discriminate; auto;
    destruct Hx as [Hx|[Hx|[Hx|Hx]]]; discriminate.
Qed.

(** X8. In [EconEvalMarkovModelClasses.py] an [update] of the monitor whose
    step reads past the end of the annual cost or utility table raises
    [IndexError] after the event times have been written and before the state
    is: the monitor keeps its old [currentState] and untouched totals, but
    holds the survival time [time_step + 0.5] if the new state was the death
    state and the time to AIDS [time_step + 0.5] if the step entered AIDS.
    With all four reads in range the call returns. *)
Theorem EconEval_update_failed_read_is_half_done
    (m : EconEval.PatientStateMonitor.t) (time_step : Z) (new_state : HealthStates) :
  let p := EconEval.PatientCostUtilityMonitor.params
             (EconEval.PatientStateMonitor.costUtilityMonitor m) in
  let current_state := EconEval.PatientStateMonitor.currentState m in
  (annualStateCosts p !! value current_state = None
   \/ annualStateCosts p !! value new_state = None
   \/ annualStateUtilities p !! value current_state = None
   \/ annualStateUtilities p !! value new_state = None ->
   exists m',
     EconEval.PatientStateMonitor.update m time_step new_state = Raises IndexError m'
     /\ EconEval.PatientStateMonitor.currentState m' = current_state
     /\ EconEval.PatientStateMonitor.costUtilityMonitor m'
        = EconEval.PatientStateMonitor.costUtilityMonitor m
     /\ EconEval.PatientStateMonitor.survivalTime m'
        = (if decide (new_state = HIV_DEATH) then Some (inject_Z time_step + (1 # 2))%Q
           else EconEval.PatientStateMonitor.survivalTime m)
     /\ EconEval.PatientStateMonitor.timeToAIDS m'
        = (if decide (current_state <> AIDS /\ new_state = AIDS)
           then Some (inject_Z time_step + (1 # 2))%Q
           else EconEval.PatientStateMonitor.timeToAIDS m))
  /\ (is_Some (annualStateCosts p !! value current_state) ->
      is_Some (annualStateCosts p !! value new_state) ->
      is_Some (annualStateUtilities p !! value current_state) ->
      is_Some (annualStateUtilities p !! value new_state) ->
      exists m', EconEval.PatientStateMonitor.update m time_step new_state = Returns m'
                 /\ EconEval.PatientStateMonitor.currentState m' = new_state).
Proof.
  intros p current_state. split.
  - intros Hnone. apply cost_and_utility_none in Hnone.
    rewrite (EconEval_update_failed_read m time_step new_state Hnone).
    eexists. split; [reflexivity|]. repeat split; reflexivity.
  - intros [c1 Hc1] [c2 Hc2] [u1 Hu1] [u2 Hu2].
    unfold EconEval.PatientStateMonitor.update, EconEval.PatientCostUtilityMonitor.update.
    fold p current_state.
    rewrite (cost_and_utility_defined p current_state new_state _ _ _ _ Hc1 Hc2 Hu1 Hu2).
    eexists. split; reflexivity.
Qed.

(** The passes through the body that raise. *)
Lemma Guarded_body_raises_inv (st : Guarded.Patient.t) k e (st' : Guarded.Patient.t) :
  G_body st k = Raises e st' ->
  Guarded.Patient.stateMonitor st' = Guarded.Patient.stateMonitor st
  /\ Guarded.Patient.params st' = Guarded.Patient.params st
  /\ ((e = IndexError
       /\ probMatrix (Guarded.Patient.params st) !! value (G_state st) = None)
      \/ (e = ValueError
          /\ exists row,
              probMatrix (Guarded.Patient.params st) !! value (G_state st) = Some row
              /\ HealthStates_of (Empirical_sample row (Guarded.Patient.rng st)).1 = None)).
Proof.
  unfold Guarded.Patient.simulate_body.
  destruct (probMatrix _ !! _) as [row|] eqn:Hrow.
  - destruct (Empirical_sample row _) as [j g] eqn:Hs.
    destruct (HealthStates_of j) as [s|] eqn:Hj.
    + destruct (Guarded_update_returns (Guarded.Patient.stateMonitor st) k s) as [m' ->].
      discriminate.
    + intros [= <- <-]. simpl. split; [reflexivity|]. split; [reflexivity|].
      right. split; [reflexivity|]. exists row. rewrite Hs. auto.
  - intros [= <- <-]. split; [reflexivity|]. split; [reflexivity|]. left. auto.
Qed.

Lemma EconEval_body_raises_inv (st : EconEval.Patient.t * RNG) k e (st' : EconEval.Patient.t * RNG) :
  E_body st k = Raises e st' ->
  EconEval.Patient.params st'.1 = EconEval.Patient.params st.1
  /\ ((e = deampy_get_next_state_error (probMatrix (EconEval.Patient.params st.1))
             (value (E_state st.1))
       /\ st' = st
       /\ probMatrix (EconEval.Patient.params st.1) !! value (E_state st.1) = None)
      \/ (e = ValueError
          /\ EconEval.Patient.stateMonitor st'.1 = EconEval.Patient.stateMonitor st.1
          /\ exists row,
              probMatrix (EconEval.Patient.params st.1) !! value (E_state st.1) = Some row
              /\ HealthStates_of (Empirical_sample row st.2).1 = None)
      \/ (exists row s,
             probMatrix (EconEval.Patient.params st.1) !! value (E_state st.1) = Some row
             /\ HealthStates_of (Empirical_sample row st.2).1 = Some s
             /\ EconEval.PatientStateMonitor.update (EconEval.Patient.stateMonitor st.1) k s
                = Raises e (EconEval.Patient.stateMonitor st'.1))).
Proof.
  destruct st as [self g]. unfold EconEval.Patient.simulate_body, EconEval.Patient.get_next_state.
  simpl fst; simpl snd.
  destruct (probMatrix _ !! _) as [row|] eqn:Hrow.
  - destruct (Empirical_sample row _) as [j g'] eqn:Hs.
    destruct (HealthStates_of j) as [s|] eqn:Hj.
    + destruct (EconEval.PatientStateMonitor.update _ _ _) as [m|e1 m|] eqn:Hu;
        try discriminate.
      intros [= <- <-]. simpl. split; [reflexivity|]. right. right.
      exists row, s. rewrite Hs. auto.
    + intros [= <- <-]. simpl. split; [reflexivity|]. right. left.
      split; [reflexivity|]. split; [reflexivity|]. exists row. rewrite Hs. auto.
  - intros [= <- <-]. split; [reflexivity|]. left. auto.
Qed.

(** X9. When [Patient.simulate] of [MarkovModelClasses.py] raises it does so
    in the pass of some step [k < n_time_steps], on a living patient that is
    exactly as [simulate] with [k] steps returns it: with an [IndexError] when
    the patient's state has no row in the matrix, with a [ValueError] when the
    sampled index is no state, and the monitor is untouched by the failed
    pass.  In [EconEvalMarkovModelClasses.py] the exception is either that of
    the constructor of the Markov jump process, raised before the first step,
    whatever [n_time_steps] is, with the patient untouched; or it is raised in
    the pass of some step [k < n_time_steps] on a living patient that is as
    [simulate] with [k] steps returns it: by [get_next_state] on a state
    without a row (the exception is the library's, the patient is untouched
    by the pass), by [HealthStates(i)] (a [ValueError], the monitor is
    untouched by the pass), or by the [update] of the monitor, and then the
    monitor is what that call left. *)
Theorem simulate_raises_at_a_step
    (pg pg' : Guarded.Patient.t) (pe pe' : EconEval.Patient.t) (n_time_steps : Z) (e : exn) :
  (Guarded.Patient.simulate pg n_time_steps = Raises e pg' ->
   exists (k : Z) (x : Guarded.Patient.t),
     (0 <= k < n_time_steps)%Z
     /\ Guarded.Patient.simulate pg k = Returns x
     /\ Guarded.PatientStateMonitor.currentState (Guarded.Patient.stateMonitor x) <> HIV_DEATH
     /\ Guarded.Patient.stateMonitor pg' = Guarded.Patient.stateMonitor x
     /\ ((e = IndexError
          /\ probMatrix (Guarded.Patient.params x) !! value (G_state x) = None)
         \/ (e = ValueError
             /\ exists row,
                 probMatrix (Guarded.Patient.params x) !! value (G_state x) = Some row
                 /\ HealthStates_of (Empirical_sample row (Guarded.Patient.rng x)).1 = None)))
  /\ (EconEval.Patient.simulate pe n_time_steps = Raises e pe' ->
      (deampy_MarkovJumpProcess (probMatrix (EconEval.Patient.params pe)) = Some e
       /\ pe' = pe)
      \/ (deampy_MarkovJumpProcess (probMatrix (EconEval.Patient.params pe)) = None
          /\ exists (k : Z) (x : EconEval.Patient.t),
              (0 <= k < n_time_steps)%Z
              /\ EconEval.Patient.simulate pe k = Returns x
              /\ EconEval.PatientStateMonitor.currentState (EconEval.Patient.stateMonitor x)
                 <> HIV_DEATH
              /\ ((e = deampy_get_next_state_error (probMatrix (EconEval.Patient.params x))
                         (value (E_state x))
                   /\ pe' = x
                   /\ probMatrix (EconEval.Patient.params x) !! value (E_state x) = None)
                  \/ (e = ValueError
                      /\ EconEval.Patient.stateMonitor pe' = EconEval.Patient.stateMonitor x
                      /\ exists row g,
                          probMatrix (EconEval.Patient.params x) !! value (E_state x)
                          = Some row
                          /\ HealthStates_of (Empirical_sample row g).1 = None)
                  \/ (exists s,
                         EconEval.PatientStateMonitor.update
                           (EconEval.Patient.stateMonitor x) k s
                         = Raises e (EconEval.Patient.stateMonitor pe'))))).
Proof.
  split.
  - unfold Guarded.Patient.simulate at 1. rewrite Guarded_simulate_run_loop.
    destruct (loop G_alive G_body n_time_steps pg 0) as [[a k]|e' [a k]|] eqn:Hl;
      try discriminate.
    intros [= -> ->].
    destruct (loop_raises_prefix G_alive G_body _ _ _ _ _ _ Hl) as (x & Hx & Ha & Hk & Hb).
    exists k, x. split; [lia|]. split.
    { unfold Guarded.Patient.simulate. rewrite Guarded_simulate_run_loop, Hx. reflexivity. }
    split; [apply Guarded_alive_iff; assumption|].
    destruct (Guarded_body_raises_inv x k e pg' Hb) as (Hm & _ & Hcase).
    split; assumption.
  - unfold EconEval.Patient.simulate at 1. rewrite EconEval_simulate_run_loop.
    destruct (deampy_MarkovJumpProcess _) as [e0|] eqn:Hmjp.
    { intros [= -> ->]. left. split; reflexivity. }
    destruct (loop E_alive E_body n_time_steps _ 0) as [[[a g] k]|e' [[a g] k]|] eqn:Hl;
      try discriminate.
    intros [= -> ->]. right. split; [reflexivity|].
    destruct (loop_raises_prefix E_alive E_body _ _ _ _ _ _ Hl) as ([x gx] & Hx & Ha & Hk & Hb).
    exists k, x. split; [lia|]. split.
    { unfold EconEval.Patient.simulate. rewrite EconEval_simulate_run_loop, Hmjp, Hx.
      reflexivity. }
    split; [apply (EconEval_alive_iff (x, gx)); assumption|].
    destruct (EconEval_body_raises_inv (x, gx) k e (pe', g) Hb)
      as (_ & [(-> & Heq & Hrow)|[(-> & Hm & row & Hrow & Hj)|(row & s & _ & _ & Hu)]]).
    + left. injection Heq as -> _. auto.
    + right. left. split; [reflexivity|]. split; [assumption|]. exists row, gx. auto.
    + right. right. exists s. assumption.
Qed.

(** X10. Nothing to simulate.  With a cap of zero or fewer steps, or on a
    patient that is dead already, [Patient.simulate] makes no step and leaves
    the patient as it is: in [MarkovModelClasses.py] it returns; in
    [EconEvalMarkovModelClasses.py] it returns when the constructor of the
    Markov jump process returns and raises that constructor's exception
    otherwise.  A cohort of zero or fewer patients has no patient, and however
    its [simulate] completes the four outcome vectors are empty: whether it
    returns is decided by the library constructors, which are called on the
    empty vectors.  Both engines. *)
Theorem nothing_to_simulate
    (pg : Guarded.Patient.t) (pe : EconEval.Patient.t) (p : Parameters)
    (cid pop n_time_steps : Z) :
  ((n_time_steps <= 0)%Z
   \/ Guarded.PatientStateMonitor.currentState (Guarded.Patient.stateMonitor pg) = HIV_DEATH ->
   Guarded.Patient.simulate_run pg n_time_steps = Returns (pg, 0%Z)
   /\ Guarded.Patient.simulate pg n_time_steps = Returns pg)
  /\ ((n_time_steps <= 0)%Z
      \/ EconEval.PatientStateMonitor.currentState (EconEval.Patient.stateMonitor pe)
         = HIV_DEATH ->
      EconEval.Patient.simulate pe n_time_steps
      = match deampy_MarkovJumpProcess (probMatrix (EconEval.Patient.params pe)) with
        | Some e => Raises e pe
        | None => Returns pe
        end)
  /\ ((pop <= 0)%Z ->
      Guarded.Cohort.patients (Guarded.Cohort.init cid pop p) = []
      /\ EconEval.Cohort.populate (EconEval.Cohort.init cid pop p) = []
      /\ (forall c' : Guarded.Cohort.t,
             state_after (Guarded.Cohort.simulate (Guarded.Cohort.init cid pop p) n_time_steps)
             = Some c' ->
             Guarded.Cohort.patients c' = []
             /\ Guarded.CohortOutcomes.survivalTimes (Guarded.Cohort.cohortOutcomes c') = []
             /\ Guarded.CohortOutcomes.timesToAIDS (Guarded.Cohort.cohortOutcomes c') = []
             /\ Guarded.CohortOutcomes.costs (Guarded.Cohort.cohortOutcomes c') = []
             /\ Guarded.CohortOutcomes.utilities (Guarded.Cohort.cohortOutcomes c') = [])
      /\ (forall c' : EconEval.Cohort.t,
             state_after
               (EconEval.Cohort.simulate (EconEval.Cohort.init cid pop p) n_time_steps)
             = Some c' ->
             EconEval.CohortOutcomes.survivalTimes (EconEval.Cohort.cohortOutcomes c') = []
             /\ EconEval.CohortOutcomes.timesToAIDS (EconEval.Cohort.cohortOutcomes c') = []
             /\ EconEval.CohortOutcomes.costs (EconEval.Cohort.cohortOutcomes c') = []
             /\ EconEval.CohortOutcomes.utilities (EconEval.Cohort.cohortOutcomes c') = [])).
Proof.
  split; [|split].
  - intros Hend.
    assert (Hl : loop G_alive G_body n_time_steps pg 0 = Returns (pg, 0%Z)).
    { apply loop_no_steps. destruct Hend as [Hn|Hd]; [right; assumption | left].
      apply not_true_is_false. intros Ha.
      apply Guarded_alive_iff in Ha. contradiction. }
    unfold Guarded.Patient.simulate. rewrite Guarded_simulate_run_loop, Hl.
    split; reflexivity.
  - intros Hend.
    assert (Hl : loop E_alive E_body n_time_steps (pe, RNG_seed (EconEval.Patient.id pe)) 0
                 = Returns (pe, RNG_seed (EconEval.Patient.id pe), 0%Z)).
    { apply loop_no_steps. destruct Hend as [Hn|Hd]; [right; assumption | left].
      apply not_true_is_false. intros Ha.
      apply (EconEval_alive_iff (pe, RNG_seed (EconEval.Patient.id pe))) in Ha.
      contradiction. }
    unfold EconEval.Patient.simulate. rewrite EconEval_simulate_run_loop, Hl.
    destruct (deampy_MarkovJumpProcess _); reflexivity.
  - intros Hpop.
    assert (Hseq : seqZ 0 pop = []).
    { unfold seqZ. replace (Z.to_nat pop) with 0%nat by lia. reflexivity. }
    assert (HG : Guarded.Cohort.patients (Guarded.Cohort.init cid pop p) = [])
      by (simpl; rewrite Hseq; reflexivity).
    assert (HE : EconEval.Cohort.populate (EconEval.Cohort.init cid pop p) = [])
      by (unfold EconEval.Cohort.populate; simpl; rewrite Hseq; reflexivity).
    split; [exact HG|]. split; [exact HE|]. split.
    + intros c'. unfold Guarded.Cohort.simulate. rewrite HG.
      simpl Guarded.Cohort.simulate_patients. cbv iota.
      destruct (Guarded.CohortOutcomes.extract_outcomes _ []) as [o|e o|] eqn:Hex;
        [| |discriminate]; intros [= <-]; simpl;
        (destruct (Guarded_extract_outcomes_loop
                     (Guarded.Cohort.cohortOutcomes (Guarded.Cohort.init cid pop p)) o [])
           as (-> & -> & -> & ->); [rewrite Hex; reflexivity|]);
        repeat split; reflexivity.
    + intros c'. unfold EconEval.Cohort.simulate. rewrite HE.
      simpl EconEval.Cohort.simulate_patients. cbv iota.
      destruct (EconEval.CohortOutcomes.extract_outcomes _ []) as [o|e o|] eqn:Hex;
        [| |discriminate]; intros [= <-]; simpl;
        (destruct (EconEval_extract_outcomes_loop
                     (EconEval.Cohort.cohortOutcomes (EconEval.Cohort.init cid pop p)) o [])
           as (-> & -> & -> & ->); [rewrite Hex; reflexivity|]);
        repeat split; reflexivity.
Qed.
End exceptions.

(** ** Cohorts and their outcome vectors *)

Section cohort_outcomes.
Context {H : HealthStateEnum} {RC : RandomCarrier} {H0 : RandomSource}.
Context {LC : LibraryCarrier} {Lib : Library}.

Abbreviation G_survivalTime :=
  (fun a : Guarded.Patient.t =>
     Guarded.PatientStateMonitor.survivalTime (Guarded.Patient.stateMonitor a)).
Abbreviation G_timeToAIDS :=
  (fun a : Guarded.Patient.t =>
     Guarded.PatientStateMonitor.timeToAIDS (Guarded.Patient.stateMonitor a)).
Abbreviation G_flag :=
  (fun a : Guarded.Patient.t =>
     Guarded.PatientStateMonitor.ifDevelopedAIDS (Guarded.Patient.stateMonitor a)).
Abbreviation G_totalCost :=
  (fun a : Guarded.Patient.t =>
     Guarded.PatientCostUtilityMonitor.totalDiscountedCost
       (Guarded.PatientStateMonitor.costUtilityMonitor (Guarded.Patient.stateMonitor a))).
Abbreviation G_totalUtility :=
  (fun a : Guarded.Patient.t =>
     Guarded.PatientCostUtilityMonitor.totalDiscountedUtility
       (Guarded.PatientStateMonitor.costUtilityMonitor (Guarded.Patient.stateMonitor a))).
Abbreviation E_survivalTime :=
  (fun a : EconEval.Patient.t =>
     EconEval.PatientStateMonitor.survivalTime (EconEval.Patient.stateMonitor a)).
Abbreviation E_timeToAIDS :=
  (fun a : EconEval.Patient.t =>
     EconEval.PatientStateMonitor.timeToAIDS (EconEval.Patient.stateMonitor a)).
Abbreviation E_totalCost :=
  (fun a : EconEval.Patient.t =>
     EconEval.PatientCostUtilityMonitor.totalDiscountedCost
       (EconEval.PatientStateMonitor.costUtilityMonitor (EconEval.Patient.stateMonitor a))).
Abbreviation E_totalUtility :=
  (fun a : EconEval.Patient.t =>
     EconEval.PatientCostUtilityMonitor.totalDiscountedUtility
       (EconEval.PatientStateMonitor.costUtilityMonitor (EconEval.Patient.stateMonitor a))).

Lemma Guarded_record_patients_vectors (self : Guarded.CohortOutcomes.t)
    (ps : list Guarded.Patient.t) :
  Guarded.CohortOutcomes.survivalTimes (Guarded.CohortOutcomes.record_patients self ps)
  = Guarded.CohortOutcomes.survivalTimes self ++ omap G_survivalTime ps
  /\ Guarded.CohortOutcomes.timesToAIDS (Guarded.CohortOutcomes.record_patients self ps)
     = Guarded.CohortOutcomes.timesToAIDS self
       ++ (G_timeToAIDS <$> filter (fun a => G_flag a = true) ps)
  /\ Guarded.CohortOutcomes.costs (Guarded.CohortOutcomes.record_patients self ps)
     = Guarded.CohortOutcomes.costs self ++ (G_totalCost <$> ps)
  /\ Guarded.CohortOutcomes.utilities (Guarded.CohortOutcomes.record_patients self ps)
     = Guarded.CohortOutcomes.utilities self ++ (G_totalUtility <$> ps).
Proof.
  revert self. induction ps as [|a ps IH]; intros self.
  - simpl. rewrite !app_nil_r. auto.
  - unfold Guarded.CohortOutcomes.record_patients. simpl foldl.
    destruct (IH (Guarded.CohortOutcomes.record_patient self a)) as (E1 & E2 & E3 & E4).
    unfold Guarded.CohortOutcomes.record_patients in E1, E2, E3, E4.
    rewrite E1, E2, E3, E4. clear E1 E2 E3 E4. rewrite filter_cons. simpl.
    repeat split.
    + destruct (Guarded.PatientStateMonitor.survivalTime _); [|reflexivity].
      rewrite <- app_assoc. reflexivity.
    + destruct (decide (G_flag a = true)) as [Hf|Hf].
      * rewrite Hf. rewrite <- app_assoc. reflexivity.
      * apply not_true_is_false in Hf. rewrite Hf. reflexivity.
    + rewrite <- app_assoc. reflexivity.
    + rewrite <- app_assoc. reflexivity.
Qed.

Lemma EconEval_record_patients_vectors (self : EconEval.CohortOutcomes.t)
    (ps : list EconEval.Patient.t) :
  EconEval.CohortOutcomes.survivalTimes (EconEval.CohortOutcomes.record_patients self ps)
  = EconEval.CohortOutcomes.survivalTimes self ++ omap E_survivalTime ps
  /\ EconEval.CohortOutcomes.timesToAIDS (EconEval.CohortOutcomes.record_patients self ps)
     = EconEval.CohortOutcomes.timesToAIDS self ++ omap E_timeToAIDS ps
  /\ EconEval.CohortOutcomes.costs (EconEval.CohortOutcomes.record_patients self ps)
     = EconEval.CohortOutcomes.costs self ++ (E_totalCost <$> ps)
  /\ EconEval.CohortOutcomes.utilities (EconEval.CohortOutcomes.record_patients self ps)
     = EconEval.CohortOutcomes.utilities self ++ (E_totalUtility <$> ps).
Proof.
  revert self. induction ps as [|a ps IH]; intros self.
  - simpl. rewrite !app_nil_r. auto.
  - unfold EconEval.CohortOutcomes.record_patients. simpl foldl.
    destruct (IH (EconEval.CohortOutcomes.record_patient self a)) as (E1 & E2 & E3 & E4).
    unfold EconEval.CohortOutcomes.record_patients in E1, E2, E3, E4.
    rewrite E1, E2, E3, E4. clear E1 E2 E3 E4. simpl.
    repeat split.
    + destruct (EconEval.PatientStateMonitor.survivalTime _); [|reflexivity].
      rewrite <- app_assoc. reflexivity.
    + destruct (EconEval.PatientStateMonitor.timeToAIDS _); [|reflexivity].
      rewrite <- app_assoc. reflexivity.
    + rewrite <- app_assoc. reflexivity.
    + rewrite <- app_assoc. reflexivity.
Qed.

(** The vectors after [extract_outcomes], however it completes. *)
Lemma Guarded_extract_outcomes_vectors (self o : Guarded.CohortOutcomes.t)
    (ps : list Guarded.Patient.t) :
  state_after (Guarded.CohortOutcomes.extract_outcomes self ps) = Some o ->
  Guarded.CohortOutcomes.survivalTimes o
  = Guarded.CohortOutcomes.survivalTimes self ++ omap G_survivalTime ps
  /\ Guarded.CohortOutcomes.timesToAIDS o
     = Guarded.CohortOutcomes.timesToAIDS self
       ++ (G_timeToAIDS <$> filter (fun a => G_flag a = true) ps)
  /\ Guarded.CohortOutcomes.costs o
     = Guarded.CohortOutcomes.costs self ++ (G_totalCost <$> ps)
  /\ Guarded.CohortOutcomes.utilities o
     = Guarded.CohortOutcomes.utilities self ++ (G_totalUtility <$> ps).
Proof.
  intros Hex. destruct (Guarded_extract_outcomes_loop self o ps Hex) as (-> & -> & -> & ->).
  apply Guarded_record_patients_vectors.
Qed.

Lemma EconEval_extract_outcomes_vectors (self o : EconEval.CohortOutcomes.t)
    (ps : list EconEval.Patient.t) :
  state_after (EconEval.CohortOutcomes.extract_outcomes self ps) = Some o ->
  EconEval.CohortOutcomes.survivalTimes o
  = EconEval.CohortOutcomes.survivalTimes self ++ omap E_survivalTime ps
  /\ EconEval.CohortOutcomes.timesToAIDS o
     = EconEval.CohortOutcomes.timesToAIDS self ++ omap E_timeToAIDS ps
  /\ EconEval.CohortOutcomes.costs o
     = EconEval.CohortOutcomes.costs self ++ (E_totalCost <$> ps)
  /\ EconEval.CohortOutcomes.utilities o
     = EconEval.CohortOutcomes.utilities self ++ (E_totalUtility <$> ps).
Proof.
  intros Hex. destruct (EconEval_extract_outcomes_loop self o ps Hex) as (-> & -> & -> & ->).
  apply EconEval_record_patients_vectors.
Qed.

Lemma EconEval_extract_outcomes_total (o : EconEval.CohortOutcomes.t)
    (ps : list EconEval.Patient.t) :
  EconEval.CohortOutcomes.extract_outcomes o ps <> OutOfFuel.
Proof.
  unfold EconEval.CohortOutcomes.extract_outcomes,
    EconEval.CohortOutcomes.nLivingPatients_arguments.
  repeat (match goal with
          | |- context [match ?c with inl _ => _ | inr _ => _ end] => destruct c
          end; [discriminate|]).
  discriminate.
Qed.

(** X1. [extract_outcomes] appends to the four vectors, in the order of the
    patients and after what the vectors held: to [costs] and [utilities] the
    two totals of every patient; to [survivalTimes] the survival time of every
    patient that has one; to [timesToAIDS] the time to AIDS of every patient
    whose flag [ifDevelopedAIDS] is set ([MarkovModelClasses.py]) or whose time
    to AIDS is not [None] ([EconEvalMarkovModelClasses.py]).  This is what the
    vectors hold when [extract_outcomes] returns and also when a constructor
    of the library, called after the loop, raises; and [extract_outcomes]
    always completes.  Extracting from two lists one after the other leaves
    the vectors that extracting from their concatenation leaves. *)
Theorem extract_outcomes_appends_in_patient_order :
  (forall (self : Guarded.CohortOutcomes.t) (ps qs : list Guarded.Patient.t),
      (exists o, state_after (Guarded.CohortOutcomes.extract_outcomes self ps) = Some o)
      /\ forall o,
          state_after (Guarded.CohortOutcomes.extract_outcomes self ps) = Some o ->
          Guarded.CohortOutcomes.survivalTimes o
          = Guarded.CohortOutcomes.survivalTimes self
            ++ omap (fun a => Guarded.PatientStateMonitor.survivalTime
                                (Guarded.Patient.stateMonitor a)) ps
          /\ Guarded.CohortOutcomes.timesToAIDS o
             = Guarded.CohortOutcomes.timesToAIDS self
               ++ ((fun a => Guarded.PatientStateMonitor.timeToAIDS
                               (Guarded.Patient.stateMonitor a))
                     <$> filter (fun a => Guarded.PatientStateMonitor.ifDevelopedAIDS
                                            (Guarded.Patient.stateMonitor a) = true) ps)
          /\ Guarded.CohortOutcomes.costs o
             = Guarded.CohortOutcomes.costs self
               ++ ((fun a => Guarded.PatientCostUtilityMonitor.totalDiscountedCost
                               (Guarded.PatientStateMonitor.costUtilityMonitor
                                  (Guarded.Patient.stateMonitor a))) <$> ps)
          /\ Guarded.CohortOutcomes.utilities o
             = Guarded.CohortOutcomes.utilities self
               ++ ((fun a => Guarded.PatientCostUtilityMonitor.totalDiscountedUtility
                               (Guarded.PatientStateMonitor.costUtilityMonitor
                                  (Guarded.Patient.stateMonitor a))) <$> ps)
          /\ forall o' o'',
              state_after (Guarded.CohortOutcomes.extract_outcomes o qs) = Some o' ->
              state_after (Guarded.CohortOutcomes.extract_outcomes self (ps ++ qs))
              = Some o'' ->
              Guarded.CohortOutcomes.survivalTimes o'
              = Guarded.CohortOutcomes.survivalTimes o''
              /\ Guarded.CohortOutcomes.timesToAIDS o'
                 = Guarded.CohortOutcomes.timesToAIDS o''
              /\ Guarded.CohortOutcomes.costs o' = Guarded.CohortOutcomes.costs o''
              /\ Guarded.CohortOutcomes.utilities o'
                 = Guarded.CohortOutcomes.utilities o'')
  /\ (forall (self : EconEval.CohortOutcomes.t) (ps qs : list EconEval.Patient.t),
      (exists o, state_after (EconEval.CohortOutcomes.extract_outcomes self ps) = Some o)
      /\ forall o,
          state_after (EconEval.CohortOutcomes.extract_outcomes self ps) = Some o ->
          EconEval.CohortOutcomes.survivalTimes o
          = EconEval.CohortOutcomes.survivalTimes self
            ++ omap (fun a => EconEval.PatientStateMonitor.survivalTime
                                (EconEval.Patient.stateMonitor a)) ps
          /\ EconEval.CohortOutcomes.timesToAIDS o
             = EconEval.CohortOutcomes.timesToAIDS self
               ++ omap (fun a => EconEval.PatientStateMonitor.timeToAIDS
                                   (EconEval.Patient.stateMonitor a)) ps
          /\ EconEval.CohortOutcomes.costs o
             = EconEval.CohortOutcomes.costs self
               ++ ((fun a => EconEval.PatientCostUtilityMonitor.totalDiscountedCost
                               (EconEval.PatientStateMonitor.costUtilityMonitor
                                  (EconEval.Patient.stateMonitor a))) <$> ps)
          /\ EconEval.CohortOutcomes.utilities o
             = EconEval.CohortOutcomes.utilities self
               ++ ((fun a => EconEval.PatientCostUtilityMonitor.totalDiscountedUtility
                               (EconEval.PatientStateMonitor.costUtilityMonitor
                                  (EconEval.Patient.stateMonitor a))) <$> ps)
          /\ forall o' o'',
              state_after (EconEval.CohortOutcomes.extract_outcomes o qs) = Some o' ->
              state_after (EconEval.CohortOutcomes.extract_outcomes self (ps ++ qs))
              = Some o'' ->
              EconEval.CohortOutcomes.survivalTimes o'
              = EconEval.CohortOutcomes.survivalTimes o''
              /\ EconEval.CohortOutcomes.timesToAIDS o'
                 = EconEval.CohortOutcomes.timesToAIDS o''
              /\ EconEval.CohortOutcomes.costs o' = EconEval.CohortOutcomes.costs o''
              /\ EconEval.CohortOutcomes.utilities o'
                 = EconEval.CohortOutcomes.utilities o'').
Proof.
  split; intros self ps qs.
  - split.
    { pose proof (Guarded_extract_outcomes_total self ps) as Ht.
      destruct (Guarded.CohortOutcomes.extract_outcomes self ps) as [o|e o|];
        [exists o; reflexivity | exists o; reflexivity | contradiction]. }
    intros o Hex.
    destruct (Guarded_extract_outcomes_vectors self o ps Hex) as (E1 & E2 & E3 & E4).
    repeat (split; [assumption|]).
    intros o' o'' Hex' Hex''.
    destruct (Guarded_extract_outcomes_vectors o o' qs Hex') as (-> & -> & -> & ->).
    destruct (Guarded_extract_outcomes_vectors self o'' (ps ++ qs) Hex'')
      as (-> & -> & -> & ->).
    rewrite E1, E2, E3, E4, omap_app, filter_app, !fmap_app, <- !app_assoc.
    repeat split; reflexivity.
  - split.
    { pose proof (EconEval_extract_outcomes_total self ps) as Ht.
      destruct (EconEval.CohortOutcomes.extract_outcomes self ps) as [o|e o|];
        [exists o; reflexivity | exists o; reflexivity | contradiction]. }
    intros o Hex.
    destruct (EconEval_extract_outcomes_vectors self o ps Hex) as (E1 & E2 & E3 & E4).
    repeat (split; [assumption|]).
    intros o' o'' Hex' Hex''.
    destruct (EconEval_extract_outcomes_vectors o o' qs Hex') as (-> & -> & -> & ->).
    destruct (EconEval_extract_outcomes_vectors self o'' (ps ++ qs) Hex'')
      as (-> & -> & -> & ->).
    rewrite E1, E2, E3, E4, !omap_app, !fmap_app, <- !app_assoc.
    repeat split; reflexivity.
Qed.
(** The survival curve. *)
Lemma sum_replicate_minus_one (n : nat) :
  foldr Z.add 0%Z (replicate n (-1)%Z) = (- Z.of_nat n)%Z.
Proof. induction n as [|n IH]; simpl replicate; simpl foldr; [reflexivity|]. lia. Qed.

Lemma length_omap_filter_None {A B : Type} (f : A -> option B) (l : list A) :
  (length (omap f l) + length (filter (fun a => f a = None) l) = length l)%nat.
Proof.
  induction l as [|a l IH]; [reflexivity|].
  rewrite filter_cons. change (omap f (a :: l)) with
    (match f a with Some y => y :: omap f l | None => omap f l end).
  destruct (decide (f a = None)) as [Hn|Hs].
  - rewrite Hn. simpl length. lia.
  - destruct (f a); [simpl length; lia | contradiction].
Qed.

(** When [extract_outcomes] returns, the curve it has assigned is the one
    the library built from these arguments. *)
Lemma Guarded_extract_outcomes_path (self o : Guarded.CohortOutcomes.t)
    (ps : list Guarded.Patient.t) :
  Guarded.CohortOutcomes.extract_outcomes self ps = Returns o ->
  exists path,
    Guarded.CohortOutcomes.nLivingPatients o = Some path
    /\ (let '(initial_size, times_of_changes, increments) :=
          Guarded.CohortOutcomes.nLivingPatients_arguments self ps in
        SimPy_PrevalencePathBatchUpdate "# of living patients"
          initial_size times_of_changes increments) = inr path.
Proof.
  unfold Guarded.CohortOutcomes.extract_outcomes,
    Guarded.CohortOutcomes.nLivingPatients_arguments.
  do 4 (match goal with
        | |- context [match ?c with inl _ => _ | inr _ => _ end] => destruct c
        end; [discriminate|]).
  destruct (SimPy_PrevalencePathBatchUpdate _ _ _ _) as [e|path]; [discriminate|].
  intros [= <-]. exists path. split; reflexivity.
Qed.

Lemma EconEval_extract_outcomes_path (self o : EconEval.CohortOutcomes.t)
    (ps : list EconEval.Patient.t) :
  EconEval.CohortOutcomes.extract_outcomes self ps = Returns o ->
  exists path,
    EconEval.CohortOutcomes.nLivingPatients o = Some path
    /\ (let '(initial_size, times_of_changes, increments) :=
          EconEval.CohortOutcomes.nLivingPatients_arguments self ps in
        deampy_PrevalencePathBatchUpdate "# of living patients"
          initial_size times_of_changes increments) = inr path.
Proof.
  unfold EconEval.CohortOutcomes.extract_outcomes,
    EconEval.CohortOutcomes.nLivingPatients_arguments.
  do 4 (match goal with
        | |- context [match ?c with inl _ => _ | inr _ => _ end] => destruct c
        end; [discriminate|]).
  destruct (deampy_PrevalencePathBatchUpdate _ _ _ _) as [e|path]; [discriminate|].
  intros [= <-]. exists path. split; reflexivity.
Qed.

(** X11. The survival curve [nLivingPatients] is built from as many
    increments as there are recorded survival times, each of them [-1], and
    starts at the number of patients handed to [extract_outcomes]; so what it
    ends at is the number of these patients that have no survival time, less
    the number of survival times the vector held before the call.  On fresh
    outcomes it ends at the number of patients without a survival time and
    never goes below zero.  When [extract_outcomes] returns, the curve it has
    assigned is what the library's constructor returned on these arguments.
    Both engines. *)
Theorem nLivingPatients_ends_at_survivors :
  (forall (self : Guarded.CohortOutcomes.t) (ps : list Guarded.Patient.t),
      let '(initial_size, times_of_changes, increments) :=
        Guarded.CohortOutcomes.nLivingPatients_arguments self ps in
      length increments = length times_of_changes
      /\ Forall (fun d => d = (-1)%Z) increments
      /\ (initial_size + foldr Z.add 0 increments
          = Z.of_nat (length (filter (fun a => Guarded.PatientStateMonitor.survivalTime
                                                 (Guarded.Patient.stateMonitor a) = None) ps))
            - Z.of_nat (length (Guarded.CohortOutcomes.survivalTimes self)))%Z
      /\ (Guarded.CohortOutcomes.survivalTimes self = [] ->
          (0 <= initial_size + foldr Z.add 0 increments)%Z)
      /\ (forall o, Guarded.CohortOutcomes.extract_outcomes self ps = Returns o ->
                    exists path,
                      Guarded.CohortOutcomes.nLivingPatients o = Some path
                      /\ SimPy_PrevalencePathBatchUpdate "# of living patients"
                           initial_size times_of_changes increments = inr path))
  /\ (forall (self : EconEval.CohortOutcomes.t) (ps : list EconEval.Patient.t),
      let '(initial_size, times_of_changes, increments) :=
        EconEval.CohortOutcomes.nLivingPatients_arguments self ps in
      length increments = length times_of_changes
      /\ Forall (fun d => d = (-1)%Z) increments
      /\ (initial_size + foldr Z.add 0 increments
          = Z.of_nat (length (filter (fun a => EconEval.PatientStateMonitor.survivalTime
                                                 (EconEval.Patient.stateMonitor a) = None) ps))
            - Z.of_nat (length (EconEval.CohortOutcomes.survivalTimes self)))%Z
      /\ (EconEval.CohortOutcomes.survivalTimes self = [] ->
          (0 <= initial_size + foldr Z.add 0 increments)%Z)
      /\ (forall o, EconEval.CohortOutcomes.extract_outcomes self ps = Returns o ->
                    exists path,
                      EconEval.CohortOutcomes.nLivingPatients o = Some path
                      /\ deampy_PrevalencePathBatchUpdate "# of living patients"
                           initial_size times_of_changes increments = inr path)).
Proof.
  split; intros self ps.
  - pose proof (Guarded_extract_outcomes_path self) as Hpath.
    unfold Guarded.CohortOutcomes.nLivingPatients_arguments in *.
    destruct (Guarded_record_patients_vectors self ps) as (E1 & _).
    pose proof (length_omap_filter_None G_survivalTime ps) as Hlen.
    set (alive := length (filter _ ps)) in *. clearbody alive.
    refine (conj _ (conj _ (conj _ (conj _ (fun o Hex => Hpath o ps Hex))))).
    + apply length_replicate.
    + apply Forall_replicate; reflexivity.
    + rewrite E1, sum_replicate_minus_one, length_app.
      lia.
    + intros Hnil. rewrite E1, sum_replicate_minus_one, length_app, Hnil.
      simpl length. lia.
  - pose proof (EconEval_extract_outcomes_path self) as Hpath.
    unfold EconEval.CohortOutcomes.nLivingPatients_arguments in *.
    destruct (EconEval_record_patients_vectors self ps) as (E1 & _).
    pose proof (length_omap_filter_None E_survivalTime ps) as Hlen.
    set (alive := length (filter _ ps)) in *. clearbody alive.
    refine (conj _ (conj _ (conj _ (conj _ (fun o Hex => Hpath o ps Hex))))).
    + apply length_replicate.
    + apply Forall_replicate; reflexivity.
    + rewrite E1, sum_replicate_minus_one, length_app.
      lia.
    + intros Hnil. rewrite E1, sum_replicate_minus_one, length_app, Hnil.
      simpl length. lia.
Qed.

(** [simulate_patients] keeps the patients' ids and parameters, position by
    position, however it completes. *)
Lemma Guarded_simulate_patients_keeps (ps ps' : list Guarded.Patient.t) n :
  state_after (Guarded.Cohort.simulate_patients ps n) = Some ps' ->
  Forall2 (fun a a' => Guarded.Patient.id a' = Guarded.Patient.id a
                       /\ Guarded.Patient.params a' = Guarded.Patient.params a) ps ps'.
Proof.
  revert ps'. induction ps as [|q ps IH]; intros ps'; simpl.
  - intros [= <-]. constructor.
  - destruct (Guarded.Patient.simulate q n) as [q'|e q'|] eqn:Hsim; simpl;
      [| |discriminate].
    + assert (Hq : Guarded.Patient.id q' = Guarded.Patient.id q
                   /\ Guarded.Patient.params q' = Guarded.Patient.params q)
        by (apply (Guarded_simulate_keeps q q' n); rewrite Hsim; reflexivity).
      destruct (Guarded.Cohort.simulate_patients ps n) as [ps1|e ps1|] eqn:Hrest; simpl;
        [| |discriminate]; intros [= <-]; constructor; try assumption;
        apply IH; reflexivity.
    + intros [= <-]. constructor.
      * apply (Guarded_simulate_keeps q q' n). rewrite Hsim. reflexivity.
      * apply Forall2_same_length_lookup_2; [reflexivity|].
        intros i a b Ha Hb. rewrite Ha in Hb. injection Hb as ->. auto.
Qed.

Lemma EconEval_simulate_patients_keeps (ps ps' : list EconEval.Patient.t) n :
  state_after (EconEval.Cohort.simulate_patients ps n) = Some ps' ->
  Forall2 (fun a a' => EconEval.Patient.id a' = EconEval.Patient.id a
                       /\ EconEval.Patient.params a' = EconEval.Patient.params a) ps ps'.
Proof.
  revert ps'. induction ps as [|q ps IH]; intros ps'; simpl.
  - intros [= <-]. constructor.
  - destruct (EconEval.Patient.simulate q n) as [q'|e q'|] eqn:Hsim; simpl;
      [| |discriminate].
    + assert (Hq : EconEval.Patient.id q' = EconEval.Patient.id q
                   /\ EconEval.Patient.params q' = EconEval.Patient.params q)
        by (apply (EconEval_simulate_keeps q q' n); rewrite Hsim; reflexivity).
      destruct (EconEval.Cohort.simulate_patients ps n) as [ps1|e ps1|] eqn:Hrest; simpl;
        [| |discriminate]; intros [= <-]; constructor; try assumption;
        apply IH; reflexivity.
    + intros [= <-]. constructor.
      * apply (EconEval_simulate_keeps q q' n). rewrite Hsim. reflexivity.
      * apply Forall2_same_length_lookup_2; [reflexivity|].
        intros i a b Ha Hb. rewrite Ha in Hb. injection Hb as ->. auto.
Qed.

Lemma Forall2_fmap_eq {A B : Type} (f : A -> B) (l l' : list A) :
  Forall2 (fun a a' => f a' = f a) l l' -> f <$> l' = f <$> l.
Proof.
  induction 1 as [|a a' l l' Hf _ IH]; [reflexivity|].
  rewrite !fmap_cons, Hf, IH. reflexivity.
Qed.

(** X2. The loop over the patients of a cohort hands back as many patients
    as it was given, with the same ids and the same parameters at the same
    positions, whether it returns or is left by an exception; a guarded
    cohort therefore keeps its id, its size and the ids of its patients
    through [simulate].  Both engines. *)
Theorem simulate_keeps_the_patients :
  (forall (ps ps' : list Guarded.Patient.t) (n_time_steps : Z),
      state_after (Guarded.Cohort.simulate_patients ps n_time_steps) = Some ps' ->
      length ps' = length ps
      /\ Guarded.Patient.id <$> ps' = Guarded.Patient.id <$> ps
      /\ Guarded.Patient.params <$> ps' = Guarded.Patient.params <$> ps)
  /\ (forall (ps ps' : list EconEval.Patient.t) (n_time_steps : Z),
      state_after (EconEval.Cohort.simulate_patients ps n_time_steps) = Some ps' ->
      length ps' = length ps
      /\ EconEval.Patient.id <$> ps' = EconEval.Patient.id <$> ps
      /\ EconEval.Patient.params <$> ps' = EconEval.Patient.params <$> ps)
  /\ (forall (c c' : Guarded.Cohort.t) (n_time_steps : Z),
      state_after (Guarded.Cohort.simulate c n_time_steps) = Some c' ->
      Guarded.Cohort.id c' = Guarded.Cohort.id c
      /\ Guarded.Cohort.initialPopSize c' = Guarded.Cohort.initialPopSize c
      /\ Guarded.Patient.id <$> Guarded.Cohort.patients c'
         = Guarded.Patient.id <$> Guarded.Cohort.patients c).
Proof.
  assert (HG : forall (ps ps' : list Guarded.Patient.t) n,
             state_after (Guarded.Cohort.simulate_patients ps n) = Some ps' ->
             length ps' = length ps
             /\ Guarded.Patient.id <$> ps' = Guarded.Patient.id <$> ps
             /\ Guarded.Patient.params <$> ps' = Guarded.Patient.params <$> ps).
  { intros ps ps' n Hs. pose proof (Guarded_simulate_patients_keeps ps ps' n Hs) as Hk.
    split; [symmetry; apply (Forall2_length _ _ _ Hk)|].
    split; apply Forall2_fmap_eq; eapply Forall2_impl; try exact Hk; simpl; tauto. }
  split; [exact HG|]. split.
  - intros ps ps' n Hs. pose proof (EconEval_simulate_patients_keeps ps ps' n Hs) as Hk.
    split; [symmetry; apply (Forall2_length _ _ _ Hk)|].
    split; apply Forall2_fmap_eq; eapply Forall2_impl; try exact Hk; simpl; tauto.
  - intros c c' n. unfold Guarded.Cohort.simulate.
    destruct (Guarded.Cohort.simulate_patients _ n) as [ps|e ps|] eqn:Hsim;
      [destruct (Guarded.CohortOutcomes.extract_outcomes _ ps) as [o|e o|]| |];
      simpl; try discriminate; intros [= <-]; simpl;
      (split; [reflexivity|]); (split; [reflexivity|]);
      apply (HG (Guarded.Cohort.patients c) ps n); rewrite Hsim; reflexivity.
Qed.

(** Where the loop over the patients is left by an exception. *)
Lemma Guarded_simulate_patients_raises (ps ps' : list Guarded.Patient.t) n e :
  Guarded.Cohort.simulate_patients ps n = Raises e ps' ->
  exists (i : nat) (a a' : Guarded.Patient.t),
    ps !! i = Some a /\ Guarded.Patient.simulate a n = Raises e a'
    /\ ps' !! i = Some a' /\ drop (S i) ps' = drop (S i) ps
    /\ forall j b0, (j < i)%nat -> ps !! j = Some b0 ->
                    exists b, Guarded.Patient.simulate b0 n = Returns b /\ ps' !! j = Some b.
Proof.
  revert ps'. induction ps as [|q ps IH]; intros ps'; simpl; [discriminate|].
  destruct (Guarded.Patient.simulate q n) as [q'|e1 q'|] eqn:Hsim; [| |discriminate].
  - destruct (Guarded.Cohort.simulate_patients ps n) as [ps1|e1 ps1|] eqn:Hrest;
      try discriminate.
    intros [= -> <-].
    destruct (IH ps1 eq_refl) as (i & a & a' & Ha & Hr & Ha' & Hd & Hbefore).
    exists (S i), a, a'. repeat split; try assumption.
    intros [|j] b0 Hj Hb0; simpl in Hb0.
    + injection Hb0 as <-. exists q'. auto.
    + apply (Hbefore j b0); [lia | assumption].
  - intros [= -> <-]. exists 0%nat, q, q'. repeat split; try assumption; try reflexivity.
    intros j b0 Hj. lia.
Qed.

Lemma EconEval_simulate_patients_raises (ps ps' : list EconEval.Patient.t) n e :
  EconEval.Cohort.simulate_patients ps n = Raises e ps' ->
  exists (i : nat) (a a' : EconEval.Patient.t),
    ps !! i = Some a /\ EconEval.Patient.simulate a n = Raises e a'
    /\ ps' !! i = Some a' /\ drop (S i) ps' = drop (S i) ps
    /\ forall j b0, (j < i)%nat -> ps !! j = Some b0 ->
                    exists b, EconEval.Patient.simulate b0 n = Returns b /\ ps' !! j = Some b.
Proof.
  revert ps'. induction ps as [|q ps IH]; intros ps'; simpl; [discriminate|].
  destruct (EconEval.Patient.simulate q n) as [q'|e1 q'|] eqn:Hsim; [| |discriminate].
  - destruct (EconEval.Cohort.simulate_patients ps n) as [ps1|e1 ps1|] eqn:Hrest;
      try discriminate.
    intros [= -> <-].
    destruct (IH ps1 eq_refl) as (i & a & a' & Ha & Hr & Ha' & Hd & Hbefore).
    exists (S i), a, a'. repeat split; try assumption.
    intros [|j] b0 Hj Hb0; simpl in Hb0.
    + injection Hb0 as <-. exists q'. auto.
    + apply (Hbefore j b0); [lia | assumption].
  - intros [= -> <-]. exists 0%nat, q, q'. repeat split; try assumption; try reflexivity.
    intros j b0 Hj. lia.
Qed.

(** When [extract_outcomes] raises, one of the five library constructors
    has raised, on the vectors that the loop over the patients has left. *)
Lemma Guarded_extract_outcomes_raises (self o : Guarded.CohortOutcomes.t)
    (ps : list Guarded.Patient.t) (e : exn) :
  Guarded.CohortOutcomes.extract_outcomes self ps = Raises e o ->
  let o1 := Guarded.CohortOutcomes.record_patients self ps in
  SimPy_SummaryStat "Survival time" (Some <$> Guarded.CohortOutcomes.survivalTimes o1)
  = inl e
  \/ SimPy_SummaryStat "Time until AIDS" (Guarded.CohortOutcomes.timesToAIDS o1) = inl e
  \/ SimPy_SummaryStat "Discounted cost" (Some <$> Guarded.CohortOutcomes.costs o1) = inl e
  \/ SimPy_SummaryStat "Discounted utility" (Some <$> Guarded.CohortOutcomes.utilities o1)
     = inl e
  \/ SimPy_PrevalencePathBatchUpdate "# of living patients"
       (Z.of_nat (length ps)) (Guarded.CohortOutcomes.survivalTimes o1)
       (replicate (length (Guarded.CohortOutcomes.survivalTimes o1)) (-1)%Z) = inl e.
Proof.
  unfold Guarded.CohortOutcomes.extract_outcomes,
    Guarded.CohortOutcomes.nLivingPatients_arguments. cbv zeta.
  destruct (SimPy_SummaryStat "Survival time" _) as [e1|s1];
    [intros [= <- <-]; auto|].
  destruct (SimPy_SummaryStat "Time until AIDS" _) as [e2|s2];
    [intros [= <- <-]; auto|].
  destruct (SimPy_SummaryStat "Discounted cost" _) as [e3|s3];
    [intros [= <- <-]; auto|].
  destruct (SimPy_SummaryStat "Discounted utility" _) as [e4|s4];
    [intros [= <- <-]; auto|].
  destruct (SimPy_PrevalencePathBatchUpdate _ _ _ _) as [e5|path];
    [intros [= <- <-]; auto 6 | discriminate].
Qed.

Lemma EconEval_extract_outcomes_raises (self o : EconEval.CohortOutcomes.t)
    (ps : list EconEval.Patient.t) (e : exn) :
  EconEval.CohortOutcomes.extract_outcomes self ps = Raises e o ->
  let o1 := EconEval.CohortOutcomes.record_patients self ps in
  deampy_SummaryStat "Survival time" (EconEval.CohortOutcomes.survivalTimes o1) = inl e
  \/ deampy_SummaryStat "Time until AIDS" (EconEval.CohortOutcomes.timesToAIDS o1) = inl e
  \/ deampy_SummaryStat "Discounted cost" (EconEval.CohortOutcomes.costs o1) = inl e
  \/ deampy_SummaryStat "Discounted utility" (EconEval.CohortOutcomes.utilities o1) = inl e
  \/ deampy_PrevalencePathBatchUpdate "# of living patients"
       (Z.of_nat (length ps)) (EconEval.CohortOutcomes.survivalTimes o1)
       (replicate (length (EconEval.CohortOutcomes.survivalTimes o1)) (-1)%Z) = inl e.
Proof.
  unfold EconEval.CohortOutcomes.extract_outcomes,
    EconEval.CohortOutcomes.nLivingPatients_arguments. cbv zeta.
  destruct (deampy_SummaryStat "Survival time" _) as [e1|s1];
    [intros [= <- <-]; auto|].
  destruct (deampy_SummaryStat "Time until AIDS" _) as [e2|s2];
    [intros [= <- <-]; auto|].
  destruct (deampy_SummaryStat "Discounted cost" _) as [e3|s3];
    [intros [= <- <-]; auto|].
  destruct (deampy_SummaryStat "Discounted utility" _) as [e4|s4];
    [intros [= <- <-]; auto|].
  destruct (deampy_PrevalencePathBatchUpdate _ _ _ _) as [e5|path];
    [intros [= <- <-]; auto 6 | discriminate].
Qed.

(** X12. When [Cohort.simulate] raises, one of two things has happened.
    Either the [simulate] of a patient raised: then [extract_outcomes] has not
    been called and the outcomes are as before; the exception is that of the
    first patient, in list order, whose [simulate] raises, and the patients
    before it have been simulated to their end; in [MarkovModelClasses.py],
    where the patients are a field of the cohort, these stay simulated, the
    failing patient stays as the exception left it and the patients after it
    are untouched, and in [EconEvalMarkovModelClasses.py], where the patients
    are local to [simulate], the cohort is exactly as before the call.  Or
    every patient was simulated to its end and [extract_outcomes] raised: then
    the four vectors hold the outcomes of all the patients, appended by the
    loop, and the exception is that of one of the four summary statistics or
    of the survival curve, built by the library from these vectors. *)
Theorem cohort_simulate_stops_at_first_exception :
  (forall (c c' : Guarded.Cohort.t) (n_time_steps : Z) (e : exn),
      Guarded.Cohort.simulate c n_time_steps = Raises e c' ->
      (Guarded.Cohort.cohortOutcomes c' = Guarded.Cohort.cohortOutcomes c
       /\ exists (i : nat) (a a' : Guarded.Patient.t),
           Guarded.Cohort.patients c !! i = Some a
           /\ Guarded.Patient.simulate a n_time_steps = Raises e a'
           /\ Guarded.Cohort.patients c' !! i = Some a'
           /\ drop (S i) (Guarded.Cohort.patients c')
              = drop (S i) (Guarded.Cohort.patients c)
           /\ forall j b0, (j < i)%nat -> Guarded.Cohort.patients c !! j = Some b0 ->
                           exists b, Guarded.Patient.simulate b0 n_time_steps = Returns b
                                     /\ Guarded.Cohort.patients c' !! j = Some b)
      \/ (Guarded.Cohort.simulate_patients (Guarded.Cohort.patients c) n_time_steps
          = Returns (Guarded.Cohort.patients c')
          /\ Guarded.CohortOutcomes.extract_outcomes
               (Guarded.Cohort.cohortOutcomes c) (Guarded.Cohort.patients c')
             = Raises e (Guarded.Cohort.cohortOutcomes c')
          /\ let o1 := Guarded.CohortOutcomes.record_patients
                         (Guarded.Cohort.cohortOutcomes c) (Guarded.Cohort.patients c') in
             let o' := Guarded.Cohort.cohortOutcomes c' in
             Guarded.CohortOutcomes.survivalTimes o'
             = Guarded.CohortOutcomes.survivalTimes o1
             /\ Guarded.CohortOutcomes.timesToAIDS o' = Guarded.CohortOutcomes.timesToAIDS o1
             /\ Guarded.CohortOutcomes.costs o' = Guarded.CohortOutcomes.costs o1
             /\ Guarded.CohortOutcomes.utilities o' = Guarded.CohortOutcomes.utilities o1
             /\ (SimPy_SummaryStat "Survival time"
                   (Some <$> Guarded.CohortOutcomes.survivalTimes o1) = inl e
                 \/ SimPy_SummaryStat "Time until AIDS"
                      (Guarded.CohortOutcomes.timesToAIDS o1) = inl e
                 \/ SimPy_SummaryStat "Discounted cost"
                      (Some <$> Guarded.CohortOutcomes.costs o1) = inl e
                 \/ SimPy_SummaryStat "Discounted utility"
                      (Some <$> Guarded.CohortOutcomes.utilities o1) = inl e
                 \/ SimPy_PrevalencePathBatchUpdate "# of living patients"
                      (Z.of_nat (length (Guarded.Cohort.patients c')))
                      (Guarded.CohortOutcomes.survivalTimes o1)
                      (replicate (length (Guarded.CohortOutcomes.survivalTimes o1)) (-1)%Z)
                    = inl e)))
  /\ (forall (c c' : EconEval.Cohort.t) (n_time_steps : Z) (e : exn),
      EconEval.Cohort.simulate c n_time_steps = Raises e c' ->
      (c' = c
       /\ exists (i : nat) (a a' : EconEval.Patient.t),
           EconEval.Cohort.populate c !! i = Some a
           /\ EconEval.Patient.simulate a n_time_steps = Raises e a'
           /\ forall j b0, (j < i)%nat -> EconEval.Cohort.populate c !! j = Some b0 ->
                           exists b, EconEval.Patient.simulate b0 n_time_steps = Returns b)
      \/ (exists ps : list EconEval.Patient.t,
             EconEval.Cohort.simulate_patients (EconEval.Cohort.populate c) n_time_steps
             = Returns ps
             /\ EconEval.Cohort.id c' = EconEval.Cohort.id c
             /\ EconEval.Cohort.popSize c' = EconEval.Cohort.popSize c
             /\ EconEval.Cohort.params c' = EconEval.Cohort.params c
             /\ EconEval.CohortOutcomes.extract_outcomes (EconEval.Cohort.cohortOutcomes c) ps
                = Raises e (EconEval.Cohort.cohortOutcomes c')
             /\ let o1 := EconEval.CohortOutcomes.record_patients
                            (EconEval.Cohort.cohortOutcomes c) ps in
                let o' := EconEval.Cohort.cohortOutcomes c' in
                EconEval.CohortOutcomes.survivalTimes o'
                = EconEval.CohortOutcomes.survivalTimes o1
                /\ EconEval.CohortOutcomes.timesToAIDS o'
                   = EconEval.CohortOutcomes.timesToAIDS o1
                /\ EconEval.CohortOutcomes.costs o' = EconEval.CohortOutcomes.costs o1
                /\ EconEval.CohortOutcomes.utilities o' = EconEval.CohortOutcomes.utilities o1
                /\ (deampy_SummaryStat "Survival time"
                      (EconEval.CohortOutcomes.survivalTimes o1) = inl e
                    \/ deampy_SummaryStat "Time until AIDS"
                         (EconEval.CohortOutcomes.timesToAIDS o1) = inl e
                    \/ deampy_SummaryStat "Discounted cost"
                         (EconEval.CohortOutcomes.costs o1) = inl e
                    \/ deampy_SummaryStat "Discounted utility"
                         (EconEval.CohortOutcomes.utilities o1) = inl e
                    \/ deampy_PrevalencePathBatchUpdate "# of living patients"
                         (Z.of_nat (length ps))
                         (EconEval.CohortOutcomes.survivalTimes o1)
                         (replicate (length (EconEval.CohortOutcomes.survivalTimes o1))
                            (-1)%Z)
                       = inl e))).
Proof.
  split; intros c c' n e.
  - unfold Guarded.Cohort.simulate.
    destruct (Guarded.Cohort.simulate_patients _ n) as [ps|e1 ps|] eqn:Hsim;
      try discriminate.
    + destruct (Guarded.CohortOutcomes.extract_outcomes _ ps) as [o|e1 o|] eqn:Hex;
        try discriminate.
      intros [= -> <-]. right. simpl. split; [reflexivity|]. split; [exact Hex|].
      destruct (Guarded_extract_outcomes_loop (Guarded.Cohort.cohortOutcomes c) o ps)
        as (E1 & E2 & E3 & E4); [rewrite Hex; reflexivity|].
      repeat (split; [assumption|]).
      apply (Guarded_extract_outcomes_raises _ o ps e Hex).
    + intros [= -> <-]. left. simpl. split; [reflexivity|].
      apply (Guarded_simulate_patients_raises _ _ _ _ Hsim).
  - unfold EconEval.Cohort.simulate.
    destruct (EconEval.Cohort.simulate_patients _ n) as [ps|e1 ps|] eqn:Hsim;
      try discriminate.
    + destruct (EconEval.CohortOutcomes.extract_outcomes _ ps) as [o|e1 o|] eqn:Hex;
        try discriminate.
      intros [= -> <-]. right. exists ps. simpl. split; [reflexivity|].
      do 3 (split; [reflexivity|]). split; [exact Hex|].
      destruct (EconEval_extract_outcomes_loop (EconEval.Cohort.cohortOutcomes c) o ps)
        as (E1 & E2 & E3 & E4); [rewrite Hex; reflexivity|].
      repeat (split; [assumption|]).
      apply (EconEval_extract_outcomes_raises _ o ps e Hex).
    + intros [= -> <-]. left. split; [reflexivity|].
      destruct (EconEval_simulate_patients_raises _ _ _ _ Hsim)
        as (i & a & a' & Ha & Hr & _ & _ & Hbefore).
      exists i, a, a'. split; [assumption|]. split; [assumption|].
      intros j b0 Hj Hb0. destruct (Hbefore j b0 Hj Hb0) as (b & Hb & _). exists b. exact Hb.
Qed.

(** The event times of one simulated, freshly constructed patient. *)
Lemma Guarded_fresh_patient_times (p : Parameters) (id n : Z) (a : Guarded.Patient.t) :
  Guarded.Patient.simulate (Guarded.Patient.init id p) n = Returns a ->
  (forall t, G_survivalTime a = Some t -> exists j, (0 <= j < n)%Z /\ t = half_cycle j)
  /\ (G_flag a = true ->
      exists j, (0 <= j < n)%Z /\ G_timeToAIDS a = Some (half_cycle j)).
Proof.
  intros Hsim.
  assert (Hr : Guarded_reachable (Guarded.Patient.stateMonitor a)).
  { apply (Guarded_simulate_reachable (Guarded.Patient.init id p) a n);
      [apply reachable_init | rewrite Hsim; reflexivity]. }
  unfold Guarded.Patient.simulate in Hsim.
  destruct (Guarded.Patient.simulate_run _ n) as [[x k]|e [x k]|] eqn:Hrun;
    try discriminate.
  injection Hsim as ->.
  destruct (Guarded_run_times p id n a k Hrun) as (Hs & _ & Ht & _). split.
  - intros t Hst. destruct (Hs t Hst) as (_ & -> & Hk). exists (k - 1)%Z. split; [lia | reflexivity].
  - intros Hflag. apply (Guarded_flag_tracks_time _ Hr) in Hflag.
    destruct (G_timeToAIDS a) as [t|] eqn:Htta; [|contradiction].
    destruct (Ht t eq_refl) as (j & Hj & Hk & ->). exists j. split; [lia | reflexivity].
Qed.

Lemma EconEval_fresh_patient_times (p : Parameters) (id n : Z) (a : EconEval.Patient.t) :
  EconEval.Patient.simulate (EconEval.Patient.init id p) n = Returns a ->
  (forall t, E_survivalTime a = Some t -> exists j, (0 <= j < n)%Z /\ t = half_cycle j)
  /\ (forall t, E_timeToAIDS a = Some t -> exists j, (0 <= j < n)%Z /\ t = half_cycle j).
Proof.
  intros Hsim. unfold EconEval.Patient.simulate in Hsim.
  destruct (EconEval.Patient.simulate_run _ n) as [[[x g] k]|e [[x g] k]|] eqn:Hrun;
    try discriminate.
  injection Hsim as ->.
  destruct (EconEval_run_times p id n a g k Hrun) as (Hs & _ & Ht & _). split.
  - intros t Hst. destruct (Hs t Hst) as (_ & -> & Hk). exists (k - 1)%Z. split; [lia | reflexivity].
  - intros t Htta. destruct (Ht t Htta) as (j & Hj & Hk & ->). exists j. split; [lia | reflexivity].
Qed.

Lemma length_omap_le {A B : Type} (f : A -> option B) (l : list A) :
  (length (omap f l) <= length l)%nat.
Proof.
  pose proof (length_omap_filter_None f l) as Hlen.
  set (rest := length (filter _ l)) in *. clearbody rest. lia.
Qed.

Lemma Guarded_cohort_size (cid pop : Z) (p : Parameters) n ps :
  state_after (Guarded.Cohort.simulate_patients
                 (Guarded.Cohort.patients (Guarded.Cohort.init cid pop p)) n) = Some ps ->
  length ps = Z.to_nat pop.
Proof.
  intros Hs. rewrite <- (Forall2_length _ _ _ (Guarded_simulate_patients_keeps _ _ _ Hs)).
  simpl. rewrite length_fmap, length_seqZ. reflexivity.
Qed.

Lemma EconEval_cohort_size (cid pop : Z) (p : Parameters) n ps :
  state_after (EconEval.Cohort.simulate_patients
                 (EconEval.Cohort.populate (EconEval.Cohort.init cid pop p)) n) = Some ps ->
  length ps = Z.to_nat pop.
Proof.
  intros Hs. rewrite <- (Forall2_length _ _ _ (EconEval_simulate_patients_keeps _ _ _ Hs)).
  unfold EconEval.Cohort.populate. simpl. rewrite length_fmap, length_seqZ. reflexivity.
Qed.

(** X6. After [simulate] has returned on a freshly constructed cohort of
    [pop_size] patients, [costs] and [utilities] hold one entry for each of
    the [max(pop_size, 0)] patients, [survivalTimes] and [timesToAIDS] hold at
    most that many, and each of their entries is [j + 0.5] for a step [j] with
    [0 <= j < n_time_steps].  Both engines. *)
Theorem fresh_cohort_outcome_vectors (cid pop_size n_time_steps : Z) (p : Parameters) :
  (forall c' : Guarded.Cohort.t,
      Guarded.Cohort.simulate (Guarded.Cohort.init cid pop_size p) n_time_steps = Returns c' ->
      let o := Guarded.Cohort.cohortOutcomes c' in
      length (Guarded.CohortOutcomes.costs o) = Z.to_nat pop_size
      /\ length (Guarded.CohortOutcomes.utilities o) = Z.to_nat pop_size
      /\ (length (Guarded.CohortOutcomes.survivalTimes o) <= Z.to_nat pop_size)%nat
      /\ (length (Guarded.CohortOutcomes.timesToAIDS o) <= Z.to_nat pop_size)%nat
      /\ Forall (fun t => exists j, (0 <= j < n_time_steps)%Z
                                    /\ t = (inject_Z j + (1 # 2))%Q)
                (Guarded.CohortOutcomes.survivalTimes o)
      /\ Forall (fun t => exists j, (0 <= j < n_time_steps)%Z
                                    /\ t = Some (inject_Z j + (1 # 2))%Q)
                (Guarded.CohortOutcomes.timesToAIDS o))
  /\ (forall c' : EconEval.Cohort.t,
      EconEval.Cohort.simulate (EconEval.Cohort.init cid pop_size p) n_time_steps
      = Returns c' ->
      let o := EconEval.Cohort.cohortOutcomes c' in
      length (EconEval.CohortOutcomes.costs o) = Z.to_nat pop_size
      /\ length (EconEval.CohortOutcomes.utilities o) = Z.to_nat pop_size
      /\ (length (EconEval.CohortOutcomes.survivalTimes o) <= Z.to_nat pop_size)%nat
      /\ (length (EconEval.CohortOutcomes.timesToAIDS o) <= Z.to_nat pop_size)%nat
      /\ Forall (fun t => exists j, (0 <= j < n_time_steps)%Z
                                    /\ t = (inject_Z j + (1 # 2))%Q)
                (EconEval.CohortOutcomes.survivalTimes o)
      /\ Forall (fun t => exists j, (0 <= j < n_time_steps)%Z
                                    /\ t = (inject_Z j + (1 # 2))%Q)
                (EconEval.CohortOutcomes.timesToAIDS o)).
Proof.
  split; intros c'.
  - unfold Guarded.Cohort.simulate.
    destruct (Guarded.Cohort.simulate_patients _ n_time_steps) as [ps|e ps|] eqn:Hsim;
      try discriminate.
    destruct (Guarded.CohortOutcomes.extract_outcomes _ ps) as [o|e o|] eqn:Hex;
      try discriminate.
    intros [= <-]. cbv zeta. simpl Guarded.Cohort.cohortOutcomes.
    destruct (Guarded_extract_outcomes_vectors Guarded.CohortOutcomes.init o ps)
      as (-> & -> & -> & ->); [exact (f_equal state_after Hex)|]. simpl app.
    assert (Hlen : length ps = Z.to_nat pop_size)
      by (apply (Guarded_cohort_size cid pop_size p n_time_steps); rewrite Hsim; reflexivity).
    assert (Hone : forall a, a ∈ ps ->
              Guarded.Patient.simulate (Guarded.Patient.init (Guarded.Patient.id a) p)
                n_time_steps = Returns a).
    { intros a Ha. apply list_elem_of_lookup_1 in Ha as [i Hi].
      apply (Guarded_cohort_patient_simulated cid pop_size p n_time_steps ps i a Hsim Hi). }
    rewrite !length_fmap, Hlen. split; [reflexivity|]. split; [reflexivity|].
    split; [rewrite <- Hlen; apply length_omap_le|].
    split; [rewrite <- Hlen; apply length_filter|].
    split; apply Forall_forall.
    + intros t Ht. apply list_elem_of_omap in Ht as (a & Ha & Hst).
      destruct (Guarded_fresh_patient_times p _ _ a (Hone a Ha)) as [Hall _].
      apply (Hall t Hst).
    + intros t Ht. apply list_elem_of_fmap in Ht as (a & -> & Ha).
      apply list_elem_of_filter in Ha as [Hflag Ha].
      destruct (Guarded_fresh_patient_times p _ _ a (Hone a Ha)) as [_ Htta].
      destruct (Htta Hflag) as (j & Hj & ->). exists j. split; [assumption | reflexivity].
  - unfold EconEval.Cohort.simulate.
    destruct (EconEval.Cohort.simulate_patients _ n_time_steps) as [ps|e ps|] eqn:Hsim;
      try discriminate.
    destruct (EconEval.CohortOutcomes.extract_outcomes _ ps) as [o|e o|] eqn:Hex;
      try discriminate.
    intros [= <-]. cbv zeta. simpl EconEval.Cohort.cohortOutcomes.
    destruct (EconEval_extract_outcomes_vectors EconEval.CohortOutcomes.init o ps)
      as (-> & -> & -> & ->); [exact (f_equal state_after Hex)|]. simpl app.
    assert (Hlen : length ps = Z.to_nat pop_size)
      by (apply (EconEval_cohort_size cid pop_size p n_time_steps); rewrite Hsim; reflexivity).
    assert (Hone : forall a, a ∈ ps ->
              EconEval.Patient.simulate (EconEval.Patient.init (EconEval.Patient.id a) p)
                n_time_steps = Returns a).
    { intros a Ha. apply list_elem_of_lookup_1 in Ha as [i Hi].
      apply (EconEval_cohort_patient_simulated cid pop_size p n_time_steps ps i a Hsim Hi). }
    rewrite !length_fmap, Hlen. split; [reflexivity|]. split; [reflexivity|].
    split; [rewrite <- Hlen; apply length_omap_le|].
    split; [rewrite <- Hlen; apply length_omap_le|].
    split; apply Forall_forall.
    + intros t Ht. apply list_elem_of_omap in Ht as (a & Ha & Hst).
      destruct (EconEval_fresh_patient_times p _ _ a (Hone a Ha)) as [Hall _].
      apply (Hall t Hst).
    + intros t Ht. apply list_elem_of_omap in Ht as (a & Ha & Htta).
      destruct (EconEval_fresh_patient_times p _ _ a (Hone a Ha)) as [_ Hall].
      apply (Hall t Htta).
Qed.

(** The guarded engine never writes the accumulator. *)
Lemma Guarded_simulate_keeps_accumulator (self self' : Guarded.Patient.t) n :
  state_after (Guarded.Patient.simulate self n) = Some self' ->
  Guarded.PatientStateMonitor.costUtilityMonitor (Guarded.Patient.stateMonitor self')
  = Guarded.PatientStateMonitor.costUtilityMonitor (Guarded.Patient.stateMonitor self).
Proof.
  apply (Guarded_simulate_invariant
           (fun st => Guarded.PatientStateMonitor.costUtilityMonitor
                        (Guarded.Patient.stateMonitor st)
                      = Guarded.PatientStateMonitor.costUtilityMonitor
                          (Guarded.Patient.stateMonitor self))); [|reflexivity].
  intros st k st' Hst Hb.
  destruct (Guarded_body_inv st st' k Hb) as (_ & _ & [->|(row & s & _ & _ & Hu)]);
    [assumption|].
  destruct (decide (Guarded.PatientStateMonitor.currentState (Guarded.Patient.stateMonitor st)
                    = HIV_DEATH)) as [Hd|Ha].
  - rewrite (Guarded_update_absorbed _ k s Hd) in Hu. injection Hu as <-. assumption.
  - rewrite (Guarded_update_alive _ k s Ha) in Hu. injection Hu as <-. assumption.
Qed.

Lemma fmap_constant {A B : Type} (f : A -> B) (c : B) (l : list A) :
  Forall (fun a => f a = c) l -> f <$> l = replicate (length l) c.
Proof.
  induction 1 as [|a l Ha _ IH]; [reflexivity|].
  rewrite fmap_cons, Ha, IH. reflexivity.
Qed.

(** X7. In [MarkovModelClasses.py], whose accumulator [update] has no
    statement, [simulate] leaves the accumulator of a patient as it is,
    whether it returns or raises; the [costs] and [utilities] that a freshly
    constructed cohort extracts are therefore [0] for every patient, whatever
    the parameters and the number of steps. *)
Theorem Guarded_cohort_totals_are_zero :
  (forall (self self' : Guarded.Patient.t) (n_time_steps : Z),
      state_after (Guarded.Patient.simulate self n_time_steps) = Some self' ->
      Guarded.PatientStateMonitor.costUtilityMonitor (Guarded.Patient.stateMonitor self')
      = Guarded.PatientStateMonitor.costUtilityMonitor (Guarded.Patient.stateMonitor self))
  /\ (forall (cid pop_size n_time_steps : Z) (p : Parameters) (c' : Guarded.Cohort.t),
      Guarded.Cohort.simulate (Guarded.Cohort.init cid pop_size p) n_time_steps = Returns c' ->
      Guarded.CohortOutcomes.costs (Guarded.Cohort.cohortOutcomes c')
      = replicate (Z.to_nat pop_size) 0%Q
      /\ Guarded.CohortOutcomes.utilities (Guarded.Cohort.cohortOutcomes c')
         = replicate (Z.to_nat pop_size) 0%Q).
Proof.
  split; [exact Guarded_simulate_keeps_accumulator|].
  intros cid pop_size n p c'. unfold Guarded.Cohort.simulate.
  destruct (Guarded.Cohort.simulate_patients _ n) as [ps|e ps|] eqn:Hsim; try discriminate.
  destruct (Guarded.CohortOutcomes.extract_outcomes _ ps) as [o|e o|] eqn:Hex;
    try discriminate.
  intros [= <-]. simpl Guarded.Cohort.cohortOutcomes.
  destruct (Guarded_extract_outcomes_vectors Guarded.CohortOutcomes.init o ps)
    as (_ & _ & -> & ->); [exact (f_equal state_after Hex)|]. simpl app.
  assert (Hlen : length ps = Z.to_nat pop_size)
    by (apply (Guarded_cohort_size cid pop_size p n); rewrite Hsim; reflexivity).
  assert (Hacc : forall a, a ∈ ps ->
            Guarded.PatientStateMonitor.costUtilityMonitor (Guarded.Patient.stateMonitor a)
            = Guarded.PatientCostUtilityMonitor.init p).
  { intros a Ha. apply list_elem_of_lookup_1 in Ha as [i Hi].
    pose proof (Guarded_cohort_patient_simulated cid pop_size p n ps i a Hsim Hi) as Hone.
    apply (Guarded_simulate_keeps_accumulator
             (Guarded.Patient.init (Guarded.Patient.id a) p) a n).
    rewrite Hone. reflexivity. }
  rewrite <- Hlen. split; apply fmap_constant, Forall_forall; intros a Ha;
    rewrite (Hacc a Ha); reflexivity.
Qed.

Lemma EconEval_fresh_totals_nonneg (p : Parameters) (id n : Z) (a : EconEval.Patient.t) :
  nonnegative_inputs p ->
  state_after (EconEval.Patient.simulate (EconEval.Patient.init id p) n) = Some a ->
  (0 <= E_totalCost a)%Q /\ (0 <= E_totalUtility a)%Q.
Proof.
  intros Hnn Hs.
  destruct (EconEval_simulate_invariant
              (fun st => E_tables st.1 = p /\ (0 <= E_totalCost st.1)%Q
                         /\ (0 <= E_totalUtility st.1)%Q)
              (EconEval.Patient.init id p) a n) as (g & _ & Hc & Hu);
    [| |exact Hs|split; assumption].
  - intros st k st1 (Hp & Hc & Hu) _ _ Hb.
    destruct (EconEval_body_totals_monotone p st st1 k Hnn Hp Hb) as (Hp1 & Hc1 & Hu1).
    split; [assumption|].
    split; [exact (Qle_trans _ _ _ Hc Hc1) | exact (Qle_trans _ _ _ Hu Hu1)].
  - simpl. split; [reflexivity|]. split; apply Qle_refl.
Qed.

(** X13. With non-negative annual costs, utilities, treatment cost and
    discount rate, every entry of [costs] and of [utilities] that a freshly
    constructed cohort of [EconEvalMarkovModelClasses.py] extracts is
    non-negative. *)
Theorem EconEval_cohort_totals_nonneg
    (cid pop_size n_time_steps : Z) (p : Parameters) (c' : EconEval.Cohort.t) :
  nonnegative_inputs p ->
  EconEval.Cohort.simulate (EconEval.Cohort.init cid pop_size p) n_time_steps = Returns c' ->
  Forall (Qle 0) (EconEval.CohortOutcomes.costs (EconEval.Cohort.cohortOutcomes c'))
  /\ Forall (Qle 0) (EconEval.CohortOutcomes.utilities (EconEval.Cohort.cohortOutcomes c')).
Proof.
  intros Hnn. unfold EconEval.Cohort.simulate.
  destruct (EconEval.Cohort.simulate_patients _ n_time_steps) as [ps|e ps|] eqn:Hsim;
    try discriminate.
  destruct (EconEval.CohortOutcomes.extract_outcomes _ ps) as [o|e o|] eqn:Hex;
    try discriminate.
  intros [= <-]. simpl EconEval.Cohort.cohortOutcomes.
  destruct (EconEval_extract_outcomes_vectors EconEval.CohortOutcomes.init o ps)
    as (_ & _ & -> & ->); [exact (f_equal state_after Hex)|]. simpl app.
  assert (Hone : forall a, a ∈ ps -> (0 <= E_totalCost a)%Q /\ (0 <= E_totalUtility a)%Q).
  { intros a Ha. apply list_elem_of_lookup_1 in Ha as [i Hi].
    pose proof (EconEval_cohort_patient_simulated cid pop_size p n_time_steps ps i a Hsim Hi)
      as Hsim1.
    apply (EconEval_fresh_totals_nonneg p (EconEval.Patient.id a) n_time_steps a Hnn).
    rewrite Hsim1. reflexivity. }
  split; apply Forall_fmap, Forall_forall; intros a Ha; apply (Hone a Ha).
Qed.
End cohort_outcomes.

(** ** Simulating a cohort again *)

Section cohort_again.
Context {H : HealthStateEnum} {RC : RandomCarrier} {H0 : RandomSource}.
Context {LC : LibraryCarrier} {Lib : Library}.

Lemma Guarded_simulate_dead (a : Guarded.Patient.t) n :
  Guarded.PatientStateMonitor.currentState (Guarded.Patient.stateMonitor a) = HIV_DEATH ->
  Guarded.Patient.simulate a n = Returns a.
Proof.
  intros Hd. unfold Guarded.Patient.simulate. rewrite Guarded_simulate_run_loop.
  rewrite (loop_no_steps G_alive G_body n a 0); [reflexivity|].
  left. apply not_true_is_false. intros Ha. apply Guarded_alive_iff in Ha. contradiction.
Qed.

Lemma Guarded_simulate_patients_dead (ps : list Guarded.Patient.t) n :
  Forall (fun a => Guarded.PatientStateMonitor.currentState (Guarded.Patient.stateMonitor a)
                   = HIV_DEATH) ps ->
  Guarded.Cohort.simulate_patients ps n = Returns ps.
Proof.
  induction 1 as [|a ps Ha _ IH]; simpl; [reflexivity|].
  rewrite (Guarded_simulate_dead a n Ha), IH. reflexivity.
Qed.

(** X14. The outcome vectors are never reset.  In
    [EconEvalMarkovModelClasses.py] a second [simulate] with the same number
    of steps on a cohort that was fresh before the first builds the same
    patients again, from the same ids, and appends the same outcomes again:
    however the two calls complete, each of the four vectors is after the
    second call its value after the first call, twice.  In
    [MarkovModelClasses.py] [simulate] on a cohort whose patients are all dead
    leaves the patients as they are and appends their outcomes once more.
    Whether a call returns or raises after the vectors have been appended is
    decided by the library constructors, which are given the longer vectors. *)
Theorem simulate_again_appends_again :
  (forall (cid pop_size n_time_steps : Z) (p : Parameters) (c' : EconEval.Cohort.t),
      state_after
        (EconEval.Cohort.simulate (EconEval.Cohort.init cid pop_size p) n_time_steps)
      = Some c' ->
      (exists c'' : EconEval.Cohort.t,
          state_after (EconEval.Cohort.simulate c' n_time_steps) = Some c'')
      /\ forall c'' : EconEval.Cohort.t,
          state_after (EconEval.Cohort.simulate c' n_time_steps) = Some c'' ->
          EconEval.CohortOutcomes.survivalTimes (EconEval.Cohort.cohortOutcomes c'')
          = EconEval.CohortOutcomes.survivalTimes (EconEval.Cohort.cohortOutcomes c')
            ++ EconEval.CohortOutcomes.survivalTimes (EconEval.Cohort.cohortOutcomes c')
          /\ EconEval.CohortOutcomes.timesToAIDS (EconEval.Cohort.cohortOutcomes c'')
             = EconEval.CohortOutcomes.timesToAIDS (EconEval.Cohort.cohortOutcomes c')
               ++ EconEval.CohortOutcomes.timesToAIDS (EconEval.Cohort.cohortOutcomes c')
          /\ EconEval.CohortOutcomes.costs (EconEval.Cohort.cohortOutcomes c'')
             = EconEval.CohortOutcomes.costs (EconEval.Cohort.cohortOutcomes c')
               ++ EconEval.CohortOutcomes.costs (EconEval.Cohort.cohortOutcomes c')
          /\ EconEval.CohortOutcomes.utilities (EconEval.Cohort.cohortOutcomes c'')
             = EconEval.CohortOutcomes.utilities (EconEval.Cohort.cohortOutcomes c')
               ++ EconEval.CohortOutcomes.utilities (EconEval.Cohort.cohortOutcomes c'))
  /\ (forall (c : Guarded.Cohort.t) (n_time_steps : Z),
      Forall (fun a => Guarded.PatientStateMonitor.currentState
                         (Guarded.Patient.stateMonitor a) = HIV_DEATH)
             (Guarded.Cohort.patients c) ->
      (exists c' : Guarded.Cohort.t,
          state_after (Guarded.Cohort.simulate c n_time_steps) = Some c')
      /\ forall c' : Guarded.Cohort.t,
          state_after (Guarded.Cohort.simulate c n_time_steps) = Some c' ->
          Guarded.Cohort.patients c' = Guarded.Cohort.patients c
          /\ state_after
               (Guarded.CohortOutcomes.extract_outcomes
                  (Guarded.Cohort.cohortOutcomes c) (Guarded.Cohort.patients c))
             = Some (Guarded.Cohort.cohortOutcomes c')
          /\ Guarded.CohortOutcomes.survivalTimes (Guarded.Cohort.cohortOutcomes c')
             = Guarded.CohortOutcomes.survivalTimes (Guarded.Cohort.cohortOutcomes c)
               ++ omap (fun a => Guarded.PatientStateMonitor.survivalTime
                                   (Guarded.Patient.stateMonitor a))
                       (Guarded.Cohort.patients c)
          /\ length (Guarded.CohortOutcomes.costs (Guarded.Cohort.cohortOutcomes c'))
             = (length (Guarded.CohortOutcomes.costs (Guarded.Cohort.cohortOutcomes c))
                + length (Guarded.Cohort.patients c))%nat
          /\ length (Guarded.CohortOutcomes.utilities (Guarded.Cohort.cohortOutcomes c'))
             = (length (Guarded.CohortOutcomes.utilities (Guarded.Cohort.cohortOutcomes c))
                + length (Guarded.Cohort.patients c))%nat).
Proof.
  split.
  - intros cid pop_size n p c'. unfold EconEval.Cohort.simulate at 1.
    destruct (EconEval.Cohort.simulate_patients _ n) as [ps|e ps|] eqn:Hsim;
      [|intros [= <-]|discriminate].
    + pose proof (EconEval_extract_outcomes_total EconEval.CohortOutcomes.init ps) as Htot.
      destruct (EconEval.CohortOutcomes.extract_outcomes _ ps) as [o|e o|] eqn:Hex;
        [| |discriminate]; intros [= <-]; unfold EconEval.Cohort.simulate;
        change (EconEval.Cohort.populate _)
          with (EconEval.Cohort.populate (EconEval.Cohort.init cid pop_size p));
        rewrite Hsim; simpl EconEval.Cohort.cohortOutcomes;
        pose proof (EconEval_extract_outcomes_total o ps) as Htot2;
        destruct (EconEval_extract_outcomes_vectors EconEval.CohortOutcomes.init o ps
                    (f_equal state_after Hex)) as (E1 & E2 & E3 & E4);
        simpl app in E1, E2, E3, E4;
        (split;
         [destruct (EconEval.CohortOutcomes.extract_outcomes o ps) as [o2|e2 o2|];
          [eexists; reflexivity | eexists; reflexivity | contradiction]|]);
        intros c'' Hc'';
        (assert (Hex2 : state_after (EconEval.CohortOutcomes.extract_outcomes o ps)
                        = Some (EconEval.Cohort.cohortOutcomes c''))
           by (destruct (EconEval.CohortOutcomes.extract_outcomes o ps) as [o2|e2 o2|];
               simpl in Hc'' |- *; [| |discriminate]; injection Hc'' as <-; reflexivity));
        destruct (EconEval_extract_outcomes_vectors o _ ps Hex2) as (-> & -> & -> & ->);
        rewrite E1, E2, E3, E4; repeat split; reflexivity.
    + unfold EconEval.Cohort.simulate. rewrite Hsim. simpl.
      split; [eexists; reflexivity|]. intros c'' [= <-]. simpl. repeat split; reflexivity.
  - intros c n Hdead. unfold Guarded.Cohort.simulate.
    rewrite (Guarded_simulate_patients_dead _ n Hdead).
    pose proof (Guarded_extract_outcomes_total (Guarded.Cohort.cohortOutcomes c)
                  (Guarded.Cohort.patients c)) as Htot.
    destruct (Guarded.CohortOutcomes.extract_outcomes _ _) as [o|e o|] eqn:Hex;
      [| |contradiction];
      (split; [eexists; reflexivity|]); intros c' [= <-]; simpl;
      (split; [reflexivity|]); (split; [reflexivity|]);
      destruct (Guarded_extract_outcomes_loop (Guarded.Cohort.cohortOutcomes c) o
                  (Guarded.Cohort.patients c) (f_equal state_after Hex))
        as (-> & _ & -> & ->);
      destruct (Guarded_record_patients_vectors (Guarded.Cohort.cohortOutcomes c)
                  (Guarded.Cohort.patients c)) as (-> & _ & -> & ->);
      rewrite !length_app, !length_fmap; repeat split; reflexivity.
Qed.
End cohort_again.

(** ** Runs of the further configurations *)

Section variant_runs.
Import Scenario Variants.
#[local] Existing Instances HIV3_enum Z_carrier inversion_sampler.
#[local] Existing Instances plain_objects checking_library.

(** On [progressing], patient 0 enters AIDS at step 0 and dies at step 1. *)
Lemma timeToAIDS_before_survivalTime_witness :
  exists (self' : Guarded.Patient.t) (k : Z),
    Guarded.Patient.simulate_run (Guarded.Patient.init 0 progressing) 5 = Returns (self', k)
    /\ Guarded.PatientStateMonitor.timeToAIDS (Guarded.Patient.stateMonitor self') = Some (1 # 2)%Q
    /\ Guarded.PatientStateMonitor.survivalTime (Guarded.Patient.stateMonitor self')
       = Some (3 # 2)%Q
    /\ (1 # 2 < 3 # 2)%Q.
Proof.
  destruct (timeToAIDS_before_survivalTime (H:=HIV3_enum) (H0:=inversion_sampler)
              progressing 0 5) as [Hg _]; [discriminate|].
  let r := eval vm_compute in
             (Guarded.Patient.simulate_run (H:=HIV3_enum) (H0:=inversion_sampler)
                (Guarded.Patient.init 0 progressing) 5) in
  match r with
  | Returns (?a, ?k) =>
      assert (Hrun : Guarded.Patient.simulate_run (H:=HIV3_enum) (H0:=inversion_sampler)
                       (Guarded.Patient.init 0 progressing) 5 = Returns (a, k))
        by (vm_compute; reflexivity);
      exists a, k; destruct (Hg a k Hrun) as [_ Hlt];
      split; [exact Hrun|]; split; [reflexivity|]; split; [reflexivity|];
      apply (Hlt (1 # 2)%Q (3 # 2)%Q); reflexivity
  end.
Defined.

(** On [progressing], patient 0 is dead after two steps; seven steps end in
    the same patient. *)
Lemma simulate_longer_ends_the_same_witness :
  exists a : Guarded.Patient.t,
    Guarded.Patient.simulate (Guarded.Patient.init 0 progressing) 2 = Returns a
    /\ Guarded.PatientStateMonitor.currentState (Guarded.Patient.stateMonitor a) = Death
    /\ Guarded.Patient.simulate (Guarded.Patient.init 0 progressing) 7 = Returns a.
Proof.
  destruct (simulate_longer_ends_the_same (H:=HIV3_enum) (H0:=inversion_sampler)
              (Guarded.Patient.init 0 progressing) (EconEval.Patient.init 0 progressing) 2 7)
    as (Hg & _); [lia|].
  let r := eval vm_compute in
             (Guarded.Patient.simulate (H:=HIV3_enum) (H0:=inversion_sampler)
                (Guarded.Patient.init 0 progressing) 2) in
  match r with
  | Returns ?a =>
      assert (Hrun : Guarded.Patient.simulate (H:=HIV3_enum) (H0:=inversion_sampler)
                       (Guarded.Patient.init 0 progressing) 2 = Returns a)
        by (vm_compute; reflexivity);
      exists a; split; [exact Hrun|]; split; [reflexivity|];
      apply (Hg a Hrun); reflexivity
  end.
Defined.

(** A cohort of eight patients on the scenario's parameters, ten steps. *)
Lemma EconEval_cohort_totals_nonneg_witness :
  exists c' : EconEval.Cohort.t,
    EconEval.Cohort.simulate (EconEval.Cohort.init 0 8 parameters) 10 = Returns c'
    /\ Forall (Qle 0) (EconEval.CohortOutcomes.costs (EconEval.Cohort.cohortOutcomes c'))
    /\ Forall (Qle 0) (EconEval.CohortOutcomes.utilities (EconEval.Cohort.cohortOutcomes c')).
Proof.
  let r := eval vm_compute in
             (EconEval.Cohort.simulate (H:=HIV3_enum) (H0:=inversion_sampler)
                (EconEval.Cohort.init 0 8 parameters) 10) in
  match r with
  | Returns ?c =>
      assert (Hsim : EconEval.Cohort.simulate (H:=HIV3_enum) (H0:=inversion_sampler)
                       (EconEval.Cohort.init 0 8 parameters) 10 = Returns c)
        by (vm_compute; reflexivity);
      exists c; split; [exact Hsim|];
      apply (EconEval_cohort_totals_nonneg (H:=HIV3_enum) (H0:=inversion_sampler)
               0 8 10 parameters c scenario_nonnegative_inputs Hsim)
  end.
Defined.

(** On [short_tables], the step of patient 0 from AIDS to death reads the
    cost of death past the end of the table: the monitor keeps AIDS as its
    state and holds the survival time 1.5. *)
Lemma EconEval_update_failed_read_is_half_done_witness :
  exists (a : EconEval.Patient.t) (m' : EconEval.PatientStateMonitor.t),
    EconEval.Patient.simulate (EconEval.Patient.init 0 short_tables) 1 = Returns a
    /\ EconEval.PatientStateMonitor.update (EconEval.Patient.stateMonitor a) 1 Death
       = Raises IndexError m'
    /\ EconEval.PatientStateMonitor.currentState m' = Aids
    /\ EconEval.PatientStateMonitor.survivalTime m' = Some (3 # 2)%Q.
Proof.
  let r := eval vm_compute in
             (EconEval.Patient.simulate (H:=HIV3_enum) (H0:=inversion_sampler)
                (EconEval.Patient.init 0 short_tables) 1) in
  match r with
  | Returns ?a =>
      assert (Hrun : EconEval.Patient.simulate (H:=HIV3_enum) (H0:=inversion_sampler)
                       (EconEval.Patient.init 0 short_tables) 1 = Returns a)
        by (vm_compute; reflexivity);
      destruct (EconEval_update_failed_read_is_half_done (H:=HIV3_enum)
                  (EconEval.Patient.stateMonitor a) 1 Death) as [Hfail _];
      destruct Hfail as (m' & Hu & Hcur & _ & Hst & _);
        [right; left; reflexivity|];
      exists a, m'; split; [exact Hrun|]; split; [exact Hu|];
      split; [rewrite Hcur; reflexivity | rewrite Hst; reflexivity]
  end.
Defined.

(** On [missing_row], patient 0 of the guarded engine is in AIDS after step 0
    and finds no row at step 1; on [long_row] it samples the index 3 there.
    On [short_tables], patient 0 of the other engine fails in [update] at
    step 1; on [unnormalised] the library refuses the matrix before the first
    step. *)
Lemma simulate_raises_at_a_step_witness :
  exists (a b : Guarded.Patient.t) (c : EconEval.Patient.t),
    Guarded.Patient.simulate (Guarded.Patient.init 0 missing_row) 5 = Raises IndexError a
    /\ Guarded.Patient.simulate (Guarded.Patient.init 0 long_row) 5 = Raises ValueError b
    /\ EconEval.Patient.simulate (EconEval.Patient.init 0 short_tables) 5 = Raises IndexError c
    /\ EconEval.Patient.simulate (EconEval.Patient.init 0 unnormalised) 5
       = Raises ValueError (EconEval.Patient.init 0 unnormalised)
    /\ (exists (k : Z) (x : Guarded.Patient.t),
           (0 <= k < 5)%Z
           /\ Guarded.Patient.simulate (Guarded.Patient.init 0 missing_row) k = Returns x
           /\ Guarded.Patient.stateMonitor a = Guarded.Patient.stateMonitor x)
    /\ (exists (k : Z) (x : EconEval.Patient.t) (s : HIV3),
           (0 <= k < 5)%Z
           /\ EconEval.Patient.simulate (EconEval.Patient.init 0 short_tables) k = Returns x
           /\ EconEval.PatientStateMonitor.update (EconEval.Patient.stateMonitor x) k s
              = Raises IndexError (EconEval.Patient.stateMonitor c)).
Proof.
  let ra := eval vm_compute in
              (Guarded.Patient.simulate (H:=HIV3_enum) (H0:=inversion_sampler)
                 (Guarded.Patient.init 0 missing_row) 5) in
  let rb := eval vm_compute in
              (Guarded.Patient.simulate (H:=HIV3_enum) (H0:=inversion_sampler)
                 (Guarded.Patient.init 0 long_row) 5) in
  let rc := eval vm_compute in
              (EconEval.Patient.simulate (H:=HIV3_enum) (H0:=inversion_sampler)
                 (EconEval.Patient.init 0 short_tables) 5) in
  match constr:((ra, rb, rc)) with
  | (Raises IndexError ?a, Raises ValueError ?b, Raises IndexError ?c) =>
      assert (Ha : Guarded.Patient.simulate (H:=HIV3_enum) (H0:=inversion_sampler)
                     (Guarded.Patient.init 0 missing_row) 5 = Raises IndexError a)
        by (vm_compute; reflexivity);
      assert (Hc : EconEval.Patient.simulate (H:=HIV3_enum) (H0:=inversion_sampler)
                     (EconEval.Patient.init 0 short_tables) 5 = Raises IndexError c)
        by (vm_compute; reflexivity);
      exists a, b, c; split; [exact Ha|];
      split; [vm_compute; reflexivity|]; split; [exact Hc|];
      split; [vm_compute; reflexivity|];
      destruct (simulate_raises_at_a_step (H:=HIV3_enum) (H0:=inversion_sampler)
                  (Guarded.Patient.init 0 missing_row) a
                  (EconEval.Patient.init 0 short_tables) c 5 IndexError) as [Hg He];
      split;
      [ destruct (Hg Ha) as (k & x & Hk & Hx & _ & Hm & _);
        exists k, x; split; [exact Hk|]; split; [exact Hx | exact Hm]
      | destruct (He Hc)
          as [[Hmjp _]|(_ & k & x & Hk & Hx & _ & [(He1 & _)|[(He2 & _)|(s & Hu)]])];
        [ discriminate Hmjp | discriminate He1 | discriminate He2
        | exists k, x, s; split; [exact Hk|]; split; [exact Hx | exact Hu] ] ]
  end.
Defined.

(** On [missing_row], a guarded cohort of two patients: the first patient
    raises, the second is untouched and nothing is extracted.  On the
    scenario's parameters, a cohort of two patients and three steps: both
    patients are simulated, their two costs are appended, and the library
    refuses the empty vector of survival times. *)
Lemma cohort_simulate_stops_at_first_exception_witness :
  exists (c' : Guarded.Cohort.t) (d' : EconEval.Cohort.t),
    Guarded.Cohort.simulate (Guarded.Cohort.init 0 2 missing_row) 5 = Raises IndexError c'
    /\ Guarded.Cohort.cohortOutcomes c' = Guarded.CohortOutcomes.init
    /\ Guarded.Cohort.patients c' !! 1%nat = Some (Guarded.Patient.init 1 missing_row)
    /\ EconEval.Cohort.simulate (EconEval.Cohort.init 0 2 parameters) 3 = Raises ValueError d'
    /\ EconEval.CohortOutcomes.survivalTimes (EconEval.Cohort.cohortOutcomes d') = []
    /\ length (EconEval.CohortOutcomes.costs (EconEval.Cohort.cohortOutcomes d')) = 2%nat.
Proof.
  let r := eval vm_compute in
             (Guarded.Cohort.simulate (H:=HIV3_enum) (H0:=inversion_sampler)
                (Guarded.Cohort.init 0 2 missing_row) 5) in
  let r' := eval vm_compute in
              (EconEval.Cohort.simulate (H:=HIV3_enum) (H0:=inversion_sampler)
                 (EconEval.Cohort.init 0 2 parameters) 3) in
  match constr:((r, r')) with
  | (Raises IndexError ?c, Raises ValueError ?d) =>
      assert (Hsim : Guarded.Cohort.simulate (H:=HIV3_enum) (H0:=inversion_sampler)
                       (Guarded.Cohort.init 0 2 missing_row) 5 = Raises IndexError c)
        by (vm_compute; reflexivity);
      exists c, d; split; [exact Hsim|];
      destruct (cohort_simulate_stops_at_first_exception (H:=HIV3_enum)
                  (H0:=inversion_sampler)) as [Hg _];
      destruct (Hg _ c 5%Z IndexError Hsim) as [(Ho & _)|(Hps & _)];
      [ split; [exact Ho|]; split; [vm_compute; reflexivity|];
        split; [vm_compute; reflexivity|]; split; reflexivity
      | vm_compute in Hps; discriminate Hps ]
  end.
Defined.

(** On [progressing], a cohort of one patient simulated twice: the survival
    time 1.5 of its patient is recorded twice. *)
Lemma simulate_again_appends_again_witness :
  exists c' c'' : EconEval.Cohort.t,
    EconEval.Cohort.simulate (EconEval.Cohort.init 0 1 progressing) 5 = Returns c'
    /\ EconEval.Cohort.simulate c' 5 = Returns c''
    /\ EconEval.CohortOutcomes.survivalTimes (EconEval.Cohort.cohortOutcomes c')
       = [(3 # 2)%Q]
    /\ EconEval.CohortOutcomes.survivalTimes (EconEval.Cohort.cohortOutcomes c'')
       = [(3 # 2)%Q; (3 # 2)%Q].
Proof.
  let r := eval vm_compute in
             (EconEval.Cohort.simulate (H:=HIV3_enum) (H0:=inversion_sampler)
                (EconEval.Cohort.init 0 1 progressing) 5) in
  match r with
  | Returns ?c =>
      let r2 := eval vm_compute in
                  (EconEval.Cohort.simulate (H:=HIV3_enum) (H0:=inversion_sampler) c 5) in
      match r2 with
      | Returns ?c2 =>
          assert (Hsim : EconEval.Cohort.simulate (H:=HIV3_enum) (H0:=inversion_sampler)
                           (EconEval.Cohort.init 0 1 progressing) 5 = Returns c)
            by (vm_compute; reflexivity);
          assert (Hsim2 : EconEval.Cohort.simulate (H:=HIV3_enum) (H0:=inversion_sampler)
                            c 5 = Returns c2)
            by (vm_compute; reflexivity);
          destruct (simulate_again_appends_again (H:=HIV3_enum) (H0:=inversion_sampler))
            as [He _];
          destruct (He 0%Z 1%Z 5%Z progressing c (f_equal state_after Hsim)) as [_ Hall];
          destruct (Hall c2 (f_equal state_after Hsim2)) as (Hst & _);
          exists c, c2; split; [exact Hsim|]; split; [exact Hsim2|];
          split; [reflexivity | rewrite Hst; reflexivity]
      end
  end.
Defined.
End variant_runs.
